(** * RapidPro API v2: flow starts and definition export

    A shallow embedding of [temba/api/v2/serializers.py] and
    [temba/api/v2/views.py]: the write-serializer pipeline behind
    [FlowStartsEndpoint] and [ResthookSubscriberEndpoint], and the
    dependency export of [DefinitionsEndpoint].

    Python objects are modelled by records, querysets by lists of rows in
    table order, Python sets of model instances by [gset]s of primary keys,
    and the database together with the task queue by an explicit state that
    every effectful operation threads. *)

From Stdlib Require Import String Ascii List ZArith Lia Bool.
From stdpp Require Import base option list strings gmap sets fin_sets.
From Equations Require Import Equations.
Import ListNotations.

Local Open Scope string_scope.
Local Open Scope list_scope.
Set Warnings "-register-all,-clear-no-such-hyp".
Set Default Proof Using "Type".

(** ** Request data *)

(** A decoded JSON request body. *)
Inductive json : Type :=
| JNull
| JBool (b : bool)
| JNum (n : Z)
| JStr (s : string)
| JList (items : list json)
| JObj (members : list (string * json)).

(** [isinstance(data, dict)] *)
Definition is_dict (data : json) : bool :=
  match data with JObj _ => true | _ => false end.

(** Ordered dictionaries with string keys: [d.get(k)] and [d[k] = v]. *)
Fixpoint dict_get {A : Type} (k : string) (d : list (string * A)) : option A :=
  match d with
  | [] => None
  | (k', v) :: d' => if String.eqb k k' then Some v else dict_get k d'
  end.

Fixpoint dict_set {A : Type} (k : string) (v : A) (d : list (string * A))
  : list (string * A) :=
  match d with
  | [] => [(k, v)]
  | (k', v') :: d' =>
      if String.eqb k k' then (k, v) :: d' else (k', v') :: dict_set k v d'
  end.

(** [data.get(name, empty)] on the request body. *)
Definition json_get (name : string) (data : json) : option json :=
  match data with JObj members => dict_get name members | _ => None end.

(** Django's [QueryDict]: each key carries the list of its values. *)
Definition QueryDict := list (string * list string).

(** [key in params] *)
Definition qd_contains (params : QueryDict) (key : string) : bool :=
  match dict_get key params with Some _ => true | None => false end.

(** [params.getlist(key)] *)
Definition qd_getlist (params : QueryDict) (key : string) : list string :=
  match dict_get key params with Some vs => vs | None => [] end.

(** [params.get(key, default)]: the last value of the key. *)
Definition qd_get (params : QueryDict) (key default : string) : string :=
  match dict_get key params with
  | Some vs => List.last vs default
  | None => default
  end.

(** ** The data store *)

(** The models of [temba] are outside the two modules: a row carries the
    columns the serializers and views read or filter on. *)

Definition uuid := string.

(** Modelled from the spec: what a flow depends on is computed by the
    missing [temba.flows.models]; a flow has zero or more dependent flows
    (sub-flow references) and zero or more groups and triggers it depends
    on, kept here by primary key. *)
Record Flow := mkFlow {
  flow_id : nat;
  flow_uuid : uuid;
  flow_name : string;
  flow_org : nat;
  flow_is_active : bool;
  flow_flows : list nat;
  flow_groups : list nat;
  flow_triggers : list nat
}.

Record Contact := mkContact {
  contact_id : nat;
  contact_uuid : uuid;
  contact_name : string;
  contact_org : nat;
  contact_is_active : bool;
  contact_urns : list string;
  contact_created_by : nat
}.

Record ContactGroup := mkContactGroup {
  group_id : nat;
  group_uuid : uuid;
  group_name : string;
  group_org : nat;
  group_is_active : bool
}.

Inductive EventType := TYPE_FLOW | TYPE_MESSAGE.

Record CampaignEvent := mkCampaignEvent {
  event_type : EventType;
  event_is_active : bool;
  event_flow : option nat
}.

Record Campaign := mkCampaign {
  campaign_id : nat;
  campaign_uuid : uuid;
  campaign_org : nat;
  campaign_events : list CampaignEvent
}.

Inductive Status := STATUS_PENDING | STATUS_STARTING | STATUS_COMPLETE | STATUS_FAILED.

Record FlowStart := mkFlowStart {
  start_id : nat;
  start_flow : Flow;
  start_created_by : nat;
  start_restart_participants : bool;
  start_contacts : list Contact;
  start_groups : list ContactGroup;
  start_status : Status;
  start_created_on : nat;
  start_modified_on : nat
}.

Record Resthook := mkResthook {
  resthook_id : nat;
  resthook_slug : string;
  resthook_org : nat;
  resthook_is_active : bool
}.

Record ResthookSubscriber := mkResthookSubscriber {
  subscriber_id : nat;
  subscriber_resthook : nat;
  subscriber_target_url : string;
  subscriber_is_active : bool
}.

(** What the request handler did to flow starts, in order. *)
Inductive Event :=
| StartCreated (id : nat)
| StartDispatched (id : nat).

Record DB := mkDB {
  Flow_objects : list Flow;
  Contact_objects : list Contact;
  ContactGroup_objects : list ContactGroup;
  Campaign_objects : list Campaign;
  FlowStart_objects : list FlowStart;
  Resthook_objects : list Resthook;
  ResthookSubscriber_objects : list ResthookSubscriber;
  task_queue : list nat;   (* flow starts handed to the worker *)
  history : list Event;
  now : nat;               (* logical clock for timestamps *)
  queue_reachable : bool   (* whether the job system takes a hand-off *)
}.

(** The serializer context set up by [BaseAPIView.get_serializer_context]. *)
Record Context := mkContext {
  ctx_org : nat;
  ctx_user : nat
}.

(** ** Validation results *)

(** Values held by [validated_data]. *)
Inductive pyobj : Type :=
| VJson (j : json)
| VUUID (u : uuid)
| VText (s : string)
| VBool (b : bool)
| VFlow (f : Flow)
| VContact (c : Contact)
| VGroup (g : ContactGroup)
| VList (items : list pyobj).

(** An error message: a literal, or a ["... %s" % arg] template with its
    argument. *)
Inductive message : Type :=
| Msg (text : string)
| Fmt (template : string) (arg : pyobj).

(** A computation either returns or raises a [ValidationError]. *)
Inductive result (A : Type) : Type :=
| Ok (a : A)
| Invalid (detail : list message).
Arguments Ok {A} a.
Arguments Invalid {A} detail.

(** Effectful code threads the store; what it wrote stays written when a
    [ValidationError] is raised ([BaseAPIView.dispatch] is
    [non_atomic_requests]). *)
Definition M (A : Type) : Type := DB -> result A * DB.

Definition ret {A : Type} (a : A) : M A := fun db => (Ok a, db).
Definition raise {A : Type} (detail : list message) : M A :=
  fun db => (Invalid detail, db).

(** Record updates of the store. *)
Definition with_contacts (db : DB) (cs : list Contact) : DB :=
  mkDB (Flow_objects db) cs (ContactGroup_objects db) (Campaign_objects db)
       (FlowStart_objects db) (Resthook_objects db)
       (ResthookSubscriber_objects db) (task_queue db) (history db) (now db)
       (queue_reachable db).

Definition with_flow_start (db : DB) (s : FlowStart) : DB :=
  mkDB (Flow_objects db) (Contact_objects db) (ContactGroup_objects db)
       (Campaign_objects db) (FlowStart_objects db ++ [s])
       (Resthook_objects db) (ResthookSubscriber_objects db)
       (task_queue db) (history db ++ [StartCreated (start_id s)]) (now db)
       (queue_reachable db).

Definition with_task (db : DB) (id : nat) : DB :=
  mkDB (Flow_objects db) (Contact_objects db) (ContactGroup_objects db)
       (Campaign_objects db) (FlowStart_objects db)
       (Resthook_objects db) (ResthookSubscriber_objects db)
       (task_queue db ++ [id]) (history db ++ [StartDispatched id]) (now db)
       (queue_reachable db).

Definition with_dispatch (db : DB) (id : nat) : DB :=
  mkDB (Flow_objects db) (Contact_objects db) (ContactGroup_objects db)
       (Campaign_objects db) (FlowStart_objects db)
       (Resthook_objects db) (ResthookSubscriber_objects db)
       (task_queue db) (history db ++ [StartDispatched id]) (now db)
       (queue_reachable db).

(** The next primary key of a table. *)
Definition fresh_id (ids : list nat) : nat := S (foldr Nat.max 0 ids).

(** ** The REST framework's validation pipeline

    [rest_framework.serializers.Serializer] drives the write serializers:
    [is_valid] calls [run_validation], which validates the declared fields
    one by one, each followed by the serializer's [validate_<name>] method,
    and then calls [validate]. Only declared fields are read from the
    request body and written to [validated_data]. *)

Definition is_space (a : ascii) : bool :=
  let n := nat_of_ascii a in
  Nat.eqb n 32 || (Nat.leb 9 n && Nat.leb n 13).

(** [six.text_type(data).strip() == ''] on a string. *)
Fixpoint is_blank (s : string) : bool :=
  match s with
  | EmptyString => true
  | String a s' => is_space a && is_blank s'
  end.

(** [Field.run_validation]: [None] is refused (no field here allows null),
    anything else goes to the field's [to_internal_value]. *)
Definition Field_run_validation {A : Type}
    (to_internal_value : json -> result A) (data : json) : result A :=
  match data with
  | JNull => Invalid [Msg "This field may not be null."]
  | _ => to_internal_value data
  end.

(** [CharField.run_validation]: blank text is refused before anything else. *)
Definition CharField_run_validation {A : Type}
    (to_internal_value : json -> result A) (data : json) : result A :=
  match data with
  | JStr s =>
      if is_blank s then Invalid [Msg "This field may not be blank."]
      else Field_run_validation to_internal_value data
  | _ => Field_run_validation to_internal_value data
  end.

(** [[child.run_validation(item) for item in data]]: the first failing item
    raises. *)
Fixpoint run_children {A : Type} (child : json -> result A) (items : list json)
  : result (list A) :=
  match items with
  | [] => Ok []
  | item :: items' =>
      match child item with
      | Invalid detail => Invalid detail
      | Ok v =>
          match run_children child items' with
          | Invalid detail => Invalid detail
          | Ok vs => Ok (v :: vs)
          end
      end
  end.

(** [ListField.to_internal_value] *)
Definition ListField_to_internal_value {A : Type}
    (child : json -> result A) (data : json) : result (list A) :=
  match data with
  | JList items => run_children child items
  | _ => Invalid [Fmt "Expected a list of items but got type %s." (VJson data)]
  end.

(** A declared serializer field: its name, whether it is required, the type
    its [run_validation] produces, and the [validate_<name>] method of the
    serializer, which yields what is stored in [validated_data]. *)
Record Field := mkField {
  field_name : string;
  field_required : bool;
  field_type : Type;
  field_run_validation : json -> result field_type;
  field_validate : Context -> field_type -> M pyobj
}.

Definition dict := list (string * pyobj).
Definition errors := list (string * list message).

(** What [Serializer.to_internal_value] gets from one field: nothing when
    an optional field is absent ([SkipField]), otherwise the value of
    [run_validation] followed by [validate_<name>], or the error of either. *)
Definition field_outcome (ctx : Context) (data : json) (f : Field) (db : DB)
  : option (result pyobj * DB) :=
  match json_get (field_name f) data with
  | None =>
      if field_required f
      then Some (Invalid [Msg "This field is required."], db)
      else None
  | Some primitive_value =>
      match field_run_validation f primitive_value with
      | Invalid detail => Some (Invalid detail, db)
      | Ok v => Some (field_validate f ctx v db)
      end
  end.

(** One round of the loop of [Serializer.to_internal_value]: a failing
    field is recorded in [errors], a valid one in the result. Every field
    is visited, whatever happened to the fields before it. *)
Definition field_step (ctx : Context) (data : json)
    (acc : dict * errors * DB) (f : Field) : dict * errors * DB :=
  let '(validated, errs, db) := acc in
  match field_outcome ctx data f db with
  | None => acc
  | Some (Ok v, db') => (dict_set (field_name f) v validated, errs, db')
  | Some (Invalid detail, db') =>
      (validated, dict_set (field_name f) detail errs, db')
  end.

(** The outcome of [is_valid]: [validated_data] or [errors]. *)
Inductive validation : Type :=
| Valid (validated_data : dict)
| Errors (errs : errors).

(** A write serializer: declared fields, [validate] and [save]. [save]
    yields [None] when it raises (a missing key of [validated_data]). *)
Record Serializer (I : Type) := mkSerializer {
  fields : list Field;
  validate : Context -> dict -> M dict;
  save : Context -> dict -> DB -> option I * DB
}.
Arguments fields {I} _.
Arguments validate {I} _ _ _ _.
Arguments save {I} _ _ _ _.

(** [Serializer.run_validation]: all fields first; [validate] only when no
    field failed, its error going under [non_field_errors]. *)
Definition Serializer_run_validation {I : Type} (S : Serializer I)
    (ctx : Context) (data : json) (db : DB) : validation * DB :=
  let '(validated, errs, db1) :=
    fold_left (field_step ctx data) (fields S) ([], [], db) in
  match errs with
  | _ :: _ => (Errors errs, db1)
  | [] =>
      match validate S ctx validated db1 with
      | (Ok validated', db2) => (Valid validated', db2)
      | (Invalid detail, db2) => (Errors [("non_field_errors", detail)], db2)
      end
  end.

(** [WriteSerializer.run_validation] *)
Definition WriteSerializer_run_validation {I : Type} (S : Serializer I)
    (ctx : Context) (data : json) (db : DB) : validation * DB :=
  if negb (is_dict data)
  then (Errors [("non_field_errors",
                 [Msg "Request body should be a single JSON object"])], db)
  else Serializer_run_validation S ctx data db.

(** ** Responses *)

Definition HTTP_200_OK : nat := 200.
Definition HTTP_201_CREATED : nat := 201.
Definition HTTP_400_BAD_REQUEST : nat := 400.
Definition HTTP_500_INTERNAL_SERVER_ERROR : nat := 500.

(** The export document: the flows, campaigns and triggers handed to
    [org.export_definitions], by primary key. *)
Record Export := mkExport {
  export_flows : gset nat;
  export_campaigns : gset nat;
  export_triggers : gset nat
}.

Inductive Body : Type :=
| BodyErrors (errs : errors)
| BodyData (data : json)
| BodyExport (export : Export)
| BodyException.

Record Response := mkResponse {
  body : Body;
  status : nat
}.

(** ** Write endpoints *)

(** What an endpoint mixing in [CreateAPIMixin] supplies: the write
    serializer, the read serializer rendering the created object, and the
    [post_save] hook, which returns nothing or raises ([None]). *)
Record CreateAPIMixin (I : Type) := mkCreateAPIMixin {
  write_serializer_class : Serializer I;
  serializer_class : Context -> I -> json;
  post_save : I -> DB -> option unit * DB
}.
Arguments write_serializer_class {I} _.
Arguments serializer_class {I} _ _ _.
Arguments post_save {I} _ _ _.

Definition render_write_response {I : Type} (E : CreateAPIMixin I)
    (write_output : I) (ctx : Context) : Response :=
  mkResponse (BodyData (serializer_class E ctx write_output)) HTTP_201_CREATED.

(** [CreateAPIMixin.post]. Nothing is caught: an exception escaping [save]
    or [post_save] becomes a 500, and what was written stays written. *)
Definition post {I : Type} (E : CreateAPIMixin I)
    (ctx : Context) (data : json) (db : DB) : Response * DB :=
  match WriteSerializer_run_validation (write_serializer_class E) ctx data db with
  | (Valid validated_data, db1) =>
      match save (write_serializer_class E) ctx validated_data db1 with
      | (Some output, db2) =>
          match post_save E output db2 with
          | (Some _, db3) => (render_write_response E output ctx, db3)
          | (None, db3) =>
              (mkResponse BodyException HTTP_500_INTERNAL_SERVER_ERROR, db3)
          end
      | (None, db2) =>
          (mkResponse BodyException HTTP_500_INTERNAL_SERVER_ERROR, db2)
      end
  | (Errors errs, db1) =>
      (mkResponse (BodyErrors errs) HTTP_400_BAD_REQUEST, db1)
  end.

(** ** Model operations *)

(** Modelled from the spec: [FlowStart.create] of [temba.flows.models] is
    missing. A flow start is one new row holding the target flow, the
    contact and group sets and the restart-participants flag, created with
    status pending and the current timestamps. *)
Definition FlowStart_create (flow : Flow) (user : nat)
    (restart_participants : bool) (contacts : list Contact)
    (groups : list ContactGroup) (db : DB) : FlowStart * DB :=
  let start :=
    mkFlowStart (fresh_id (map start_id (FlowStart_objects db))) flow user
                restart_participants contacts groups STATUS_PENDING
                (now db) (now db) in
  (start, with_flow_start db start).

(** Modelled from the spec: [FlowStart.async_start] is missing. It issues
    the hand-off of the start to the job system ([enqueue(start_id)]) and
    returns at once; enrollment is the worker's. The job system is an
    external collaborator: when it is unreachable the call raises ([None]),
    the hand-off was issued but the start is not on the queue. *)
Definition FlowStart_async_start (start : FlowStart) (db : DB)
  : option unit * DB :=
  if queue_reachable db
  then (Some tt, with_task db (start_id start))
  else (None, with_dispatch db (start_id start)).

(** [validated_data.get(key, [])] *)
Definition get_list (data : dict) (key : string) : list pyobj :=
  match dict_get key data with
  | Some (VList items) => items
  | _ => []
  end.

Definition contacts_of (items : list pyobj) : list Contact :=
  omap (fun v => match v with VContact c => Some c | _ => None end) items.

Definition groups_of (items : list pyobj) : list ContactGroup :=
  omap (fun v => match v with VGroup g => Some g | _ => None end) items.

(** Python's [bool(v)]. *)
Definition truthy (v : pyobj) : bool :=
  match v with
  | VBool b => b
  | VList [] => false
  | VText EmptyString => false
  | VJson JNull => false
  | _ => true
  end.

(** [validated_data.get(key, default)] read as a flag. *)
Definition get_flag (data : dict) (key : string) (default : bool) : bool :=
  match dict_get key data with
  | Some v => truthy v
  | None => default
  end.

(** ** Dependency resolution *)

(** The accumulator threaded through [get_dependencies]: Python sets of
    flows, campaigns, triggers and groups. *)
Record DependencySet := mkDependencySet {
  dep_flows : gset nat;
  dep_campaigns : gset nat;
  dep_triggers : gset nat;
  dep_groups : gset nat
}.

(** The row of a flow, by primary key. *)
Definition Flow_by_id (db : DB) (pk : nat) : option Flow :=
  find (fun f => Nat.eqb (flow_id f) pk) (Flow_objects db).

(** Merging a flow with its triggers and groups into the accumulator. *)
Definition discover (flow : Flow) (deps : DependencySet) : DependencySet :=
  mkDependencySet
    ({[flow_id flow]} ∪ dep_flows deps)
    (dep_campaigns deps)
    (list_to_set (flow_triggers flow) ∪ dep_triggers deps)
    (list_to_set (flow_groups flow) ∪ dep_groups deps).

(** What is left to traverse: each flow not yet visited counts for itself
    and for the sub-flows it will push. *)
Definition unvisited (db : DB) (visited : gset nat) : nat :=
  sum_list_with
    (fun f => if decide (flow_id f ∈ visited) then 0 else S (length (flow_flows f)))
    (Flow_objects db).

Lemma unvisited_mono (visited : gset nat) (pk : nat) (rows : list Flow) :
  sum_list_with (fun f => if decide (flow_id f ∈ {[pk]} ∪ visited)
                          then 0 else S (length (flow_flows f))) rows
  <= sum_list_with (fun f => if decide (flow_id f ∈ visited)
                             then 0 else S (length (flow_flows f))) rows.
Proof.
  induction rows as [|h rows IH]; simpl; [lia|].
  destruct (decide (flow_id h ∈ {[pk]} ∪ visited)),
           (decide (flow_id h ∈ visited)); try lia.
  set_solver.
Qed.

Lemma unvisited_discover (db : DB) (visited : gset nat) (pk : nat) (flow : Flow) :
  Flow_by_id db pk = Some flow ->
  pk ∉ visited ->
  unvisited db ({[flow_id flow]} ∪ visited) + S (length (flow_flows flow))
  <= unvisited db visited.
Proof.
  unfold Flow_by_id, unvisited. intros Hfind Hnew.
  apply find_some in Hfind as [Hin Hpk].
  apply Nat.eqb_eq in Hpk. subst pk.
  induction (Flow_objects db) as [|g rows IH]; [by destruct Hin|].
  pose proof (unvisited_mono visited (flow_id flow) rows) as Hmono.
  simpl. destruct Hin as [->|Hin].
  - rewrite decide_True by set_solver. rewrite decide_False by done. lia.
  - specialize (IH Hin).
    destruct (decide (flow_id g ∈ {[flow_id flow]} ∪ visited)),
             (decide (flow_id g ∈ visited)); try lia.
    set_solver.
Qed.

(** A value together with the equation that it is the value. *)
Definition inspect {A : Type} (x : A) : {y : A | x = y} := exist _ x eq_refl.

(** Modelled from the spec: [Flow.get_dependencies] of [temba.flows.models]
    is missing. The dependency graph is walked from a work list; the flows
    of the accumulator are the visited set, so a flow met again is dropped,
    and a flow met for the first time is merged with its triggers and
    groups and its sub-flows are pushed. *)
Equations? walk (db : DB) (stack : list nat) (deps : DependencySet)
  : DependencySet by wf (length stack + unvisited db (dep_flows deps)) lt :=
  walk db nil deps := deps;
  walk db (cons pk rest) deps with decide (pk ∈ dep_flows deps) => {
    | left _ := walk db rest deps;
    | right Hnew with inspect (Flow_by_id db pk) => {
        | exist _ None _ := walk db rest deps;
        | exist _ (Some flow) Hrow :=
            walk db (flow_flows flow ++ rest) (discover flow deps) } }.
Proof.
  pose proof (unvisited_discover db (dep_flows deps) pk flow Hrow Hnew).
  rewrite length_app. lia.
Qed.

(** [flow.get_dependencies(dependencies=dependencies)] *)
Definition get_dependencies (db : DB) (flow : nat) (dependencies : DependencySet)
  : DependencySet :=
  walk db [flow] dependencies.

Section Runtime.

(** Code outside the two modules, taken as it is: the field classes of
    [rest_framework], [URN.validate] and [URN.normalize] of
    [temba.contacts.models] (applied to the raw item, as [URNField] does),
    the UUID given to a new contact, [Resthook.add_subscriber] and the
    rendering of a subscriber, and the two helpers of [temba.utils]. *)
Variable UUIDField_to_internal_value : json -> result uuid.
Variable SlugField_to_internal_value : json -> result string.
Variable URLField_to_internal_value : json -> result string.
Variable URN_validate : json -> bool.
Variable URN_normalize : json -> string.
Variable generate_uuid : nat -> uuid.
Variable Resthook_add_subscriber :
  Resthook -> string -> nat -> DB -> ResthookSubscriber * DB.
Variable ResthookSubscriberReadSerializer_data :
  Context -> ResthookSubscriber -> json.
Variable str_to_bool : string -> bool.
Variable splitting_getlist : QueryDict -> string -> list string.

(** Modelled from the spec: [Contact.get_or_create] of
    [temba.contacts.models] is missing. An existing contact of the
    organization with that URN is reused; otherwise a new contact is
    created, scoped to the organization and attributed to the user. *)
Definition Contact_get_or_create (org user : nat) (urn : string) (db : DB)
  : Contact * DB :=
  match find (fun c => Nat.eqb (contact_org c) org
                       && existsb (String.eqb urn) (contact_urns c))
             (Contact_objects db) with
  | Some contact => (contact, db)
  | None =>
      let id := fresh_id (map contact_id (Contact_objects db)) in
      let contact := mkContact id (generate_uuid id) "" org true [urn] user in
      (contact, with_contacts db (Contact_objects db ++ [contact]))
  end.

(** *** [URNField] *)

Definition URNField_to_internal_value (data : json) : result string :=
  if negb (URN_validate data)
  then Invalid [Fmt "Invalid URN: %s" (VJson data)]
  else Ok (URN_normalize data).

(** *** [FlowStartWriteSerializer] *)

(** [Flow.objects.filter(org=org, is_active=True, uuid=value).first()], and
    the same query on contacts and on user groups. *)
Definition Flow_first (org : nat) (value : uuid) (db : DB) : option Flow :=
  find (fun f => Nat.eqb (flow_org f) org
                 && flow_is_active f
                 && String.eqb (flow_uuid f) value) (Flow_objects db).

Definition Contact_first (org : nat) (value : uuid) (db : DB) : option Contact :=
  find (fun c => Nat.eqb (contact_org c) org
                 && contact_is_active c
                 && String.eqb (contact_uuid c) value) (Contact_objects db).

Definition ContactGroup_first (org : nat) (value : uuid) (db : DB)
  : option ContactGroup :=
  find (fun g => Nat.eqb (group_org g) org
                 && group_is_active g
                 && String.eqb (group_uuid g) value) (ContactGroup_objects db).

Definition validate_flow (ctx : Context) (value : uuid) : M pyobj :=
  fun db =>
    match Flow_first (ctx_org ctx) value db with
    | None => (Invalid [Fmt "No flow found with UUID: %s" (VUUID value)], db)
    | Some flow => (Ok (VFlow flow), db)
    end.

Fixpoint validate_contacts_loop (ctx : Context) (value rest : list uuid)
    (contacts : list pyobj) (db : DB) : result pyobj :=
  match rest with
  | [] => Ok (VList contacts)
  | contact_uuid' :: rest' =>
      match Contact_first (ctx_org ctx) contact_uuid' db with
      | None =>
          Invalid [Fmt "No contact found with UUID: %s" (VList (map VUUID value))]
      | Some contact =>
          validate_contacts_loop ctx value rest' (contacts ++ [VContact contact]) db
      end
  end.

Definition validate_contacts (ctx : Context) (value : list uuid) : M pyobj :=
  fun db => (validate_contacts_loop ctx value value [] db, db).

Fixpoint validate_groups_loop (ctx : Context) (value rest : list uuid)
    (groups : list pyobj) (db : DB) : result pyobj :=
  match rest with
  | [] => Ok (VList groups)
  | group_uuid' :: rest' =>
      match ContactGroup_first (ctx_org ctx) group_uuid' db with
      | None =>
          Invalid [Fmt "No group found with UUID: %s" (VList (map VUUID value))]
      | Some group =>
          validate_groups_loop ctx value rest' (groups ++ [VGroup group]) db
      end
  end.

Definition validate_groups (ctx : Context) (value : list uuid) : M pyobj :=
  fun db => (validate_groups_loop ctx value value [] db, db).

Fixpoint validate_urns_loop (ctx : Context) (rest : list string)
    (urn_contacts : list pyobj) (db : DB) : list pyobj * DB :=
  match rest with
  | [] => (urn_contacts, db)
  | urn :: rest' =>
      let '(contact, db') :=
        Contact_get_or_create (ctx_org ctx) (ctx_user ctx) urn db in
      validate_urns_loop ctx rest' (urn_contacts ++ [VContact contact]) db'
  end.

Definition validate_urns (ctx : Context) (value : list string) : M pyobj :=
  fun db =>
    let '(urn_contacts, db') := validate_urns_loop ctx value [] db in
    (Ok (VList urn_contacts), db').

Definition FlowStartWriteSerializer_validate (ctx : Context) (data : dict)
  : M dict :=
  (* need at least one of urns, groups or contacts *)
  let args := get_list data "groups" ++ get_list data "contacts"
              ++ get_list data "urns" in
  match args with
  | [] => raise [Msg "Must specify at least one group, contact or URN"]
  | _ :: _ => ret data
  end.

Definition FlowStartWriteSerializer_save (ctx : Context)
    (validated_data : dict) (db : DB) : option FlowStart * DB :=
  match dict_get "flow" validated_data with
  | Some (VFlow flow) =>
      let '(start, db') :=
        FlowStart_create flow (ctx_user ctx)
          (get_flag validated_data "restart_participants" true)
          (contacts_of (get_list validated_data "contacts"
                        ++ get_list validated_data "urns"))
          (groups_of (get_list validated_data "groups")) db in
      (Some start, db')
  | _ => (None, db)
  end.

Definition UUIDListField_run_validation : json -> result (list uuid) :=
  Field_run_validation
    (ListField_to_internal_value
       (Field_run_validation UUIDField_to_internal_value)).

Definition URNListField_run_validation : json -> result (list string) :=
  Field_run_validation
    (ListField_to_internal_value
       (CharField_run_validation URNField_to_internal_value)).

(** The declared fields: [flow] is required, the three lists are not. *)
Definition flow_field : Field :=
  mkField "flow" true uuid
    (Field_run_validation UUIDField_to_internal_value) validate_flow.

Definition contacts_field : Field :=
  mkField "contacts" false (list uuid)
    UUIDListField_run_validation validate_contacts.

Definition groups_field : Field :=
  mkField "groups" false (list uuid)
    UUIDListField_run_validation validate_groups.

Definition urns_field : Field :=
  mkField "urns" false (list string)
    URNListField_run_validation validate_urns.

Definition FlowStartWriteSerializer : Serializer FlowStart :=
  mkSerializer FlowStart
    [flow_field; contacts_field; groups_field; urns_field]
    FlowStartWriteSerializer_validate
    FlowStartWriteSerializer_save.

(** *** [FlowStartReadSerializer] *)

Definition get_status (obj : FlowStart) : json :=
  match start_status obj with
  | STATUS_PENDING => JStr "pending"
  | STATUS_STARTING => JStr "starting"
  | STATUS_COMPLETE => JStr "complete"
  | STATUS_FAILED => JStr "failed"
  end.

Definition get_contacts (obj : FlowStart) : json :=
  JList (map (fun contact =>
                JObj [("uuid", JStr (contact_uuid contact));
                      ("name", JStr (contact_name contact))])
             (start_contacts obj)).

Definition get_groups (obj : FlowStart) : json :=
  JList (map (fun group =>
                JObj [("uuid", JStr (group_uuid group));
                      ("name", JStr (group_name group))])
             (start_groups obj)).

Definition get_flow (obj : FlowStart) : json :=
  JObj [("uuid", JStr (flow_uuid (start_flow obj)));
        ("name", JStr (flow_name (start_flow obj)))].

Definition FlowStartReadSerializer_data (ctx : Context) (obj : FlowStart)
  : json :=
  JObj [("id", JNum (Z.of_nat (start_id obj)));
        ("flow", get_flow obj);
        ("status", get_status obj);
        ("groups", get_groups obj);
        ("contacts", get_contacts obj);
        ("restart_participants", JBool (start_restart_participants obj));
        ("created_on", JNum (Z.of_nat (start_created_on obj)));
        ("modified_on", JNum (Z.of_nat (start_modified_on obj)))].

(** *** [FlowStartsEndpoint] *)

Definition FlowStartsEndpoint : CreateAPIMixin FlowStart :=
  mkCreateAPIMixin FlowStart
    FlowStartWriteSerializer
    FlowStartReadSerializer_data
    (* post_save: actually start our flow *)
    (fun instance => FlowStart_async_start instance).

(** *** [ResthookSubscriberWriteSerializer] *)

Definition get_resthook (ctx : Context) (slug : string) (db : DB)
  : option Resthook :=
  find (fun r => resthook_is_active r
                 && Nat.eqb (resthook_org r) (ctx_org ctx)
                 && String.eqb (resthook_slug r) slug) (Resthook_objects db).

Definition validate_resthook (ctx : Context) (value : string) : M pyobj :=
  fun db =>
    match value with
    | EmptyString => (Ok (VText value), db)
    | _ =>
        match get_resthook ctx value db with
        | None => (Invalid [Fmt "No resthook with slug: %s" (VText value)], db)
        | Some _ => (Ok (VText value), db)
        end
    end.

(** [data.get(key)] where a string is stored. *)
Definition get_text (data : dict) (key : string) : option string :=
  match dict_get key data with
  | Some (VText s) => Some s
  | _ => None
  end.

Definition ResthookSubscriberWriteSerializer_validate (ctx : Context)
    (data : dict) : M dict :=
  fun db =>
    let resthook := slug ← get_text data "resthook"; get_resthook ctx slug db in
    let target_url := get_text data "target_url" in
    (* make sure this combination doesn't already exist *)
    if existsb (fun s =>
                  match resthook, target_url with
                  | Some r, Some url =>
                      Nat.eqb (subscriber_resthook s) (resthook_id r)
                      && String.eqb (subscriber_target_url s) url
                      && subscriber_is_active s
                  | _, _ => false
                  end) (ResthookSubscriber_objects db)
    then (Invalid [Msg "URL is already subscribed to this event."], db)
    else (Ok data, db).

Definition ResthookSubscriberWriteSerializer_save (ctx : Context)
    (validated_data : dict) (db : DB) : option ResthookSubscriber * DB :=
  match slug ← get_text validated_data "resthook"; get_resthook ctx slug db,
        get_text validated_data "target_url" with
  | Some resthook, Some target_url =>
      let '(subscriber, db') :=
        Resthook_add_subscriber resthook target_url (ctx_user ctx) db in
      (Some subscriber, db')
  | _, _ => (None, db)
  end.

Definition ResthookSubscriberWriteSerializer : Serializer ResthookSubscriber :=
  mkSerializer ResthookSubscriber
    [ mkField "resthook" true string
        (CharField_run_validation SlugField_to_internal_value)
        validate_resthook;
      mkField "target_url" true string
        (CharField_run_validation URLField_to_internal_value)
        (fun _ value => ret (VText value)) ]
    ResthookSubscriberWriteSerializer_validate
    ResthookSubscriberWriteSerializer_save.

(** *** [ResthookSubscriberEndpoint] *)

Definition ResthookSubscriberEndpoint : CreateAPIMixin ResthookSubscriber :=
  mkCreateAPIMixin ResthookSubscriber
    ResthookSubscriberWriteSerializer
    ResthookSubscriberReadSerializer_data
    (* post_save: pass *)
    (fun _ db => (Some tt, db)).

(** *** [DefinitionsEndpoint] *)

(** [Flow.objects.filter(uuid__in=flow_uuids, org=org)] *)
Definition Flow_filter (flow_uuids : list string) (org : nat) (db : DB)
  : list Flow :=
  List.filter (fun f => existsb (String.eqb (flow_uuid f)) flow_uuids
                        && Nat.eqb (flow_org f) org)
              (Flow_objects db).

(** [Campaign.objects.filter(uuid__in=campaign_uuids, org=org)] *)
Definition Campaign_filter (campaign_uuids : list string) (org : nat) (db : DB)
  : list Campaign :=
  List.filter (fun c => existsb (String.eqb (campaign_uuid c)) campaign_uuids
                        && Nat.eqb (campaign_org c) org)
              (Campaign_objects db).

(** The flows of the active flow events of a campaign. *)
Definition event_flows (campaign : Campaign) : list nat :=
  omap (fun event =>
          match event_type event with
          | TYPE_FLOW => if event_is_active event then event_flow event else None
          | TYPE_MESSAGE => None
          end) (campaign_events campaign).

(** The UUID lists the request asks for. *)
Definition requested_uuids (params : QueryDict) : list string * list string :=
  if qd_contains params "flow_uuid" || qd_contains params "campaign_uuid"
  then (* deprecated *)
    (splitting_getlist params "flow_uuid",
     splitting_getlist params "campaign_uuid")
  else (qd_getlist params "flow", qd_getlist params "campaign").

(** [DefinitionsEndpoint.get] *)
Definition DefinitionsEndpoint_get (org : nat) (params : QueryDict) (db : DB)
  : Response :=
  let '(flow_uuids, campaign_uuids) := requested_uuids params in
  let depends := str_to_bool (qd_get params "dependencies" "true") in
  let flows : gset nat :=
    match flow_uuids with
    | _ :: _ => list_to_set (map flow_id (Flow_filter flow_uuids org db))
    | [] => ∅
    end in
  (* any fetched campaigns *)
  let campaigns : list Campaign :=
    match campaign_uuids with
    | _ :: _ => Campaign_filter campaign_uuids org db
    | [] => []
    end in
  let flows : gset nat :=
    match campaign_uuids with
    | _ :: _ =>
        if depends
        then flows ∪ list_to_set (concat (map event_flows campaigns))
        else flows
    | [] => flows
    end in
  (* get any dependencies on our flows and campaigns *)
  let dependencies :=
    mkDependencySet ∅ (list_to_set (map campaign_id campaigns)) ∅ ∅ in
  let dependencies :=
    foldl (fun dependencies flow =>
             if depends
             then get_dependencies db flow dependencies
             else dependencies)
          dependencies (elements flows) in
  (* add in our primary requested flows *)
  let to_export :=
    mkExport (dep_flows dependencies ∪ flows)
             (dep_campaigns dependencies)
             (dep_triggers dependencies) in
  mkResponse (BodyExport to_export) HTTP_200_OK.

(** ** Properties of the validation pipeline *)

(** Membership in a literal list. *)
Ltac in_list := simpl; repeat ((left; reflexivity) || right).

Lemma dict_get_set {A : Type} (k k' : string) (v : A) (d : list (string * A)) :
  dict_get k (dict_set k' v d)
  = if String.eqb k k' then Some v else dict_get k d.
Proof.
  induction d as [|[k0 v0] d IH]; simpl.
  - reflexivity.
  - destruct (String.eqb_spec k' k0) as [->|Hne]; simpl.
    + destruct (String.eqb k k0); reflexivity.
    + rewrite IH.
      destruct (String.eqb_spec k k0) as [->|Hne'];
        destruct (String.eqb_spec k0 k') as [->|Hne'']; congruence.
Qed.

Lemma dict_set_nonempty {A : Type} (k : string) (v : A) (d : list (string * A)) :
  dict_set k v d <> [].
Proof. destruct d as [|[k0 v0] d]; simpl; [|destruct (String.eqb k k0)]; discriminate. Qed.

Lemma dict_set_keys {A : Type} (k k0 : string) (v : A) (d : list (string * A)) :
  In k0 (map fst (dict_set k v d)) -> k0 = k \/ In k0 (map fst d).
Proof.
  induction d as [|[k1 v1] d IH]; simpl.
  - intros [<-|[]]. by left.
  - destruct (String.eqb k k1); simpl; intros [<-|Hin]; auto.
    destruct (IH Hin); auto.
Qed.

(** The store after an operation differs from the store before it in the
    contacts table only. *)
Definition only_contacts (db db' : DB) : Prop :=
  db' = with_contacts db (Contact_objects db').

Lemma only_contacts_refl (db : DB) : only_contacts db db.
Proof. destruct db; reflexivity. Qed.

Lemma only_contacts_trans (db1 db2 db3 : DB) :
  only_contacts db1 db2 -> only_contacts db2 db3 -> only_contacts db1 db3.
Proof.
  unfold only_contacts. intros H12 H23. rewrite H23 at 1. rewrite H12 at 1.
  reflexivity.
Qed.

Lemma only_contacts_starts (db db' : DB) :
  only_contacts db db' ->
  FlowStart_objects db' = FlowStart_objects db
  /\ task_queue db' = task_queue db
  /\ history db' = history db
  /\ Flow_objects db' = Flow_objects db.
Proof. unfold only_contacts. intros ->. auto. Qed.

Lemma only_contacts_queue (db db' : DB) :
  only_contacts db db' -> queue_reachable db' = queue_reachable db.
Proof. unfold only_contacts. intros ->. reflexivity. Qed.

Create HintDb pipeline.
#[local] Hint Resolve only_contacts_refl : pipeline.

Lemma Contact_get_or_create_only_contacts (org user : nat) (urn : string)
    (db : DB) :
  only_contacts db (snd (Contact_get_or_create org user urn db)).
Proof.
  unfold Contact_get_or_create.
  destruct (find _ (Contact_objects db)); simpl; auto with pipeline.
  reflexivity.
Qed.

Lemma validate_urns_loop_only_contacts (ctx : Context) (rest : list string)
    (acc : list pyobj) (db : DB) :
  only_contacts db (snd (validate_urns_loop ctx rest acc db)).
Proof.
  revert acc db. induction rest as [|urn rest IH]; intros acc db; simpl.
  - auto with pipeline.
  - pose proof (Contact_get_or_create_only_contacts
                  (ctx_org ctx) (ctx_user ctx) urn db) as Hstep.
    destruct (Contact_get_or_create (ctx_org ctx) (ctx_user ctx) urn db)
      as [contact db1]. simpl in Hstep.
    eapply only_contacts_trans; [exact Hstep | apply IH].
Qed.

(** A field whose [validate_<name>] touches nothing but contacts, and one
    that only reads. *)
Definition field_only_contacts (f : Field) : Prop :=
  forall ctx v db, only_contacts db (snd (field_validate f ctx v db)).

Definition field_read_only (f : Field) : Prop :=
  forall ctx v db, snd (field_validate f ctx v db) = db.

(** Error keys are names of declared fields. *)
Lemma fold_field_step_error_keys (ctx : Context) (data : json)
    (fs : list Field) (acc : dict * errors * DB) (k : string) :
  In k (map fst (snd (fst (fold_left (field_step ctx data) fs acc)))) ->
  In k (map fst (snd (fst acc))) \/ In k (map field_name fs).
Proof.
  revert acc. induction fs as [|f fs IH]; intros acc H; simpl in *; auto.
  destruct (IH _ H) as [Hk|Hk]; [|auto].
  destruct acc as [[validated errs] db]. unfold field_step in Hk. simpl.
  destruct (field_outcome ctx data f db) as [[[v|detail] db']|]; simpl in Hk;
    auto.
  apply dict_set_keys in Hk as [->|Hk]; auto.
Qed.

(** ** The flow-start serializer, field by field *)

(** Recording one field's outcome in [validated_data] or in [errors]. *)
Definition record (name : string) (o : option (result pyobj * DB))
    (acc : dict * errors) : dict * errors :=
  match o with
  | None => acc
  | Some (Ok v, _) => (dict_set name v (fst acc), snd acc)
  | Some (Invalid detail, _) => (fst acc, dict_set name detail (snd acc))
  end.

Lemma validate_flow_read_only : field_read_only flow_field.
Proof.
  intros ctx v db. simpl. unfold validate_flow.
  destruct (Flow_first (ctx_org ctx) v db); reflexivity.
Qed.

Lemma validate_contacts_read_only : field_read_only contacts_field.
Proof. intros ctx v db. reflexivity. Qed.

Lemma validate_groups_read_only : field_read_only groups_field.
Proof. intros ctx v db. reflexivity. Qed.

Lemma validate_urns_only_contacts : field_only_contacts urns_field.
Proof.
  intros ctx v db. simpl. unfold validate_urns.
  pose proof (validate_urns_loop_only_contacts ctx v [] db) as H.
  destruct (validate_urns_loop ctx v [] db) as [urn_contacts db']. exact H.
Qed.

Lemma field_outcome_read_only (ctx : Context) (data : json) (f : Field)
    (db : DB) (r : result pyobj) (db' : DB) :
  field_read_only f ->
  field_outcome ctx data f db = Some (r, db') -> db' = db.
Proof.
  intros Hf. unfold field_outcome.
  destruct (json_get (field_name f) data) as [primitive|].
  - destruct (field_run_validation f primitive) as [v|detail].
    + intros H. specialize (Hf ctx v db).
      injection H as H. rewrite H in Hf. exact Hf.
    + intros [= _ <-]. reflexivity.
  - destruct (field_required f); [intros [= _ <-]; reflexivity | discriminate].
Qed.

Lemma field_outcome_only_contacts (ctx : Context) (data : json) (f : Field)
    (db : DB) (r : result pyobj) (db' : DB) :
  field_only_contacts f ->
  field_outcome ctx data f db = Some (r, db') -> only_contacts db db'.
Proof.
  intros Hf. unfold field_outcome.
  destruct (json_get (field_name f) data) as [primitive|].
  - destruct (field_run_validation f primitive) as [v|detail].
    + intros H. specialize (Hf ctx v db).
      injection H as H. rewrite H in Hf. exact Hf.
    + intros [= _ <-]. auto with pipeline.
  - destruct (field_required f);
      [intros [= _ <-]; auto with pipeline | discriminate].
Qed.

(** The store that validation leaves behind: the one the [urns] field
    produced, if it ran. *)
Definition store_after (o : option (result pyobj * DB)) (db : DB) : DB :=
  match o with
  | Some (_, db') => db'
  | None => db
  end.

Lemma field_step_record (ctx : Context) (data : json) (f : Field)
    (p : dict * errors) (db : DB) :
  field_step ctx data (p, db) f
  = (record (field_name f) (field_outcome ctx data f db) p,
     store_after (field_outcome ctx data f db) db).
Proof.
  destruct p as [validated errs]. unfold field_step, record, store_after.
  destruct (field_outcome ctx data f db) as [[[v|detail] db']|]; reflexivity.
Qed.

Lemma store_after_read_only (ctx : Context) (data : json) (f : Field) (db : DB) :
  field_read_only f -> store_after (field_outcome ctx data f db) db = db.
Proof.
  intros Hf. unfold store_after.
  destruct (field_outcome ctx data f db) as [[r db']|] eqn:E; [|reflexivity].
  eapply field_outcome_read_only; eauto.
Qed.

(** The loop over the four fields: [flow], [contacts] and [groups] only
    read, so every field sees the store of the request's start. *)
Lemma flow_start_fields (ctx : Context) (data : json) (db : DB) :
  fold_left (field_step ctx data) (fields FlowStartWriteSerializer) ([], [], db)
  = (record "urns" (field_outcome ctx data urns_field db)
      (record "groups" (field_outcome ctx data groups_field db)
        (record "contacts" (field_outcome ctx data contacts_field db)
          (record "flow" (field_outcome ctx data flow_field db) ([], [])))),
     store_after (field_outcome ctx data urns_field db) db).
Proof.
  change (fold_left (field_step ctx data) (fields FlowStartWriteSerializer)
                    ([], [], db))
    with (field_step ctx data
            (field_step ctx data
               (field_step ctx data
                  (field_step ctx data ([], [], db) flow_field)
                  contacts_field)
               groups_field)
            urns_field).
  rewrite field_step_record, (store_after_read_only _ _ flow_field)
    by apply validate_flow_read_only.
  rewrite field_step_record, (store_after_read_only _ _ contacts_field)
    by apply validate_contacts_read_only.
  rewrite field_step_record, (store_after_read_only _ _ groups_field)
    by apply validate_groups_read_only.
  rewrite field_step_record. reflexivity.
Qed.

Lemma record_other_key (n k : string) (o : option (result pyobj * DB))
    (acc : dict * errors) :
  k <> n ->
  dict_get k (fst (record n o acc)) = dict_get k (fst acc)
  /\ dict_get k (snd (record n o acc)) = dict_get k (snd acc).
Proof.
  intros Hk.
  assert (Heqb : String.eqb k n = false) by (apply String.eqb_neq, Hk).
  unfold record. destruct o as [[[v|detail] db']|]; simpl;
    rewrite ?dict_get_set, ?Heqb; auto.
Qed.

Lemma record_invalid (n : string) (detail : list message) (db' : DB)
    (acc : dict * errors) :
  dict_get n (snd (record n (Some (Invalid detail, db')) acc)) = Some detail
  /\ fst (record n (Some (Invalid detail, db')) acc) = fst acc.
Proof. simpl. rewrite dict_get_set, String.eqb_refl. auto. Qed.

(** No error recorded: the field was absent or valid, and nothing was
    recorded before. *)
Lemma record_no_errors (n : string) (o : option (result pyobj * DB))
    (acc : dict * errors) :
  snd (record n o acc) = [] ->
  snd acc = []
  /\ (o = None \/ exists v db', o = Some (Ok v, db')).
Proof.
  unfold record. destruct o as [[[v|detail] db']|]; simpl; intros H.
  - eauto.
  - exfalso. eapply dict_set_nonempty, H.
  - auto.
Qed.

(** An error once recorded stays: a later field writes under its own name. *)
Lemma record_keeps_error (n k : string) (o : option (result pyobj * DB))
    (acc : dict * errors) (detail : list message) :
  k <> n ->
  dict_get k (snd acc) = Some detail ->
  dict_get k (snd (record n o acc)) = Some detail.
Proof.
  intros Hk H. destruct (record_other_key n k o acc Hk) as [_ ->]. exact H.
Qed.

(** [is_valid] on a JSON object, in terms of the four field outcomes. *)
Definition flow_start_outcomes (ctx : Context) (data : json) (db : DB)
  : dict * errors :=
  record "urns" (field_outcome ctx data urns_field db)
    (record "groups" (field_outcome ctx data groups_field db)
      (record "contacts" (field_outcome ctx data contacts_field db)
        (record "flow" (field_outcome ctx data flow_field db) ([], [])))).

Lemma flow_start_run_validation (ctx : Context) (data : json) (db : DB) :
  is_dict data = true ->
  WriteSerializer_run_validation FlowStartWriteSerializer ctx data db
  = let p := flow_start_outcomes ctx data db in
    let db1 := store_after (field_outcome ctx data urns_field db) db in
    match snd p with
    | _ :: _ => (Errors (snd p), db1)
    | [] =>
        match get_list (fst p) "groups" ++ get_list (fst p) "contacts"
              ++ get_list (fst p) "urns" with
        | [] => (Errors [("non_field_errors",
                          [Msg "Must specify at least one group, contact or URN"])],
                 db1)
        | _ :: _ => (Valid (fst p), db1)
        end
    end.
Proof.
  intros Hdict. unfold WriteSerializer_run_validation. rewrite Hdict. simpl negb.
  cbv iota. unfold Serializer_run_validation. rewrite flow_start_fields.
  fold (flow_start_outcomes ctx data db).
  destruct (flow_start_outcomes ctx data db) as [validated errs]. simpl.
  destruct errs; [|reflexivity].
  unfold FlowStartWriteSerializer_validate.
  destruct (get_list validated "groups" ++ get_list validated "contacts"
            ++ get_list validated "urns"); reflexivity.
Qed.

Lemma run_validation_only_contacts (ctx : Context) (data : json) (db : DB) :
  only_contacts db
    (snd (WriteSerializer_run_validation FlowStartWriteSerializer ctx data db)).
Proof.
  destruct (is_dict data) eqn:Hdict.
  - rewrite flow_start_run_validation by exact Hdict. cbv zeta.
    assert (H : only_contacts db
                  (store_after (field_outcome ctx data urns_field db) db)).
    { unfold store_after.
      destruct (field_outcome ctx data urns_field db) as [[r db']|] eqn:E;
        [|auto with pipeline].
      eapply field_outcome_only_contacts; [apply validate_urns_only_contacts|].
      exact E. }
    destruct (snd (flow_start_outcomes ctx data db)); [|exact H].
    destruct (_ ++ _); exact H.
  - unfold WriteSerializer_run_validation. rewrite Hdict. simpl.
    auto with pipeline.
Qed.

(** Whatever validation reports is a non-empty dictionary. *)
Lemma run_validation_errors_nonempty {I : Type} (S : Serializer I)
    (ctx : Context) (data : json) (db db1 : DB) (errs : errors) :
  WriteSerializer_run_validation S ctx data db = (Errors errs, db1) ->
  errs <> [].
Proof.
  unfold WriteSerializer_run_validation, Serializer_run_validation.
  destruct (negb (is_dict data)); [intros [= <- _]; discriminate|].
  destruct (fold_left _ _ _) as [[validated errs0] db0].
  destruct errs0; [|intros [= <- _]; discriminate].
  destruct (validate S ctx validated db0) as [[v|d] db2]; [discriminate|].
  intros [= <- _]. discriminate.
Qed.

(** The keys of the error dictionary are names of declared fields, or
    [non_field_errors]. *)
Lemma run_validation_error_keys {I : Type} (S : Serializer I)
    (ctx : Context) (data : json) (db db1 : DB) (errs : errors) (k : string) :
  WriteSerializer_run_validation S ctx data db = (Errors errs, db1) ->
  In k (map fst errs) ->
  k = "non_field_errors" \/ In k (map field_name (fields S)).
Proof.
  unfold WriteSerializer_run_validation, Serializer_run_validation.
  destruct (negb (is_dict data)).
  { intros [= <- _] [<-|[]]. auto. }
  destruct (fold_left _ _ _) as [[validated errs0] db0] eqn:Efold.
  destruct errs0 as [|e errs0].
  - destruct (validate S ctx validated db0) as [[v|d] db2]; [discriminate|].
    intros [= <- _] [<-|[]]. auto.
  - intros [= <- _] Hin. right.
    destruct (fold_field_step_error_keys ctx data (fields S) ([], [], db) k)
      as [[]|Hk]; [rewrite Efold; exact Hin | exact Hk].
Qed.

(** What a valid request leaves in [validated_data]: the resolved flow, and
    nothing under a name that is not a declared field. *)
Lemma valid_flow_key (ctx : Context) (data : json) (db : DB) :
  snd (flow_start_outcomes ctx data db) = [] ->
  exists flow, dict_get "flow" (fst (flow_start_outcomes ctx data db))
               = Some (VFlow flow).
Proof.
  unfold flow_start_outcomes. intros H.
  apply record_no_errors in H as [H _].
  apply record_no_errors in H as [H _].
  apply record_no_errors in H as [H _].
  destruct (record_other_key "urns" "flow"
              (field_outcome ctx data urns_field db)
              (record "groups" (field_outcome ctx data groups_field db)
                 (record "contacts" (field_outcome ctx data contacts_field db)
                    (record "flow" (field_outcome ctx data flow_field db)
                       ([], []))))) as [-> _]; [discriminate|].
  destruct (record_other_key "groups" "flow"
              (field_outcome ctx data groups_field db)
              (record "contacts" (field_outcome ctx data contacts_field db)
                 (record "flow" (field_outcome ctx data flow_field db)
                    ([], [])))) as [-> _]; [discriminate|].
  destruct (record_other_key "contacts" "flow"
              (field_outcome ctx data contacts_field db)
              (record "flow" (field_outcome ctx data flow_field db)
                 ([], []))) as [-> _]; [discriminate|].
  revert H. unfold field_outcome. simpl field_name. simpl field_required.
  destruct (json_get "flow" data) as [primitive|]; [|discriminate].
  simpl field_run_validation.
  destruct (Field_run_validation UUIDField_to_internal_value primitive)
    as [u|detail]; [|discriminate].
  simpl field_validate. unfold validate_flow.
  destruct (Flow_first (ctx_org ctx) u db) as [flow|]; [|discriminate].
  intros _. exists flow. reflexivity.
Qed.

Lemma undeclared_key_absent (ctx : Context) (data : json) (db : DB) (k : string) :
  ~ In k ["flow"; "contacts"; "groups"; "urns"] ->
  dict_get k (fst (flow_start_outcomes ctx data db)) = None.
Proof.
  intros Hk. unfold flow_start_outcomes.
  repeat (match goal with
          | |- dict_get k (fst (record ?n ?o ?acc)) = None =>
              destruct (record_other_key n k o acc) as [-> _];
              [intros ->; apply Hk; in_list|]
          end).
  reflexivity.
Qed.

Lemma valid_inversion (ctx : Context) (data : json) (db db1 : DB)
    (validated_data : dict) :
  WriteSerializer_run_validation FlowStartWriteSerializer ctx data db
  = (Valid validated_data, db1) ->
  is_dict data = true
  /\ validated_data = fst (flow_start_outcomes ctx data db)
  /\ snd (flow_start_outcomes ctx data db) = []
  /\ db1 = store_after (field_outcome ctx data urns_field db) db
  /\ get_list validated_data "groups" ++ get_list validated_data "contacts"
       ++ get_list validated_data "urns" <> [].
Proof.
  destruct (is_dict data) eqn:Hdict.
  - rewrite flow_start_run_validation by exact Hdict. cbv zeta.
    destruct (snd (flow_start_outcomes ctx data db)) eqn:Herrs; [|discriminate].
    destruct (_ ++ _) eqn:Hargs; [discriminate|].
    intros [= <- <-]. rewrite Hargs. repeat split; auto; discriminate.
  - unfold WriteSerializer_run_validation. rewrite Hdict. discriminate.
Qed.

(** [post] on the flow-start endpoint, with [save] and [post_save] spelled
    out. *)
Lemma flow_start_post (ctx : Context) (data : json) (db : DB) :
  post FlowStartsEndpoint ctx data db
  = match WriteSerializer_run_validation FlowStartWriteSerializer ctx data db with
    | (Errors errs, db1) =>
        (mkResponse (BodyErrors errs) HTTP_400_BAD_REQUEST, db1)
    | (Valid validated_data, db1) =>
        match dict_get "flow" validated_data with
        | Some (VFlow flow) =>
            let start :=
              mkFlowStart (fresh_id (map start_id (FlowStart_objects db1)))
                flow (ctx_user ctx)
                (get_flag validated_data "restart_participants" true)
                (contacts_of (get_list validated_data "contacts"
                              ++ get_list validated_data "urns"))
                (groups_of (get_list validated_data "groups"))
                STATUS_PENDING (now db1) (now db1) in
            if queue_reachable db1
            then
              (mkResponse (BodyData (FlowStartReadSerializer_data ctx start))
                          HTTP_201_CREATED,
               with_task (with_flow_start db1 start) (start_id start))
            else
              (mkResponse BodyException HTTP_500_INTERNAL_SERVER_ERROR,
               with_dispatch (with_flow_start db1 start) (start_id start))
        | _ => (mkResponse BodyException HTTP_500_INTERNAL_SERVER_ERROR, db1)
        end
    end.
Proof.
  unfold post. simpl write_serializer_class.
  destruct (WriteSerializer_run_validation FlowStartWriteSerializer ctx data db)
    as [[validated_data|errs] db1]; [|reflexivity].
  simpl save. unfold FlowStartWriteSerializer_save.
  destruct (dict_get "flow" validated_data) as [[]|]; try reflexivity.
  simpl. unfold FlowStart_async_start. simpl.
  destruct (queue_reachable db1); reflexivity.
Qed.

Lemma fresh_id_above (ids : list nat) (x : nat) : In x ids -> x < fresh_id ids.
Proof.
  unfold fresh_id. induction ids as [|y ids IH]; simpl; [intros []|].
  intros [->|Hin]; [lia|]. specialize (IH Hin). lia.
Qed.

(** Every flow start a POST adds carries [restart_participants = True]:
    [validated_data] never has that key, so [save] reads the default. *)
Lemma created_start_restarts (ctx : Context) (data : json) (db : DB) :
  Forall (fun s => In s (FlowStart_objects db)
                   \/ start_restart_participants s = true)
         (FlowStart_objects (snd (post FlowStartsEndpoint ctx data db))).
Proof.
  rewrite flow_start_post.
  pose proof (run_validation_only_contacts ctx data db) as Honly.
  destruct (WriteSerializer_run_validation FlowStartWriteSerializer ctx data db)
    as [[validated_data|errs] db1] eqn:E; simpl in Honly;
    apply only_contacts_starts in Honly as (Hstarts & _).
  - assert (Hold : Forall (fun s => In s (FlowStart_objects db)
                                    \/ start_restart_participants s = true)
                          (FlowStart_objects db1)).
    { rewrite Hstarts. apply List.Forall_forall. auto. }
    apply valid_inversion in E as (_ & -> & _).
    destruct (dict_get "flow" _) as [[]|]; simpl; try exact Hold.
    destruct (queue_reachable _); simpl;
      (apply Forall_app; split; [exact Hold|];
       constructor; [|constructor]; right; simpl;
       unfold get_flag; rewrite undeclared_key_absent; [reflexivity|];
       simpl; intros [H|[H|[H|[H|[]]]]]; discriminate).
  - simpl. rewrite Hstarts. apply List.Forall_forall. auto.
Qed.

(** A UUID that resolves to nothing stops the loop of [validate_contacts]
    and of [validate_groups]. *)
Lemma validate_contacts_loop_unknown (ctx : Context) (value rest : list uuid)
    (acc : list pyobj) (db : DB) :
  (exists u, In u rest /\ Contact_first (ctx_org ctx) u db = None) ->
  validate_contacts_loop ctx value rest acc db
  = Invalid [Fmt "No contact found with UUID: %s" (VList (map VUUID value))].
Proof.
  revert acc. induction rest as [|u0 rest IH]; intros acc [u [Hin Hnone]].
  - destruct Hin.
  - simpl. destruct (Contact_first (ctx_org ctx) u0 db) as [c|] eqn:E;
      [|reflexivity].
    apply IH. exists u. split; [|exact Hnone].
    destruct Hin as [->|Hin]; [congruence | exact Hin].
Qed.

Lemma validate_groups_loop_unknown (ctx : Context) (value rest : list uuid)
    (acc : list pyobj) (db : DB) :
  (exists u, In u rest /\ ContactGroup_first (ctx_org ctx) u db = None) ->
  validate_groups_loop ctx value rest acc db
  = Invalid [Fmt "No group found with UUID: %s" (VList (map VUUID value))].
Proof.
  revert acc. induction rest as [|u0 rest IH]; intros acc [u [Hin Hnone]].
  - destruct Hin.
  - simpl. destruct (ContactGroup_first (ctx_org ctx) u0 db) as [g|] eqn:E;
      [|reflexivity].
    apply IH. exists u. split; [|exact Hnone].
    destruct Hin as [->|Hin]; [congruence | exact Hin].
Qed.

Lemma json_get_is_dict (name : string) (data j : json) :
  json_get name data = Some j -> is_dict data = true.
Proof. destruct data; simpl; congruence. Qed.

(** An error of any of the four fields reaches [errors] under the field's
    name, and the request is invalid. *)
Lemma field_error_reported (ctx : Context) (data : json) (db db' : DB)
    (f : Field) (detail : list message) :
  In f [flow_field; contacts_field; groups_field; urns_field] ->
  is_dict data = true ->
  field_outcome ctx data f db = Some (Invalid detail, db') ->
  exists errs,
    WriteSerializer_run_validation FlowStartWriteSerializer ctx data db
    = (Errors errs, store_after (field_outcome ctx data urns_field db) db)
    /\ dict_get (field_name f) errs = Some detail.
Proof.
  intros Hf Hdict Hout.
  rewrite flow_start_run_validation by exact Hdict. cbv zeta.
  assert (Hkey : dict_get (field_name f) (snd (flow_start_outcomes ctx data db))
                 = Some detail).
  { unfold flow_start_outcomes.
    destruct Hf as [<-|[<-|[<-|[<-|[]]]]]; rewrite Hout.
    - do 3 (apply record_keeps_error; [discriminate|]).
      apply record_invalid.
    - do 2 (apply record_keeps_error; [discriminate|]).
      apply record_invalid.
    - apply record_keeps_error; [discriminate|].
      apply record_invalid.
    - apply record_invalid. }
  destruct (snd (flow_start_outcomes ctx data db)) as [|e errs] eqn:E.
  - discriminate Hkey.
  - eauto.
Qed.

(** *** URNs *)

Lemma run_children_invalid_urn (items : list json) :
  (exists item, In item items /\ URN_validate item = false) ->
  exists detail,
    run_children (CharField_run_validation URNField_to_internal_value) items
    = Invalid detail.
Proof.
  induction items as [|item0 items IH]; intros [item [Hin Hbad]].
  - destruct Hin.
  - simpl.
    destruct (CharField_run_validation URNField_to_internal_value item0)
      as [v|detail] eqn:E; [|eauto].
    destruct Hin as [->|Hin].
    + exfalso. revert E.
      unfold CharField_run_validation, Field_run_validation,
        URNField_to_internal_value.
      rewrite Hbad. simpl.
      destruct item as [| | |s| |]; try discriminate.
      destruct (is_blank s); discriminate.
    + destruct IH as [detail ->]; eauto.
Qed.

Lemma run_children_valid_urns (items : list json) :
  (forall item, In item items ->
     exists s, item = JStr s /\ is_blank s = false /\ URN_validate item = true) ->
  run_children (CharField_run_validation URNField_to_internal_value) items
  = Ok (map URN_normalize items).
Proof.
  induction items as [|item items IH]; intros Hall; [reflexivity|].
  cbn [run_children map].
  assert (Hitem : CharField_run_validation URNField_to_internal_value item
                  = Ok (URN_normalize item)).
  { destruct (Hall item) as (s & -> & Hblank & Hvalid); [simpl; auto|].
    unfold CharField_run_validation. rewrite Hblank.
    unfold Field_run_validation, URNField_to_internal_value.
    rewrite Hvalid. reflexivity. }
  rewrite Hitem, IH; [reflexivity|].
  intros item' Hin. apply Hall. simpl. auto.
Qed.

Lemma find_app {A : Type} (p : A -> bool) (l1 l2 : list A) :
  find p (l1 ++ l2)
  = match find p l1 with Some x => Some x | None => find p l2 end.
Proof.
  induction l1 as [|x l1 IH]; simpl; [reflexivity|].
  destruct (p x); [reflexivity | exact IH].
Qed.

(** The contact a URN resolves to, relative to the contacts before the
    request ([db]) and after it ([db']): it carries the URN and belongs to
    the organization; it is an old contact when an old contact of the
    organization has the URN, and otherwise a contact that did not exist,
    created by the user. *)
Definition resolved (org user : nat) (db db' : DB) (urn : string)
    (contact : Contact) : Prop :=
  In urn (contact_urns contact)
  /\ contact_org contact = org
  /\ In contact (Contact_objects db')
  /\ ((exists c, In c (Contact_objects db)
                 /\ contact_org c = org /\ In urn (contact_urns c)) ->
      In contact (Contact_objects db))
  /\ (~ (exists c, In c (Contact_objects db)
                   /\ contact_org c = org /\ In urn (contact_urns c)) ->
      ~ In contact (Contact_objects db)
      /\ contact_created_by contact = user).

Lemma has_urn_spec (org : nat) (urn : string) (c : Contact) :
  Nat.eqb (contact_org c) org && existsb (String.eqb urn) (contact_urns c) = true
  <-> contact_org c = org /\ In urn (contact_urns c).
Proof.
  rewrite andb_true_iff, Nat.eqb_eq, existsb_exists. split.
  - intros [Horg (x & Hin & Heq)]. apply String.eqb_eq in Heq. subst x. auto.
  - intros [Horg Hin]. split; [exact Horg|]. exists urn.
    split; [exact Hin | apply String.eqb_refl].
Qed.

Lemma validate_urns_loop_resolved (ctx : Context) (db0 : DB)
    (rest : list string) :
  forall (acc : list pyobj) (db : DB) (news : list Contact),
    Contact_objects db = Contact_objects db0 ++ news ->
    Forall (fun c => contact_org c = ctx_org ctx
                     /\ contact_created_by c = ctx_user ctx
                     /\ ~ In c (Contact_objects db0)) news ->
    exists cs more,
      fst (validate_urns_loop ctx rest acc db) = acc ++ map VContact cs
      /\ Contact_objects (snd (validate_urns_loop ctx rest acc db))
         = Contact_objects db ++ more
      /\ Forall2 (resolved (ctx_org ctx) (ctx_user ctx) db0
                           (snd (validate_urns_loop ctx rest acc db)))
                 rest cs.
Proof.
  induction rest as [|urn rest IH]; intros acc db news Hdb Hnews.
  - exists [], []. simpl. rewrite !app_nil_r. auto.
  - simpl. unfold Contact_get_or_create.
    set (p := fun c => Nat.eqb (contact_org c) (ctx_org ctx)
                       && existsb (String.eqb urn) (contact_urns c)).
    destruct (find p (Contact_objects db)) as [c|] eqn:Hfind.
    + destruct (IH (acc ++ [VContact c]) db news Hdb Hnews)
        as (cs & more & Hfst & Hsnd & Hall).
      exists (c :: cs), more. split; [|split].
      * rewrite Hfst, <- app_assoc. reflexivity.
      * exact Hsnd.
      * constructor; [|exact Hall].
        pose proof (find_some _ _ Hfind) as [Hin Hp].
        apply has_urn_spec in Hp as [Horg Hurn].
        repeat split; auto.
        -- rewrite Hsnd. apply in_or_app. auto.
        -- intros (c0 & Hin0 & Horg0 & Hurn0).
           rewrite Hdb, find_app in Hfind.
           destruct (find p (Contact_objects db0)) as [c'|] eqn:Hfind0.
           ++ injection Hfind as <-. apply (find_some _ _ Hfind0).
           ++ pose proof (find_none _ _ Hfind0 c0 Hin0) as Hfalse.
              assert (p c0 = true) by (apply has_urn_spec; auto). congruence.
        -- intros Hin0. apply H. exists c. auto.
        -- rewrite Hdb in Hin. apply in_app_or in Hin as [Hin|Hin].
           ++ exfalso. apply H. exists c. auto.
           ++ rewrite List.Forall_forall in Hnews. apply (Hnews c Hin).
    + set (c := mkContact (fresh_id (map contact_id (Contact_objects db)))
                  (generate_uuid (fresh_id (map contact_id (Contact_objects db))))
                  "" (ctx_org ctx) true [urn] (ctx_user ctx)).
      assert (Hfresh : ~ In c (Contact_objects db)).
      { intros Hin. apply (in_map contact_id) in Hin.
        apply fresh_id_above in Hin. simpl in Hin. lia. }
      assert (Hfresh0 : ~ In c (Contact_objects db0)).
      { intros Hin. apply Hfresh. rewrite Hdb. apply in_or_app. auto. }
      destruct (IH (acc ++ [VContact c])
                   (with_contacts db (Contact_objects db ++ [c]))
                   (news ++ [c]))
        as (cs & more & Hfst & Hsnd & Hall).
      { simpl. rewrite Hdb, <- app_assoc. reflexivity. }
      { apply Forall_app. split; [exact Hnews|].
        constructor; [|constructor]. simpl. auto. }
      exists (c :: cs), (c :: more). split; [|split].
      * rewrite Hfst, <- app_assoc. reflexivity.
      * rewrite Hsnd. simpl. rewrite <- app_assoc. reflexivity.
      * constructor; [|exact Hall].
        repeat split; simpl; auto.
        -- rewrite Hsnd. simpl. apply in_or_app. left. apply in_or_app.
           right. simpl. auto.
        -- intros (c0 & Hin0 & Horg0 & Hurn0). exfalso.
           assert (Hin : In c0 (Contact_objects db))
             by (rewrite Hdb; apply in_or_app; auto).
           pose proof (find_none _ _ Hfind c0 Hin) as Hfalse.
           assert (p c0 = true) by (apply has_urn_spec; auto). congruence.
Qed.

(** ** Claims about flow starts *)

(** C10: a write request whose body is not a single JSON object is
    answered 400 with [non_field_errors] holding "Request body should be a
    single JSON object". This holds for every write endpoint, whatever
    fields its serializer declares, so no field is validated first; the
    store is left as it was, so no record is created. The flow-start and
    the resthook-subscriber endpoints are the two instances. *)
Theorem C10_body_must_be_a_json_object (data : json) (ctx : Context) (db : DB) :
  is_dict data = false ->
  let errs := [("non_field_errors",
                [Msg "Request body should be a single JSON object"])] in
  (forall (I : Type) (S : Serializer I),
      WriteSerializer_run_validation S ctx data db = (Errors errs, db))
  /\ (forall (I : Type) (E : CreateAPIMixin I),
        post E ctx data db
        = (mkResponse (BodyErrors errs) HTTP_400_BAD_REQUEST, db))
  /\ post FlowStartsEndpoint ctx data db
     = (mkResponse (BodyErrors errs) HTTP_400_BAD_REQUEST, db)
  /\ post ResthookSubscriberEndpoint ctx data db
     = (mkResponse (BodyErrors errs) HTTP_400_BAD_REQUEST, db).
Proof.
  intros Hdict errs.
  assert (Hs : forall (I : Type) (S : Serializer I),
             WriteSerializer_run_validation S ctx data db = (Errors errs, db)).
  { intros I S. unfold WriteSerializer_run_validation. rewrite Hdict.
    reflexivity. }
  assert (He : forall (I : Type) (E : CreateAPIMixin I),
             post E ctx data db
             = (mkResponse (BodyErrors errs) HTTP_400_BAD_REQUEST, db)).
  { intros I E. unfold post. rewrite Hs. reflexivity. }
  repeat split; auto.
Qed.

(** C2: a flow-start POST that fails validation is answered 400 with the
    error dictionary as its body, keyed by field name (or
    [non_field_errors]), and adds no flow start and no dispatch. An unknown
    flow, contact or group UUID is such a failure, reported under the
    field's name; one unresolvable contact UUID among several fails the
    whole request. *)
Theorem C2_invalid_request_creates_no_start (ctx : Context) (data : json)
    (db : DB) :
  (forall errs db1,
      WriteSerializer_run_validation FlowStartWriteSerializer ctx data db
      = (Errors errs, db1) ->
      post FlowStartsEndpoint ctx data db
      = (mkResponse (BodyErrors errs) HTTP_400_BAD_REQUEST, db1)
      /\ errs <> []
      /\ (forall k, In k (map fst errs) ->
                    In k ["non_field_errors"; "flow"; "contacts"; "groups";
                          "urns"])
      /\ FlowStart_objects db1 = FlowStart_objects db
      /\ task_queue db1 = task_queue db
      /\ history db1 = history db)
  /\ (forall j value,
        json_get "contacts" data = Some j ->
        UUIDListField_run_validation j = Ok value ->
        (exists u, In u value /\ Contact_first (ctx_org ctx) u db = None) ->
        exists errs db1,
          WriteSerializer_run_validation FlowStartWriteSerializer ctx data db
          = (Errors errs, db1)
          /\ dict_get "contacts" errs
             = Some [Fmt "No contact found with UUID: %s"
                         (VList (map VUUID value))])
  /\ (forall j value,
        json_get "groups" data = Some j ->
        UUIDListField_run_validation j = Ok value ->
        (exists u, In u value /\ ContactGroup_first (ctx_org ctx) u db = None) ->
        exists errs db1,
          WriteSerializer_run_validation FlowStartWriteSerializer ctx data db
          = (Errors errs, db1)
          /\ dict_get "groups" errs
             = Some [Fmt "No group found with UUID: %s"
                         (VList (map VUUID value))])
  /\ (forall j value,
        json_get "flow" data = Some j ->
        Field_run_validation UUIDField_to_internal_value j = Ok value ->
        Flow_first (ctx_org ctx) value db = None ->
        exists errs db1,
          WriteSerializer_run_validation FlowStartWriteSerializer ctx data db
          = (Errors errs, db1)
          /\ dict_get "flow" errs
             = Some [Fmt "No flow found with UUID: %s" (VUUID value)]).
Proof.
  split; [|split; [|split]].
  - intros errs db1 Hrun.
    pose proof (run_validation_only_contacts ctx data db) as Honly.
    rewrite Hrun in Honly. simpl in Honly.
    apply only_contacts_starts in Honly as (Hs & Hq & Hh & _).
    split; [|split; [eapply run_validation_errors_nonempty; exact Hrun|]].
    { rewrite flow_start_post, Hrun. reflexivity. }
    split; [|auto].
    intros k Hk.
    destruct (run_validation_error_keys _ _ _ _ _ _ k Hrun Hk) as [->|Hin];
      [in_list | right; exact Hin].
  - intros j value Hget Hlist Hunknown.
    edestruct (field_error_reported ctx data db db contacts_field) as [errs Herrs];
      [in_list | eapply json_get_is_dict; exact Hget | | eauto].
    unfold field_outcome. simpl. rewrite Hget, Hlist.
    unfold validate_contacts.
    rewrite validate_contacts_loop_unknown by exact Hunknown. reflexivity.
  - intros j value Hget Hlist Hunknown.
    edestruct (field_error_reported ctx data db db groups_field) as [errs Herrs];
      [in_list | eapply json_get_is_dict; exact Hget | | eauto].
    unfold field_outcome. simpl. rewrite Hget, Hlist.
    unfold validate_groups.
    rewrite validate_groups_loop_unknown by exact Hunknown. reflexivity.
  - intros j value Hget Huuid Hunknown.
    edestruct (field_error_reported ctx data db db flow_field) as [errs Herrs];
      [in_list | eapply json_get_is_dict; exact Hget | | eauto].
    unfold field_outcome. simpl. rewrite Hget, Huuid.
    unfold validate_flow. rewrite Hunknown. reflexivity.
Qed.


(** C4, as amended: cross-field validation fails exactly when the resolved
    groups, contacts and urns are all empty, and its error is "Must specify
    at least one group, contact or URN", with a capital M; otherwise it
    returns the data unchanged. For a request all of whose fields pass, the
    serializer reports that message under [non_field_errors] exactly in
    that case, and is valid otherwise. *)
Theorem C4_audience_required (ctx : Context) (db : DB) :
  (forall data : dict,
      (FlowStartWriteSerializer_validate ctx data db
       = (Invalid [Msg "Must specify at least one group, contact or URN"], db)
       <-> get_list data "contacts" = [] /\ get_list data "groups" = []
           /\ get_list data "urns" = [])
      /\ (FlowStartWriteSerializer_validate ctx data db = (Ok data, db)
          <-> ~ (get_list data "contacts" = [] /\ get_list data "groups" = []
                 /\ get_list data "urns" = [])))
  /\ (forall (request : json) (validated : dict) (db1 : DB),
        is_dict request = true ->
        fold_left (field_step ctx request) (fields FlowStartWriteSerializer)
                  ([], [], db) = (validated, [], db1) ->
        (WriteSerializer_run_validation FlowStartWriteSerializer ctx request db
         = (Errors [("non_field_errors",
                     [Msg "Must specify at least one group, contact or URN"])],
            db1)
         <-> get_list validated "contacts" = []
             /\ get_list validated "groups" = []
             /\ get_list validated "urns" = [])
        /\ (WriteSerializer_run_validation FlowStartWriteSerializer ctx request db
            = (Valid validated, db1)
            <-> ~ (get_list validated "contacts" = []
                   /\ get_list validated "groups" = []
                   /\ get_list validated "urns" = []))).
Proof.
  assert (Hargs : forall data : dict,
             get_list data "groups" ++ get_list data "contacts"
             ++ get_list data "urns" = []
             <-> get_list data "contacts" = [] /\ get_list data "groups" = []
                 /\ get_list data "urns" = []).
  { intros data. split.
    - intros H. apply app_eq_nil in H as [Hg H].
      apply app_eq_nil in H as [Hc Hu]. auto.
    - intros (-> & -> & ->). reflexivity. }
  split.
  - intros data. rewrite <- Hargs. unfold FlowStartWriteSerializer_validate.
    destruct (get_list data "groups" ++ get_list data "contacts"
              ++ get_list data "urns") eqn:E; unfold raise, ret.
    + split; split; auto; try discriminate. intros H. exfalso. auto.
    + split; split; auto; try discriminate.
  - intros request validated db1 Hdict Hfold.
    unfold WriteSerializer_run_validation, Serializer_run_validation.
    rewrite Hdict, Hfold. simpl negb. cbv iota. simpl validate.
    rewrite <- Hargs. unfold FlowStartWriteSerializer_validate.
    destruct (get_list validated "groups" ++ get_list validated "contacts"
              ++ get_list validated "urns") eqn:E; unfold raise, ret.
    + split; split; auto; try discriminate. intros H. exfalso. auto.
    + split; split; auto; try discriminate.
Qed.

(** C6, as amended: a syntactically invalid URN anywhere in the [urns] list
    makes validation fail with an error under [urns], and then no URN of
    the list is resolved. When every URN of the list is a non-blank string
    that is syntactically valid, each is normalized and resolved in turn
    with get-or-create semantics, one contact per URN: a contact of the
    organization that already has the URN is reused, otherwise a new
    contact is created in the organization, attributed to the user. *)
Theorem C6_urns_validated_then_resolved (ctx : Context) (data : json)
    (db : DB) (items : list json) :
  json_get "urns" data = Some (JList items) ->
  ((exists item, In item items /\ URN_validate item = false) ->
   exists detail errs,
     WriteSerializer_run_validation FlowStartWriteSerializer ctx data db
     = (Errors errs, db)
     /\ dict_get "urns" errs = Some detail)
  /\ ((forall item, In item items ->
         exists s, item = JStr s /\ is_blank s = false
                   /\ URN_validate item = true) ->
      exists urn_contacts db',
        field_outcome ctx data urns_field db
        = Some (Ok (VList (map VContact urn_contacts)), db')
        /\ length urn_contacts = length items
        /\ Forall2 (resolved (ctx_org ctx) (ctx_user ctx) db db')
                   (map URN_normalize items) urn_contacts).
Proof.
  intros Hget. split.
  - intros Hbad.
    destruct (run_children_invalid_urn items Hbad) as [detail Hrun].
    assert (Hout : field_outcome ctx data urns_field db
                   = Some (Invalid detail, db)).
    { unfold field_outcome. simpl. rewrite Hget.
      unfold URNListField_run_validation, Field_run_validation,
        ListField_to_internal_value. rewrite Hrun. reflexivity. }
    destruct (field_error_reported ctx data db db urns_field detail)
      as [errs [Hrunv Hkey]];
      [in_list | eapply json_get_is_dict; exact Hget | exact Hout |].
    rewrite Hout in Hrunv. simpl in Hrunv. eauto.
  - intros Hall.
    destruct (validate_urns_loop_resolved ctx db (map URN_normalize items)
                [] db [])
      as (cs & more & Hfst & Hsnd & Hres).
    { rewrite app_nil_r. reflexivity. }
    { constructor. }
    exists cs, (snd (validate_urns_loop ctx (map URN_normalize items) [] db)).
    split; [|split].
    + unfold field_outcome. simpl. rewrite Hget.
      unfold URNListField_run_validation, Field_run_validation,
        ListField_to_internal_value.
      rewrite run_children_valid_urns by exact Hall.
      unfold validate_urns.
      destruct (validate_urns_loop ctx (map URN_normalize items) [] db)
        as [urn_contacts db'] eqn:E.
      simpl in Hfst. subst urn_contacts. reflexivity.
    + apply Forall2_length in Hres. rewrite length_map in Hres. auto.
    + exact Hres.
Qed.

(** ** Properties of dependency resolution *)

Lemma walk_cons (db : DB) (pk : nat) (rest : list nat) (deps : DependencySet) :
  walk db (pk :: rest) deps
  = if decide (pk ∈ dep_flows deps) then walk db rest deps
    else match Flow_by_id db pk with
         | None => walk db rest deps
         | Some flow => walk db (flow_flows flow ++ rest) (discover flow deps)
         end.
Proof.
  simp walk.
  destruct (decide (pk ∈ dep_flows deps)); simpl; [reflexivity|].
  destruct (Flow_by_id db pk); reflexivity.
Qed.

(** The accumulator only grows; campaigns are not touched. *)
Lemma walk_grows (db : DB) (stack : list nat) (deps : DependencySet) :
  dep_flows deps ⊆ dep_flows (walk db stack deps)
  /\ dep_campaigns (walk db stack deps) = dep_campaigns deps
  /\ dep_triggers deps ⊆ dep_triggers (walk db stack deps)
  /\ dep_groups deps ⊆ dep_groups (walk db stack deps).
Proof.
  clear. funelim (walk db stack deps); try done.
  match goal with
  | IH : _ ⊆ dep_flows (walk _ _ (discover _ _)) /\ _ |- _ =>
      destruct IH as (Hf & Hc & Ht & Hg)
  end.
  simpl in *. repeat split; [set_solver | exact Hc | set_solver | set_solver].
Qed.

(** Two flows that depend on each other: the walk from the first visits
    both and stops. *)
Lemma walk_cycle (db : DB) (A B : Flow) (deps : DependencySet) :
  Flow_by_id db (flow_id A) = Some A ->
  Flow_by_id db (flow_id B) = Some B ->
  flow_flows A = [flow_id B] ->
  flow_flows B = [flow_id A] ->
  dep_flows deps = ∅ ->
  dep_flows (get_dependencies db (flow_id A) deps) = {[flow_id A; flow_id B]}.
Proof.
  clear. intros HA HB HAB HBA Hempty. unfold get_dependencies.
  rewrite walk_cons, decide_False by (rewrite Hempty; set_solver).
  rewrite HA, HAB. simpl app. rewrite walk_cons.
  destruct (decide (flow_id B ∈ dep_flows (discover A deps))) as [Hin|Hnin].
  - simp walk. simpl in *. rewrite Hempty in *. set_solver.
  - rewrite HB, HBA. simpl app. rewrite walk_cons.
    rewrite decide_True by (simpl; set_solver).
    simp walk. simpl. rewrite Hempty. set_solver.
Qed.

Lemma foldl_unchanged {A B : Type} (l : list B) (a : A) :
  foldl (fun acc _ => acc) a l = a.
Proof. induction l as [|x l IH]; simpl; auto. Qed.

Lemma Flow_filter_nil (org : nat) (db : DB) : Flow_filter [] org db = [].
Proof.
  unfold Flow_filter. induction (Flow_objects db) as [|f l IH]; simpl; auto.
Qed.

Lemma Campaign_filter_nil (org : nat) (db : DB) : Campaign_filter [] org db = [].
Proof.
  unfold Campaign_filter.
  induction (Campaign_objects db) as [|c l IH]; simpl; auto.
Qed.

(** The export for the resolved flows and campaigns: what
    [DefinitionsEndpoint.get] does once the querysets are fetched. *)
Definition bundle (db : DB) (depends : bool) (requested : list Flow)
    (campaigns : list Campaign) : Response :=
  let flows : gset nat := list_to_set (map flow_id requested) in
  let flows :=
    if depends
    then flows ∪ list_to_set (concat (map event_flows campaigns))
    else flows in
  let dependencies :=
    foldl (fun dependencies flow =>
             if depends
             then get_dependencies db flow dependencies
             else dependencies)
          (mkDependencySet ∅ (list_to_set (map campaign_id campaigns)) ∅ ∅)
          (elements flows) in
  mkResponse
    (BodyExport (mkExport (dep_flows dependencies ∪ flows)
                          (dep_campaigns dependencies)
                          (dep_triggers dependencies)))
    HTTP_200_OK.

Lemma DefinitionsEndpoint_get_bundle (org : nat) (params : QueryDict) (db : DB) :
  DefinitionsEndpoint_get org params db
  = bundle db (str_to_bool (qd_get params "dependencies" "true"))
      (Flow_filter (fst (requested_uuids params)) org db)
      (Campaign_filter (snd (requested_uuids params)) org db).
Proof.
  unfold DefinitionsEndpoint_get, bundle.
  destruct (requested_uuids params) as [[|fu fus] [|cu cus]]; simpl fst;
    simpl snd; rewrite ?Flow_filter_nil, ?Campaign_filter_nil; simpl;
    destruct (str_to_bool (qd_get params "dependencies" "true"));
    rewrite ?union_empty_r_L; reflexivity.
Qed.

(** A UUID is known when a flow (a campaign) of the organization has it. *)
Definition Flow_known (org : nat) (db : DB) (u : string) : bool :=
  existsb (fun f => String.eqb (flow_uuid f) u && Nat.eqb (flow_org f) org)
          (Flow_objects db).

Definition Campaign_known (org : nat) (db : DB) (u : string) : bool :=
  existsb (fun c => String.eqb (campaign_uuid c) u
                    && Nat.eqb (campaign_org c) org)
          (Campaign_objects db).

Lemma Flow_filter_known (org : nat) (db : DB) (uuids : list string) :
  Flow_filter (List.filter (Flow_known org db) uuids) org db
  = Flow_filter uuids org db.
Proof.
  unfold Flow_filter. apply filter_ext_in. intros f Hf.
  destruct (Nat.eqb (flow_org f) org) eqn:Horg;
    [rewrite !andb_true_r | rewrite !andb_false_r; reflexivity].
  apply eq_iff_eq_true. rewrite !existsb_exists. split.
  - intros (u & Hin & Heq). apply filter_In in Hin as [Hin _]. eauto.
  - intros (u & Hin & Heq). exists u. split; [|exact Heq].
    apply filter_In. split; [exact Hin|].
    unfold Flow_known. apply existsb_exists. exists f.
    rewrite Heq, Horg. auto.
Qed.

Lemma Campaign_filter_known (org : nat) (db : DB) (uuids : list string) :
  Campaign_filter (List.filter (Campaign_known org db) uuids) org db
  = Campaign_filter uuids org db.
Proof.
  unfold Campaign_filter. apply filter_ext_in. intros c Hc.
  destruct (Nat.eqb (campaign_org c) org) eqn:Horg;
    [rewrite !andb_true_r | rewrite !andb_false_r; reflexivity].
  apply eq_iff_eq_true. rewrite !existsb_exists. split.
  - intros (u & Hin & Heq). apply filter_In in Hin as [Hin _]. eauto.
  - intros (u & Hin & Heq). exists u. split; [|exact Heq].
    apply filter_In. split; [exact Hin|].
    unfold Campaign_known. apply existsb_exists. exists c.
    rewrite Heq, Horg. auto.
Qed.

(** Requests that ask for the same known UUIDs get the same export. *)
Lemma same_known_same_export (org : nat) (db : DB) (params params' : QueryDict) :
  qd_get params' "dependencies" "true" = qd_get params "dependencies" "true" ->
  List.filter (Flow_known org db) (fst (requested_uuids params'))
  = List.filter (Flow_known org db) (fst (requested_uuids params)) ->
  List.filter (Campaign_known org db) (snd (requested_uuids params'))
  = List.filter (Campaign_known org db) (snd (requested_uuids params)) ->
  DefinitionsEndpoint_get org params db = DefinitionsEndpoint_get org params' db.
Proof.
  intros Hdeps Hflows Hcampaigns. rewrite !DefinitionsEndpoint_get_bundle.
  rewrite Hdeps.
  rewrite <- (Flow_filter_known org db (fst (requested_uuids params))).
  rewrite <- (Flow_filter_known org db (fst (requested_uuids params'))).
  rewrite <- (Campaign_filter_known org db (snd (requested_uuids params))).
  rewrite <- (Campaign_filter_known org db (snd (requested_uuids params'))).
  rewrite Hflows, Hcampaigns. reflexivity.
Qed.

Lemma filter_idem {A : Type} (p : A -> bool) (l : list A) :
  List.filter p (List.filter p l) = List.filter p l.
Proof.
  induction l as [|x l IH]; simpl; [reflexivity|].
  destruct (p x) eqn:E; simpl; rewrite ?E, IH; reflexivity.
Qed.

(** ** Claims about the definitions export *)

(** C3: the flows of the organization whose UUID was requested are always
    exported, so resolving dependencies adds to them and never replaces
    them; and with [dependencies=false] the exported flows are exactly
    these flows, whatever they depend on, the campaigns are the requested
    campaigns and no trigger is exported. *)
Theorem C3_without_dependencies_only_requested_flows (org : nat)
    (params : QueryDict) (db : DB) :
  (exists export,
      DefinitionsEndpoint_get org params db
      = mkResponse (BodyExport export) HTTP_200_OK
      /\ list_to_set
           (map flow_id (Flow_filter (fst (requested_uuids params)) org db))
         ⊆ export_flows export)
  /\ (str_to_bool (qd_get params "dependencies" "true") = false ->
      DefinitionsEndpoint_get org params db
      = mkResponse
          (BodyExport
             (mkExport
                (list_to_set
                   (map flow_id
                        (Flow_filter (fst (requested_uuids params)) org db)))
                (list_to_set
                   (map campaign_id
                        (Campaign_filter (snd (requested_uuids params)) org db)))
                ∅))
          HTTP_200_OK).
Proof.
  clear generate_uuid. split.
  - rewrite DefinitionsEndpoint_get_bundle. unfold bundle.
    eexists. split; [reflexivity|]. cbn [export_flows].
    destruct (str_to_bool (qd_get params "dependencies" "true")); set_solver.
  - intros Hdepends. rewrite DefinitionsEndpoint_get_bundle. unfold bundle.
    rewrite Hdepends. rewrite foldl_unchanged. simpl.
    rewrite union_empty_l_L. reflexivity.
Qed.

(** An unknown UUID in front of a list of UUIDs finds nothing. *)
Lemma Flow_filter_unknown (org : nat) (db : DB) (unknown : string)
    (uuids : list string) :
  Flow_known org db unknown = false ->
  Flow_filter (unknown :: uuids) org db = Flow_filter uuids org db.
Proof.
  intros Hunknown. rewrite <- (Flow_filter_known org db (unknown :: uuids)).
  simpl. rewrite Hunknown. apply Flow_filter_known.
Qed.

Lemma Campaign_filter_unknown (org : nat) (db : DB) (unknown : string)
    (uuids : list string) :
  Campaign_known org db unknown = false ->
  Campaign_filter (unknown :: uuids) org db = Campaign_filter uuids org db.
Proof.
  intros Hunknown.
  rewrite <- (Campaign_filter_known org db (unknown :: uuids)).
  simpl. rewrite Hunknown. apply Campaign_filter_known.
Qed.

(** Resolving dependencies leaves the campaigns as they are. *)
Lemma resolved_campaigns (db : DB) (depends : bool) (flows : list nat)
    (deps : DependencySet) :
  dep_campaigns
    (foldl (fun dependencies flow =>
              if depends then get_dependencies db flow dependencies
              else dependencies) deps flows)
  = dep_campaigns deps.
Proof.
  revert deps. induction flows as [|flow flows IH]; intros deps; simpl;
    [reflexivity|].
  rewrite IH. destruct depends; [|reflexivity].
  unfold get_dependencies.
  destruct (walk_grows db [flow] deps) as (_ & H & _). exact H.
Qed.

(** A flow that depends on nothing resolves to itself. *)
Lemma get_dependencies_alone (db : DB) (flow : Flow) :
  Flow_by_id db (flow_id flow) = Some flow ->
  flow_flows flow = [] ->
  get_dependencies db (flow_id flow) (mkDependencySet ∅ ∅ ∅ ∅)
  = discover flow (mkDependencySet ∅ ∅ ∅ ∅).
Proof.
  intros Hrow Hnone. unfold get_dependencies. rewrite walk_cons.
  destruct (decide (flow_id flow ∈ dep_flows (mkDependencySet ∅ ∅ ∅ ∅)))
    as [Hin|_]; [simpl in Hin; set_solver|].
  rewrite Hrow, Hnone. simpl. simp walk. reflexivity.
Qed.

(** The export of one flow and no campaign. *)
Lemma bundle_one_flow (db : DB) (depends : bool) (flow : Flow) :
  exists export,
    bundle db depends [flow] [] = mkResponse (BodyExport export) HTTP_200_OK
    /\ flow_id flow ∈ export_flows export
    /\ export_campaigns export = ∅
    /\ (depends = false
        \/ (Flow_by_id db (flow_id flow) = Some flow
            /\ flow_flows flow = [] /\ flow_triggers flow = []) ->
        export = mkExport {[flow_id flow]} ∅ ∅).
Proof.
  clear. unfold bundle. eexists. split; [reflexivity|].
  cbn [export_flows export_campaigns map concat].
  split; [destruct depends; set_solver|].
  split; [rewrite resolved_campaigns; reflexivity|].
  intros Halone.
  assert (Hflows : (if depends
                    then (list_to_set [flow_id flow] : gset nat)
                         ∪ list_to_set []
                    else list_to_set [flow_id flow]) = {[flow_id flow]})
    by (destruct depends; set_solver).
  rewrite Hflows, elements_singleton. cbn [foldl].
  destruct depends.
  - destruct Halone as [Hfalse|(Hrow & Hnone & Htriggers)];
      [discriminate Hfalse|].
    rewrite get_dependencies_alone by assumption.
    unfold discover. rewrite Htriggers. cbn [dep_flows dep_campaigns
      dep_triggers]. f_equal; set_solver.
  - cbn [dep_flows dep_campaigns dep_triggers]. f_equal; set_solver.
Qed.

(** The export of one campaign and no flow. *)
Lemma bundle_one_campaign (db : DB) (depends : bool) (campaign : Campaign) :
  exists export,
    bundle db depends [] [campaign]
    = mkResponse (BodyExport export) HTTP_200_OK
    /\ export_campaigns export = {[campaign_id campaign]}
    /\ (depends = false -> export = mkExport ∅ {[campaign_id campaign]} ∅).
Proof.
  clear. unfold bundle. eexists. split; [reflexivity|].
  cbn [export_flows export_campaigns map].
  split; [rewrite resolved_campaigns; cbn [dep_campaigns]; set_solver|].
  intros ->. rewrite list_to_set_nil, elements_empty.
  cbn [foldl dep_flows dep_campaigns dep_triggers]. f_equal; set_solver.
Qed.

(** C5: a definitions GET always answers 200. UUIDs that no flow or
    campaign of the organization has, among them those of another
    organization, do not change the export: a request gets the export of
    the request with the unknown UUIDs left out. A request for an unknown
    UUID and the UUID of a flow of the organization exports that flow and
    no campaign; the flow is all that is exported when dependencies are
    off or the flow depends on nothing. A request for an unknown UUID and
    the UUID of a campaign of the organization exports that campaign and
    no other, and nothing else when dependencies are off. A request with
    no parameter yields an export with empty collections. *)
Theorem C5_unknown_uuids_are_dropped (org : nat) (db : DB) :
  (forall params, status (DefinitionsEndpoint_get org params db) = HTTP_200_OK)
  /\ (forall params params',
        qd_get params' "dependencies" "true"
        = qd_get params "dependencies" "true" ->
        fst (requested_uuids params')
        = List.filter (Flow_known org db) (fst (requested_uuids params)) ->
        snd (requested_uuids params')
        = List.filter (Campaign_known org db) (snd (requested_uuids params)) ->
        DefinitionsEndpoint_get org params db
        = DefinitionsEndpoint_get org params' db)
  /\ (forall valid unknown,
        Flow_known org db unknown = false ->
        DefinitionsEndpoint_get org [("flow", [unknown; valid])] db
        = DefinitionsEndpoint_get org [("flow", [valid])] db)
  /\ (forall valid unknown,
        Campaign_known org db unknown = false ->
        DefinitionsEndpoint_get org [("campaign", [unknown; valid])] db
        = DefinitionsEndpoint_get org [("campaign", [valid])] db)
  /\ (forall params flow unknown,
        requested_uuids params = ([unknown; flow_uuid flow], []) ->
        Flow_filter [flow_uuid flow] org db = [flow] ->
        Flow_known org db unknown = false ->
        exists export,
          DefinitionsEndpoint_get org params db
          = mkResponse (BodyExport export) HTTP_200_OK
          /\ flow_id flow ∈ export_flows export
          /\ export_campaigns export = ∅
          /\ (str_to_bool (qd_get params "dependencies" "true") = false
              \/ (Flow_by_id db (flow_id flow) = Some flow
                  /\ flow_flows flow = [] /\ flow_triggers flow = []) ->
              export = mkExport {[flow_id flow]} ∅ ∅))
  /\ (forall params campaign unknown,
        requested_uuids params = ([], [unknown; campaign_uuid campaign]) ->
        Campaign_filter [campaign_uuid campaign] org db = [campaign] ->
        Campaign_known org db unknown = false ->
        exists export,
          DefinitionsEndpoint_get org params db
          = mkResponse (BodyExport export) HTTP_200_OK
          /\ export_campaigns export = {[campaign_id campaign]}
          /\ (str_to_bool (qd_get params "dependencies" "true") = false ->
              export = mkExport ∅ {[campaign_id campaign]} ∅))
  /\ DefinitionsEndpoint_get org [] db
     = mkResponse (BodyExport (mkExport ∅ ∅ ∅)) HTTP_200_OK.
Proof.
  split; [|split; [|split; [|split; [|split; [|split]]]]].
  - intros params. rewrite DefinitionsEndpoint_get_bundle. reflexivity.
  - intros params params' Hdeps Hflows Hcampaigns.
    apply same_known_same_export; [exact Hdeps | |].
    + rewrite Hflows. apply filter_idem.
    + rewrite Hcampaigns. apply filter_idem.
  - intros valid unknown Hunknown.
    apply same_known_same_export; [reflexivity | | reflexivity].
    unfold requested_uuids. simpl. rewrite Hunknown. reflexivity.
  - intros valid unknown Hunknown.
    apply same_known_same_export; [reflexivity | reflexivity |].
    unfold requested_uuids. simpl. rewrite Hunknown. reflexivity.
  - intros params flow unknown Hrequested Hvalid Hunknown.
    rewrite DefinitionsEndpoint_get_bundle, Hrequested. cbn [fst snd].
    rewrite (Flow_filter_unknown org db unknown _ Hunknown), Hvalid,
      Campaign_filter_nil.
    apply bundle_one_flow.
  - intros params campaign unknown Hrequested Hvalid Hunknown.
    rewrite DefinitionsEndpoint_get_bundle, Hrequested. cbn [fst snd].
    rewrite (Campaign_filter_unknown org db unknown _ Hunknown), Hvalid,
      Flow_filter_nil.
    apply bundle_one_campaign.
  - rewrite DefinitionsEndpoint_get_bundle. unfold bundle, requested_uuids.
    simpl fst. simpl snd. simpl qd_contains. simpl orb. cbv iota.
    rewrite Flow_filter_nil, Campaign_filter_nil. cbn [map concat].
    destruct (str_to_bool (qd_get [] "dependencies" "true"));
      rewrite !list_to_set_nil, ?union_empty_r_L, elements_empty;
      cbn [foldl dep_flows dep_campaigns dep_triggers];
      rewrite ?union_empty_r_L; reflexivity.
Qed.

(** C8: dependency resolution is a total function, so it terminates on any
    flow graph; the walk drops a flow it has already visited. The
    accumulator only grows. With flow A requested, A depending on B and B
    on A, the export holds exactly A and B, each once. *)
Theorem C8_cyclic_dependencies_terminate (db : DB) :
  (forall flow deps,
      dep_flows deps ⊆ dep_flows (get_dependencies db flow deps)
      /\ dep_campaigns deps ⊆ dep_campaigns (get_dependencies db flow deps)
      /\ dep_triggers deps ⊆ dep_triggers (get_dependencies db flow deps)
      /\ dep_groups deps ⊆ dep_groups (get_dependencies db flow deps))
  /\ (forall flow deps,
        flow ∈ dep_flows deps -> get_dependencies db flow deps = deps)
  /\ (forall org params A B,
        str_to_bool (qd_get params "dependencies" "true") = true ->
        Flow_filter (fst (requested_uuids params)) org db = [A] ->
        Campaign_filter (snd (requested_uuids params)) org db = [] ->
        Flow_by_id db (flow_id A) = Some A ->
        Flow_by_id db (flow_id B) = Some B ->
        flow_flows A = [flow_id B] ->
        flow_flows B = [flow_id A] ->
        exists export,
          DefinitionsEndpoint_get org params db
          = mkResponse (BodyExport export) HTTP_200_OK
          /\ export_flows export = {[flow_id A; flow_id B]}
          /\ NoDup (elements (export_flows export))
          /\ (flow_id A <> flow_id B ->
              elements (export_flows export) ≡ₚ [flow_id A; flow_id B])).
Proof.
  clear generate_uuid. split; [|split].
  - intros flow deps. unfold get_dependencies.
    destruct (walk_grows db [flow] deps) as (Hf & Hc & Ht & Hg).
    rewrite Hc. auto.
  - intros flow deps Hin. unfold get_dependencies.
    rewrite walk_cons, decide_True by exact Hin. simp walk. reflexivity.
  - intros org params A B Hdepends Hflows Hcampaigns HA HB HAB HBA.
    rewrite DefinitionsEndpoint_get_bundle. unfold bundle.
    rewrite Hdepends, Hflows, Hcampaigns.
    assert (Hset : (list_to_set (map flow_id [A])
                    ∪ list_to_set (concat (map event_flows [])) : gset nat)
                   = {[flow_id A]}) by set_solver.
    rewrite Hset, elements_singleton. cbn [foldl].
    eexists. split; [reflexivity|]. cbn [export_flows].
    rewrite (walk_cycle db A B) by (auto; reflexivity).
    assert (Hflows' : ({[flow_id A; flow_id B]} ∪ {[flow_id A]} : gset nat)
                      = {[flow_id A; flow_id B]}) by set_solver.
    rewrite Hflows'. split; [reflexivity|]. split; [apply NoDup_elements|].
    intros Hne. rewrite elements_disj_union by set_solver.
    rewrite !elements_singleton. reflexivity.
Qed.

(** C9, as amended: the deprecated [flow_uuid] and [campaign_uuid]
    parameters determine both requested UUID lists whenever either of them
    is present, and [flow] and [campaign] are then not read; the new-style
    parameters are read only when both deprecated ones are absent. The
    export depends on the parameters through these two lists and the
    [dependencies] flag only. *)
Theorem C9_deprecated_parameters_come_first (params : QueryDict) :
  (qd_contains params "flow_uuid" = true
   \/ qd_contains params "campaign_uuid" = true ->
   requested_uuids params
   = (splitting_getlist params "flow_uuid",
      splitting_getlist params "campaign_uuid"))
  /\ (qd_contains params "flow_uuid" = false ->
      qd_contains params "campaign_uuid" = false ->
      requested_uuids params
      = (qd_getlist params "flow", qd_getlist params "campaign"))
  /\ (forall org db params',
        requested_uuids params' = requested_uuids params ->
        qd_get params' "dependencies" "true"
        = qd_get params "dependencies" "true" ->
        DefinitionsEndpoint_get org params' db
        = DefinitionsEndpoint_get org params db).
Proof.
  split; [|split].
  - unfold requested_uuids. intros [-> | ->]; rewrite ?orb_true_r; reflexivity.
  - unfold requested_uuids. intros -> ->. reflexivity.
  - intros org db params' Hreq Hdeps.
    rewrite !DefinitionsEndpoint_get_bundle, Hreq, Hdeps. reflexivity.
Qed.

(** ** Further properties of the flow-start endpoint *)

(** What [first()] returns satisfies the filter it was asked with. *)
Lemma Flow_first_spec (org : nat) (u : uuid) (db : DB) (flow : Flow) :
  Flow_first org u db = Some flow ->
  In flow (Flow_objects db) /\ flow_org flow = org
  /\ flow_is_active flow = true /\ flow_uuid flow = u.
Proof.
  unfold Flow_first. intros H. apply find_some in H as [Hin Hp].
  apply andb_true_iff in Hp as [Hp Huuid].
  apply andb_true_iff in Hp as [Horg Hactive].
  apply Nat.eqb_eq in Horg. apply String.eqb_eq in Huuid. auto.
Qed.

Lemma Contact_first_spec (org : nat) (u : uuid) (db : DB) (contact : Contact) :
  Contact_first org u db = Some contact ->
  In contact (Contact_objects db) /\ contact_org contact = org
  /\ contact_is_active contact = true /\ contact_uuid contact = u.
Proof.
  unfold Contact_first. intros H. apply find_some in H as [Hin Hp].
  apply andb_true_iff in Hp as [Hp Huuid].
  apply andb_true_iff in Hp as [Horg Hactive].
  apply Nat.eqb_eq in Horg. apply String.eqb_eq in Huuid. auto.
Qed.

Lemma ContactGroup_first_spec (org : nat) (u : uuid) (db : DB)
    (group : ContactGroup) :
  ContactGroup_first org u db = Some group ->
  In group (ContactGroup_objects db) /\ group_org group = org
  /\ group_is_active group = true /\ group_uuid group = u.
Proof.
  unfold ContactGroup_first. intros H. apply find_some in H as [Hin Hp].
  apply andb_true_iff in Hp as [Hp Huuid].
  apply andb_true_iff in Hp as [Horg Hactive].
  apply Nat.eqb_eq in Horg. apply String.eqb_eq in Huuid. auto.
Qed.

(** When the loops of [validate_contacts] and [validate_groups] return,
    they return one resolved object per UUID, in order, after what they
    were given. *)
Lemma validate_contacts_loop_ok (ctx : Context) (value rest : list uuid)
    (db : DB) :
  forall (acc : list pyobj) (v : pyobj),
    validate_contacts_loop ctx value rest acc db = Ok v ->
    exists cs,
      v = VList (acc ++ map VContact cs)
      /\ Forall2 (fun u c => Contact_first (ctx_org ctx) u db = Some c) rest cs.
Proof.
  induction rest as [|u rest IH]; intros acc v; simpl.
  - intros [= <-]. exists []. rewrite app_nil_r. auto.
  - destruct (Contact_first (ctx_org ctx) u db) as [c|] eqn:E; [|discriminate].
    intros H. apply IH in H as (cs & -> & Hall).
    exists (c :: cs). rewrite <- app_assoc. auto.
Qed.

Lemma validate_groups_loop_ok (ctx : Context) (value rest : list uuid)
    (db : DB) :
  forall (acc : list pyobj) (v : pyobj),
    validate_groups_loop ctx value rest acc db = Ok v ->
    exists gs,
      v = VList (acc ++ map VGroup gs)
      /\ Forall2 (fun u g => ContactGroup_first (ctx_org ctx) u db = Some g)
                 rest gs.
Proof.
  induction rest as [|u rest IH]; intros acc v; simpl.
  - intros [= <-]. exists []. rewrite app_nil_r. auto.
  - destruct (ContactGroup_first (ctx_org ctx) u db) as [g|] eqn:E;
      [|discriminate].
    intros H. apply IH in H as (gs & -> & Hall).
    exists (g :: gs). rewrite <- app_assoc. auto.
Qed.

(** The loops return whenever every UUID resolves. *)
Lemma validate_contacts_loop_total (ctx : Context) (value rest : list uuid)
    (db : DB) :
  (forall u, In u rest -> Contact_first (ctx_org ctx) u db <> None) ->
  forall acc, exists v, validate_contacts_loop ctx value rest acc db = Ok v.
Proof.
  induction rest as [|u rest IH]; intros Hall acc; simpl; [eauto|].
  destruct (Contact_first (ctx_org ctx) u db) as [c|] eqn:E.
  - apply IH. intros u' Hin. apply Hall. simpl. auto.
  - exfalso. apply (Hall u); simpl; auto.
Qed.

Lemma validate_groups_loop_total (ctx : Context) (value rest : list uuid)
    (db : DB) :
  (forall u, In u rest -> ContactGroup_first (ctx_org ctx) u db <> None) ->
  forall acc, exists v, validate_groups_loop ctx value rest acc db = Ok v.
Proof.
  induction rest as [|u rest IH]; intros Hall acc; simpl; [eauto|].
  destruct (ContactGroup_first (ctx_org ctx) u db) as [g|] eqn:E.
  - apply IH. intros u' Hin. apply Hall. simpl. auto.
  - exfalso. apply (Hall u); simpl; auto.
Qed.

(** X3: [validate_contacts] is all or nothing and only reads. When every
    UUID of the list resolves, it returns one contact per UUID, in the
    order of the list, each an active contact of the organization with
    that UUID; when one does not, it raises, and the message carries the
    whole list of UUIDs. *)
Theorem X3_validate_contacts_all_or_nothing (ctx : Context)
    (value : list uuid) (db : DB) :
  snd (validate_contacts ctx value db) = db
  /\ ((forall u, In u value -> Contact_first (ctx_org ctx) u db <> None) ->
      exists contacts,
        fst (validate_contacts ctx value db)
        = Ok (VList (map VContact contacts))
        /\ Forall2 (fun u c => contact_uuid c = u
                               /\ contact_org c = ctx_org ctx
                               /\ contact_is_active c = true
                               /\ In c (Contact_objects db))
                   value contacts)
  /\ ((exists u, In u value /\ Contact_first (ctx_org ctx) u db = None) ->
      fst (validate_contacts ctx value db)
      = Invalid [Fmt "No contact found with UUID: %s"
                     (VList (map VUUID value))]).
Proof.
  split; [reflexivity|]. split.
  - intros Hall. unfold validate_contacts. simpl.
    destruct (validate_contacts_loop_total ctx value value db Hall [])
      as [v Hv].
    rewrite Hv. apply validate_contacts_loop_ok in Hv as (cs & -> & Hres).
    exists cs. split; [reflexivity|].
    eapply Forall2_impl; [exact Hres|].
    intros u c Hc. apply Contact_first_spec in Hc as (? & ? & ? & ?). auto.
  - intros Hbad. unfold validate_contacts. simpl.
    apply validate_contacts_loop_unknown, Hbad.
Qed.

(** X4: [validate_groups] is all or nothing and only reads, like
    [validate_contacts]: one active user group of the organization per
    UUID, in order, or an error that carries the whole list. *)
Theorem X4_validate_groups_all_or_nothing (ctx : Context)
    (value : list uuid) (db : DB) :
  snd (validate_groups ctx value db) = db
  /\ ((forall u, In u value -> ContactGroup_first (ctx_org ctx) u db <> None) ->
      exists groups,
        fst (validate_groups ctx value db) = Ok (VList (map VGroup groups))
        /\ Forall2 (fun u g => group_uuid g = u
                               /\ group_org g = ctx_org ctx
                               /\ group_is_active g = true
                               /\ In g (ContactGroup_objects db))
                   value groups)
  /\ ((exists u, In u value /\ ContactGroup_first (ctx_org ctx) u db = None) ->
      fst (validate_groups ctx value db)
      = Invalid [Fmt "No group found with UUID: %s"
                     (VList (map VUUID value))]).
Proof.
  split; [reflexivity|]. split.
  - intros Hall. unfold validate_groups. simpl.
    destruct (validate_groups_loop_total ctx value value db Hall [])
      as [v Hv].
    rewrite Hv. apply validate_groups_loop_ok in Hv as (gs & -> & Hres).
    exists gs. split; [reflexivity|].
    eapply Forall2_impl; [exact Hres|].
    intros u g Hg. apply ContactGroup_first_spec in Hg as (? & ? & ? & ?). auto.
  - intros Hbad. unfold validate_groups. simpl.
    apply validate_groups_loop_unknown, Hbad.
Qed.

(** The value a field leaves in [validated_data]. *)
Definition recorded (o : option (result pyobj * DB)) : option pyobj :=
  match o with
  | Some (Ok v, _) => Some v
  | _ => None
  end.

Lemma record_lookup (n : string) (o : option (result pyobj * DB))
    (acc : dict * errors) :
  dict_get n (fst (record n o acc))
  = match recorded o with
    | Some v => Some v
    | None => dict_get n (fst acc)
    end.
Proof.
  unfold record, recorded. destruct o as [[[v|detail] db']|]; simpl; auto.
  rewrite dict_get_set, String.eqb_refl. reflexivity.
Qed.

(** [validated_data] holds, under each declared name, what that field
    produced, and nothing when the field was absent or failed. *)
Lemma outcomes_lookup (ctx : Context) (data : json) (db : DB) :
  let vd := fst (flow_start_outcomes ctx data db) in
  dict_get "flow" vd = recorded (field_outcome ctx data flow_field db)
  /\ dict_get "contacts" vd = recorded (field_outcome ctx data contacts_field db)
  /\ dict_get "groups" vd = recorded (field_outcome ctx data groups_field db)
  /\ dict_get "urns" vd = recorded (field_outcome ctx data urns_field db).
Proof.
  unfold flow_start_outcomes. cbv zeta.
  set (o1 := field_outcome ctx data flow_field db).
  set (o2 := field_outcome ctx data contacts_field db).
  set (o3 := field_outcome ctx data groups_field db).
  set (o4 := field_outcome ctx data urns_field db).
  repeat split.
  - destruct (record_other_key "urns" "flow" o4
                (record "groups" o3 (record "contacts" o2
                   (record "flow" o1 ([], []))))) as [-> _]; [discriminate|].
    destruct (record_other_key "groups" "flow" o3
                (record "contacts" o2 (record "flow" o1 ([], []))))
      as [-> _]; [discriminate|].
    destruct (record_other_key "contacts" "flow" o2
                (record "flow" o1 ([], []))) as [-> _]; [discriminate|].
    rewrite record_lookup. destruct (recorded o1); reflexivity.
  - destruct (record_other_key "urns" "contacts" o4
                (record "groups" o3 (record "contacts" o2
                   (record "flow" o1 ([], []))))) as [-> _]; [discriminate|].
    destruct (record_other_key "groups" "contacts" o3
                (record "contacts" o2 (record "flow" o1 ([], []))))
      as [-> _]; [discriminate|].
    rewrite record_lookup.
    destruct (record_other_key "flow" "contacts" o1 ([], [])) as [-> _];
      [discriminate|].
    destruct (recorded o2); reflexivity.
  - destruct (record_other_key "urns" "groups" o4
                (record "groups" o3 (record "contacts" o2
                   (record "flow" o1 ([], []))))) as [-> _]; [discriminate|].
    rewrite record_lookup.
    destruct (record_other_key "contacts" "groups" o2
                (record "flow" o1 ([], []))) as [-> _]; [discriminate|].
    destruct (record_other_key "flow" "groups" o1 ([], [])) as [-> _];
      [discriminate|].
    destruct (recorded o3); reflexivity.
  - rewrite record_lookup.
    destruct (record_other_key "groups" "urns" o3
                (record "contacts" o2 (record "flow" o1 ([], []))))
      as [-> _]; [discriminate|].
    destruct (record_other_key "contacts" "urns" o2
                (record "flow" o1 ([], []))) as [-> _]; [discriminate|].
    destruct (record_other_key "flow" "urns" o1 ([], [])) as [-> _];
      [discriminate|].
    destruct (recorded o4); reflexivity.
Qed.

(** What each field can leave in [validated_data]. *)
Lemma flow_recorded (ctx : Context) (data : json) (db : DB) (v : pyobj) :
  recorded (field_outcome ctx data flow_field db) = Some v ->
  exists flow u, v = VFlow flow /\ Flow_first (ctx_org ctx) u db = Some flow.
Proof.
  unfold field_outcome. simpl.
  destruct (json_get "flow" data) as [j|]; [|discriminate].
  destruct (Field_run_validation UUIDField_to_internal_value j) as [u|d];
    [|discriminate].
  unfold validate_flow.
  destruct (Flow_first (ctx_org ctx) u db) as [flow|] eqn:E; [|discriminate].
  intros [= <-]. eauto.
Qed.

Lemma contacts_recorded (ctx : Context) (data : json) (db : DB) (v : pyobj) :
  recorded (field_outcome ctx data contacts_field db) = Some v ->
  exists contacts,
    v = VList (map VContact contacts)
    /\ Forall (fun c => contact_org c = ctx_org ctx
                        /\ contact_is_active c = true) contacts.
Proof.
  unfold field_outcome. simpl.
  destruct (json_get "contacts" data) as [j|]; [|discriminate].
  destruct (UUIDListField_run_validation j) as [value|d]; [|discriminate].
  unfold validate_contacts. simpl.
  destruct (validate_contacts_loop ctx value value [] db) as [v'|d] eqn:E;
    [|discriminate].
  intros [= <-]. apply validate_contacts_loop_ok in E as (cs & -> & Hres).
  exists cs. split; [reflexivity|].
  clear - Hres. induction Hres as [|u c us cs Hc _ IH]; constructor; auto.
  apply Contact_first_spec in Hc as (_ & ? & ? & _). auto.
Qed.

Lemma groups_recorded (ctx : Context) (data : json) (db : DB) (v : pyobj) :
  recorded (field_outcome ctx data groups_field db) = Some v ->
  exists groups,
    v = VList (map VGroup groups)
    /\ Forall (fun g => group_org g = ctx_org ctx
                        /\ group_is_active g = true) groups.
Proof.
  unfold field_outcome. simpl.
  destruct (json_get "groups" data) as [j|]; [|discriminate].
  destruct (UUIDListField_run_validation j) as [value|d]; [|discriminate].
  unfold validate_groups. simpl.
  destruct (validate_groups_loop ctx value value [] db) as [v'|d] eqn:E;
    [|discriminate].
  intros [= <-]. apply validate_groups_loop_ok in E as (gs & -> & Hres).
  exists gs. split; [reflexivity|].
  clear - Hres. induction Hres as [|u g us gs Hg _ IH]; constructor; auto.
  apply ContactGroup_first_spec in Hg as (_ & ? & ? & _). auto.
Qed.

Lemma urns_recorded (ctx : Context) (data : json) (db : DB) (v : pyobj) :
  recorded (field_outcome ctx data urns_field db) = Some v ->
  exists contacts,
    v = VList (map VContact contacts)
    /\ Forall (fun c => contact_org c = ctx_org ctx) contacts.
Proof.
  unfold field_outcome. simpl.
  destruct (json_get "urns" data) as [j|]; [|discriminate].
  destruct (URNListField_run_validation j) as [value|d]; [|discriminate].
  unfold validate_urns.
  destruct (validate_urns_loop_resolved ctx db value [] db [])
    as (cs & more & Hfst & _ & Hres);
    [rewrite app_nil_r; reflexivity | constructor |].
  destruct (validate_urns_loop ctx value [] db) as [urn_contacts db'].
  simpl in *. intros [= <-]. subst urn_contacts.
  exists cs. split; [reflexivity|].
  clear - Hres. induction Hres as [|u c us cs Hc _ IH]; constructor; auto.
  destruct Hc as (_ & Horg & _). exact Horg.
Qed.

Lemma contacts_of_contacts (contacts : list Contact) :
  contacts_of (map VContact contacts) = contacts.
Proof.
  unfold contacts_of. induction contacts as [|c cs IH]; simpl; [reflexivity|].
  f_equal. exact IH.
Qed.

Lemma groups_of_groups (groups : list ContactGroup) :
  groups_of (map VGroup groups) = groups.
Proof.
  unfold groups_of. induction groups as [|g gs IH]; simpl; [reflexivity|].
  f_equal. exact IH.
Qed.

(** The three audience lists of a request's [validated_data]. *)
Lemma validated_audience (ctx : Context) (data : json) (db : DB) :
  let vd := fst (flow_start_outcomes ctx data db) in
  exists contacts groups urn_contacts,
    get_list vd "contacts" = map VContact contacts
    /\ get_list vd "groups" = map VGroup groups
    /\ get_list vd "urns" = map VContact urn_contacts
    /\ Forall (fun c => contact_org c = ctx_org ctx
                        /\ contact_is_active c = true) contacts
    /\ Forall (fun g => group_org g = ctx_org ctx
                        /\ group_is_active g = true) groups
    /\ Forall (fun c => contact_org c = ctx_org ctx) urn_contacts.
Proof.
  cbv zeta. destruct (outcomes_lookup ctx data db) as (_ & Hc & Hg & Hu).
  unfold get_list. rewrite Hc, Hg, Hu.
  assert (Hcs : exists contacts,
             match recorded (field_outcome ctx data contacts_field db) with
             | Some (VList items) => items | _ => [] end
             = map VContact contacts
             /\ Forall (fun c => contact_org c = ctx_org ctx
                                 /\ contact_is_active c = true) contacts).
  { destruct (recorded (field_outcome ctx data contacts_field db)) as [v|] eqn:E.
    - apply contacts_recorded in E as (cs & -> & H). eauto.
    - exists []. auto. }
  assert (Hgs : exists groups,
             match recorded (field_outcome ctx data groups_field db) with
             | Some (VList items) => items | _ => [] end
             = map VGroup groups
             /\ Forall (fun g => group_org g = ctx_org ctx
                                 /\ group_is_active g = true) groups).
  { destruct (recorded (field_outcome ctx data groups_field db)) as [v|] eqn:E.
    - apply groups_recorded in E as (gs & -> & H). eauto.
    - exists []. auto. }
  assert (Hus : exists contacts,
             match recorded (field_outcome ctx data urns_field db) with
             | Some (VList items) => items | _ => [] end
             = map VContact contacts
             /\ Forall (fun c => contact_org c = ctx_org ctx) contacts).
  { destruct (recorded (field_outcome ctx data urns_field db)) as [v|] eqn:E.
    - apply urns_recorded in E as (cs & -> & H). eauto.
    - exists []. auto. }
  destruct Hcs as (cs & -> & Hcs), Hgs as (gs & -> & Hgs),
           Hus as (us & -> & Hus).
  exists cs, gs, us. auto 10.
Qed.

(** X1: a flow-start POST has three outcomes. When the serializer reports
    errors it is answered 400 with them and no flow start is stored. When
    the serializer is valid exactly one flow start is stored: [save] always
    finds the flow it reads from [validated_data], so it never raises; the
    answer is then 201 if the job system takes the hand-off, and 500 if the
    hand-off raises, the start staying stored. *)
Theorem X1_flow_start_post_outcomes (ctx : Context) (data : json) (db : DB) :
  ((exists validated_data,
       fst (WriteSerializer_run_validation FlowStartWriteSerializer ctx data db)
       = Valid validated_data)
   /\ (exists start,
         FlowStart_objects (snd (post FlowStartsEndpoint ctx data db))
         = FlowStart_objects db ++ [start])
   /\ status (fst (post FlowStartsEndpoint ctx data db))
      = if queue_reachable db then HTTP_201_CREATED
        else HTTP_500_INTERNAL_SERVER_ERROR)
  \/ ((exists errs,
          fst (WriteSerializer_run_validation FlowStartWriteSerializer
                 ctx data db) = Errors errs
          /\ body (fst (post FlowStartsEndpoint ctx data db))
             = BodyErrors errs)
      /\ status (fst (post FlowStartsEndpoint ctx data db))
         = HTTP_400_BAD_REQUEST
      /\ FlowStart_objects (snd (post FlowStartsEndpoint ctx data db))
         = FlowStart_objects db).
Proof.
  rewrite flow_start_post.
  pose proof (run_validation_only_contacts ctx data db) as Honly.
  destruct (WriteSerializer_run_validation FlowStartWriteSerializer ctx data db)
    as [[validated_data|errs] db1] eqn:E; simpl in Honly;
    pose proof (only_contacts_queue _ _ Honly) as Hreachable;
    apply only_contacts_starts in Honly as (Hstarts & _).
  - left. apply valid_inversion in E as (_ & -> & Herrs & _).
    destruct (valid_flow_key ctx data db Herrs) as [flow ->]. cbv zeta.
    rewrite Hreachable.
    destruct (queue_reachable db); simpl; rewrite Hstarts; eauto 6.
  - right. simpl. eauto 6.
Qed.

(** X2: validating a flow-start request that has no [urns] member reads the
    store and writes nothing, whether the request is valid or not: looking
    up the flow, the contacts and the groups has no effect. *)
Theorem X2_validation_without_urns_only_reads (ctx : Context) (data : json)
    (db : DB) :
  json_get "urns" data = None ->
  snd (WriteSerializer_run_validation FlowStartWriteSerializer ctx data db) = db.
Proof.
  intros Hurns. destruct (is_dict data) eqn:Hdict.
  - rewrite flow_start_run_validation by exact Hdict. cbv zeta.
    assert (Hstore : store_after (field_outcome ctx data urns_field db) db = db).
    { unfold field_outcome. simpl. rewrite Hurns. reflexivity. }
    rewrite Hstore.
    destruct (snd (flow_start_outcomes ctx data db)); [|reflexivity].
    destruct (_ ++ _); reflexivity.
  - unfold WriteSerializer_run_validation. rewrite Hdict. reflexivity.
Qed.

(** The start is stored whether the hand-off is taken or not. *)
Lemma stored_either_way {A : Type} (b : bool) (r1 r2 : A) (d1 d2 : DB) :
  FlowStart_objects d1 = FlowStart_objects d2 ->
  FlowStart_objects (snd (if b then (r1, d1) else (r2, d2)))
  = FlowStart_objects d1.
Proof. intros H. destruct b; simpl; auto. Qed.

(** X5: the flow start a valid POST creates is attributed to the requesting
    user, targets an active flow of the requester's organization, holds
    only active user groups of that organization and only contacts of that
    organization, and has an audience: a contact or a group. *)
Theorem X5_created_start_stays_in_the_organization (ctx : Context)
    (data : json) (db db1 : DB) (validated_data : dict) :
  WriteSerializer_run_validation FlowStartWriteSerializer ctx data db
  = (Valid validated_data, db1) ->
  exists start,
    FlowStart_objects (snd (post FlowStartsEndpoint ctx data db))
    = FlowStart_objects db ++ [start]
    /\ start_created_by start = ctx_user ctx
    /\ flow_org (start_flow start) = ctx_org ctx
    /\ flow_is_active (start_flow start) = true
    /\ Forall (fun g => group_org g = ctx_org ctx /\ group_is_active g = true)
              (start_groups start)
    /\ Forall (fun c => contact_org c = ctx_org ctx) (start_contacts start)
    /\ (start_contacts start <> [] \/ start_groups start <> []).
Proof.
  intros Hrun.
  pose proof (run_validation_only_contacts ctx data db) as Honly.
  rewrite Hrun in Honly. simpl in Honly.
  apply only_contacts_starts in Honly as (Hstarts & _).
  pose proof Hrun as Hinv.
  apply valid_inversion in Hinv as (_ & -> & Herrs & _ & Hargs).
  destruct (valid_flow_key ctx data db Herrs) as [flow Hflow].
  destruct (outcomes_lookup ctx data db) as (Hlookup & _).
  rewrite Hflow in Hlookup. symmetry in Hlookup.
  apply flow_recorded in Hlookup as (flow' & u & [= <-] & Hfirst).
  apply Flow_first_spec in Hfirst as (_ & Horg & Hactive & _).
  destruct (validated_audience ctx data db)
    as (cs & gs & us & Hc & Hg & Hu & Hcs & Hgs & Hus).
  rewrite flow_start_post, Hrun, Hflow. cbv zeta.
  rewrite stored_either_way by reflexivity. simpl.
  eexists. split; [rewrite Hstarts; reflexivity|]. simpl.
  rewrite Hc, Hg, Hu in *.
  rewrite <- map_app, contacts_of_contacts, groups_of_groups.
  repeat split; auto.
  - apply Forall_app. split; [|exact Hus].
    eapply Forall_impl; [exact Hcs|]. intros c [Hc' _]. exact Hc'.
  - destruct gs as [|g gs]; [|right; discriminate].
    left. simpl in Hargs. rewrite <- map_app in Hargs.
    destruct (cs ++ us); [contradiction | discriminate].
Qed.

(** ** Properties of the resthook-subscriber endpoint *)

(** The two declared fields of [ResthookSubscriberWriteSerializer]. *)
Definition resthook_field : Field :=
  mkField "resthook" true string
    (CharField_run_validation SlugField_to_internal_value) validate_resthook.

Definition target_url_field : Field :=
  mkField "target_url" true string
    (CharField_run_validation URLField_to_internal_value)
    (fun _ value => ret (VText value)).

Lemma validate_resthook_read_only : field_read_only resthook_field.
Proof.
  intros ctx v db. simpl. unfold validate_resthook.
  destruct v; [reflexivity|]. destruct (get_resthook ctx _ db); reflexivity.
Qed.

Lemma target_url_read_only : field_read_only target_url_field.
Proof. intros ctx v db. reflexivity. Qed.

(** [is_valid] of the subscriber serializer on a JSON object: both fields
    only read, then [validate] runs when neither failed. *)
Lemma resthook_run_validation (ctx : Context) (data : json) (db : DB) :
  is_dict data = true ->
  WriteSerializer_run_validation ResthookSubscriberWriteSerializer ctx data db
  = let p := record "target_url" (field_outcome ctx data target_url_field db)
               (record "resthook" (field_outcome ctx data resthook_field db)
                  ([], [])) in
    match snd p with
    | _ :: _ => (Errors (snd p), db)
    | [] =>
        match ResthookSubscriberWriteSerializer_validate ctx (fst p) db with
        | (Ok validated', db2) => (Valid validated', db2)
        | (Invalid detail, db2) => (Errors [("non_field_errors", detail)], db2)
        end
    end.
Proof.
  intros Hdict. unfold WriteSerializer_run_validation. rewrite Hdict.
  simpl negb. cbv iota. unfold Serializer_run_validation.
  change (fold_left (field_step ctx data)
            (fields ResthookSubscriberWriteSerializer) ([], [], db))
    with (field_step ctx data
            (field_step ctx data ([], [], db) resthook_field)
            target_url_field).
  rewrite field_step_record, (store_after_read_only _ _ resthook_field)
    by apply validate_resthook_read_only.
  rewrite field_step_record, (store_after_read_only _ _ target_url_field)
    by apply target_url_read_only.
  cbv zeta.
  change (field_name target_url_field) with "target_url".
  change (field_name resthook_field) with "resthook".
  destruct (record "target_url" _ _) as [validated errs].
  destruct errs; reflexivity.
Qed.

(** A slug that only inactive resthooks, or resthooks of other
    organizations, carry is the slug of no resthook. *)
Lemma get_resthook_none (ctx : Context) (slug : string) (db : DB) :
  (forall r, In r (Resthook_objects db) -> resthook_slug r = slug ->
             resthook_is_active r = false \/ resthook_org r <> ctx_org ctx) ->
  get_resthook ctx slug db = None.
Proof.
  intros Hnone. unfold get_resthook.
  destruct (find _ (Resthook_objects db)) as [r|] eqn:E; [|reflexivity].
  apply find_some in E as [Hin Hp].
  apply andb_true_iff in Hp as [Hp Hslug].
  apply andb_true_iff in Hp as [Hactive Horg].
  apply String.eqb_eq in Hslug. apply Nat.eqb_eq in Horg.
  destruct (Hnone r Hin Hslug) as [H|H]; congruence.
Qed.

(** X6: subscribing to a slug that no active resthook of the requester's
    organization carries (the slug is unknown, or belongs to another
    organization, or to a deleted resthook) is answered 400 with "No
    resthook with slug" under [resthook], whatever the target URL, and the
    store is left as it was. *)
Theorem X6_unknown_resthook_is_refused (ctx : Context) (data j : json)
    (db : DB) (slug : string) :
  json_get "resthook" data = Some j ->
  CharField_run_validation SlugField_to_internal_value j = Ok slug ->
  slug <> "" ->
  (forall r, In r (Resthook_objects db) -> resthook_slug r = slug ->
             resthook_is_active r = false \/ resthook_org r <> ctx_org ctx) ->
  exists errs,
    post ResthookSubscriberEndpoint ctx data db
    = (mkResponse (BodyErrors errs) HTTP_400_BAD_REQUEST, db)
    /\ dict_get "resthook" errs
       = Some [Fmt "No resthook with slug: %s" (VText slug)].
Proof.
  intros Hget Hslug Hnonempty Hnone.
  apply get_resthook_none in Hnone.
  assert (Hout : field_outcome ctx data resthook_field db
                 = Some (Invalid [Fmt "No resthook with slug: %s" (VText slug)],
                         db)).
  { unfold field_outcome. simpl. rewrite Hget, Hslug.
    unfold validate_resthook. rewrite Hnone.
    destruct slug; [contradiction | reflexivity]. }
  unfold post. simpl write_serializer_class.
  rewrite resthook_run_validation by (eapply json_get_is_dict; exact Hget).
  cbv zeta. rewrite Hout.
  assert (Hkey : dict_get "resthook"
                   (snd (record "target_url"
                           (field_outcome ctx data target_url_field db)
                           (record "resthook"
                              (Some (Invalid [Fmt "No resthook with slug: %s"
                                                  (VText slug)], db))
                              ([], []))))
                 = Some [Fmt "No resthook with slug: %s" (VText slug)]).
  { apply record_keeps_error; [discriminate|]. reflexivity. }
  destruct (snd (record "target_url" _ _)) as [|e errs] eqn:E.
  - discriminate Hkey.
  - eauto.
Qed.

(** X7: subscribing a URL that an active subscriber of the same resthook
    already has is answered 400 with "URL is already subscribed to this
    event." under [non_field_errors], and the store is left as it was. *)
Theorem X7_duplicate_subscription_is_refused (ctx : Context)
    (data j1 j2 : json) (db : DB) (slug url : string) (resthook : Resthook) :
  json_get "resthook" data = Some j1 ->
  CharField_run_validation SlugField_to_internal_value j1 = Ok slug ->
  json_get "target_url" data = Some j2 ->
  CharField_run_validation URLField_to_internal_value j2 = Ok url ->
  get_resthook ctx slug db = Some resthook ->
  (exists s, In s (ResthookSubscriber_objects db)
             /\ subscriber_resthook s = resthook_id resthook
             /\ subscriber_target_url s = url
             /\ subscriber_is_active s = true) ->
  post ResthookSubscriberEndpoint ctx data db
  = (mkResponse
       (BodyErrors [("non_field_errors",
                     [Msg "URL is already subscribed to this event."])])
       HTTP_400_BAD_REQUEST, db).
Proof.
  intros Hget1 Hslug Hget2 Hurl Hresthook (s & Hin & Hs1 & Hs2 & Hs3).
  unfold post. simpl write_serializer_class.
  rewrite resthook_run_validation by (eapply json_get_is_dict; exact Hget1).
  cbv zeta.
  assert (Hout1 : field_outcome ctx data resthook_field db
                  = Some (Ok (VText slug), db)).
  { unfold field_outcome. simpl. rewrite Hget1, Hslug.
    unfold validate_resthook. rewrite Hresthook. destruct slug; reflexivity. }
  assert (Hout2 : field_outcome ctx data target_url_field db
                  = Some (Ok (VText url), db)).
  { unfold field_outcome. simpl. rewrite Hget2, Hurl. reflexivity. }
  rewrite Hout1, Hout2. simpl.
  unfold ResthookSubscriberWriteSerializer_validate, get_text. simpl.
  rewrite Hresthook.
  assert (Hdup : existsb
                   (fun s0 => Nat.eqb (subscriber_resthook s0)
                                      (resthook_id resthook)
                              && String.eqb (subscriber_target_url s0) url
                              && subscriber_is_active s0)
                   (ResthookSubscriber_objects db) = true).
  { apply existsb_exists. exists s. split; [exact Hin|].
    rewrite Hs1, Hs2, Hs3, Nat.eqb_refl, String.eqb_refl. reflexivity. }
  rewrite Hdup. reflexivity.
Qed.

(** X8: subscribing a URL to an active resthook of the requester's
    organization, when no active subscriber of that resthook has the URL,
    is answered 201 with the new subscriber: [add_subscriber] is called
    once, on that resthook, with the URL and the requesting user.
    Subscribers that were removed do not stand in the way. *)
Theorem X8_new_subscription_is_added (ctx : Context)
    (data j1 j2 : json) (db : DB) (slug url : string) (resthook : Resthook) :
  json_get "resthook" data = Some j1 ->
  CharField_run_validation SlugField_to_internal_value j1 = Ok slug ->
  json_get "target_url" data = Some j2 ->
  CharField_run_validation URLField_to_internal_value j2 = Ok url ->
  get_resthook ctx slug db = Some resthook ->
  (forall s, In s (ResthookSubscriber_objects db) ->
             subscriber_resthook s = resthook_id resthook ->
             subscriber_target_url s = url ->
             subscriber_is_active s = false) ->
  post ResthookSubscriberEndpoint ctx data db
  = (mkResponse
       (BodyData
          (ResthookSubscriberReadSerializer_data ctx
             (fst (Resthook_add_subscriber resthook url (ctx_user ctx) db))))
       HTTP_201_CREATED,
     snd (Resthook_add_subscriber resthook url (ctx_user ctx) db)).
Proof.
  intros Hget1 Hslug Hget2 Hurl Hresthook Hfree.
  unfold post. simpl write_serializer_class.
  rewrite resthook_run_validation by (eapply json_get_is_dict; exact Hget1).
  cbv zeta.
  assert (Hout1 : field_outcome ctx data resthook_field db
                  = Some (Ok (VText slug), db)).
  { unfold field_outcome. simpl. rewrite Hget1, Hslug.
    unfold validate_resthook. rewrite Hresthook. destruct slug; reflexivity. }
  assert (Hout2 : field_outcome ctx data target_url_field db
                  = Some (Ok (VText url), db)).
  { unfold field_outcome. simpl. rewrite Hget2, Hurl. reflexivity. }
  rewrite Hout1, Hout2. simpl.
  unfold ResthookSubscriberWriteSerializer_validate, get_text. simpl.
  rewrite Hresthook.
  assert (Hdup : existsb
                   (fun s0 => Nat.eqb (subscriber_resthook s0)
                                      (resthook_id resthook)
                              && String.eqb (subscriber_target_url s0) url
                              && subscriber_is_active s0)
                   (ResthookSubscriber_objects db) = false).
  { apply not_true_is_false. intros H.
    apply existsb_exists in H as (s & Hin & Hp).
    apply andb_true_iff in Hp as [Hp Hactive].
    apply andb_true_iff in Hp as [Hid Hu].
    apply Nat.eqb_eq in Hid. apply String.eqb_eq in Hu.
    rewrite (Hfree s Hin Hid Hu) in Hactive. discriminate. }
  rewrite Hdup. unfold ResthookSubscriberWriteSerializer_save, get_text. simpl.
  rewrite Hresthook.
  destruct (Resthook_add_subscriber resthook url (ctx_user ctx) db)
    as [subscriber db']. reflexivity.
Qed.

(** ** Further properties of the definitions export *)

Lemma existsb_same_members {A : Type} (p : A -> bool) (l l' : list A) :
  (forall x, In x l' <-> In x l) -> existsb p l' = existsb p l.
Proof.
  intros Hsame. apply eq_iff_eq_true. rewrite !existsb_exists.
  split; intros (x & Hin & Hp); exists x; (split; [apply Hsame; exact Hin|exact Hp]).
Qed.

Lemma Flow_filter_same_members (org : nat) (db : DB) (uuids uuids' : list string) :
  (forall u, In u uuids' <-> In u uuids) ->
  Flow_filter uuids' org db = Flow_filter uuids org db.
Proof.
  intros Hsame. unfold Flow_filter. apply filter_ext. intros f.
  rewrite (existsb_same_members _ uuids uuids' Hsame). reflexivity.
Qed.

Lemma Campaign_filter_same_members (org : nat) (db : DB)
    (uuids uuids' : list string) :
  (forall u, In u uuids' <-> In u uuids) ->
  Campaign_filter uuids' org db = Campaign_filter uuids org db.
Proof.
  intros Hsame. unfold Campaign_filter. apply filter_ext. intros c.
  rewrite (existsb_same_members _ uuids uuids' Hsame). reflexivity.
Qed.

(** X9: the export depends on which UUIDs are requested, not on their
    order nor on how often each is given: two requests with the same
    [dependencies] value whose flow UUID lists have the same members, and
    whose campaign UUID lists have the same members, get the same
    response. *)
Theorem X9_export_ignores_order_and_repeats (org : nat) (db : DB)
    (params params' : QueryDict) :
  qd_get params' "dependencies" "true" = qd_get params "dependencies" "true" ->
  (forall u, In u (fst (requested_uuids params'))
             <-> In u (fst (requested_uuids params))) ->
  (forall u, In u (snd (requested_uuids params'))
             <-> In u (snd (requested_uuids params))) ->
  DefinitionsEndpoint_get org params' db = DefinitionsEndpoint_get org params db.
Proof.
  intros Hdeps Hflows Hcampaigns. rewrite !DefinitionsEndpoint_get_bundle.
  rewrite Hdeps, (Flow_filter_same_members _ _ _ _ Hflows),
    (Campaign_filter_same_members _ _ _ _ Hcampaigns).
  reflexivity.
Qed.

(** X10: when dependencies are resolved, the flow of every active flow
    event of a requested campaign of the organization is exported, although
    no flow UUID asks for it; the campaign itself is looked up by its UUID
    within the requester's organization. *)
Theorem X10_campaign_event_flows_are_exported (org : nat)
    (params : QueryDict) (db : DB) (campaign : Campaign) (event : CampaignEvent)
    (flow : nat) :
  str_to_bool (qd_get params "dependencies" "true") = true ->
  In campaign (Campaign_objects db) ->
  campaign_org campaign = org ->
  In (campaign_uuid campaign) (snd (requested_uuids params)) ->
  In event (campaign_events campaign) ->
  event_type event = TYPE_FLOW ->
  event_is_active event = true ->
  event_flow event = Some flow ->
  exists export,
    DefinitionsEndpoint_get org params db
    = mkResponse (BodyExport export) HTTP_200_OK
    /\ flow ∈ export_flows export.
Proof.
  clear generate_uuid.
  intros Hdepends Hin Horg Huuid Hevent Htype Hactive Hflow.
  rewrite DefinitionsEndpoint_get_bundle. unfold bundle. rewrite Hdepends.
  eexists. split; [reflexivity|]. cbn [export_flows].
  assert (Hc : In campaign
                 (Campaign_filter (snd (requested_uuids params)) org db)).
  { unfold Campaign_filter. apply filter_In. split; [exact Hin|].
    apply andb_true_iff. split; [|apply Nat.eqb_eq; exact Horg].
    apply existsb_exists. exists (campaign_uuid campaign).
    split; [exact Huuid | apply String.eqb_refl]. }
  assert (Hf : In flow (event_flows campaign)).
  { unfold event_flows. apply list_elem_of_In, list_elem_of_omap.
    exists event. split; [apply list_elem_of_In; exact Hevent|].
    rewrite Htype, Hactive. exact Hflow. }
  assert (Hall : flow ∈ (list_to_set
                   (concat (map event_flows
                      (Campaign_filter (snd (requested_uuids params)) org db)))
                   : gset nat)).
  { apply elem_of_list_to_set, list_elem_of_In, in_concat.
    exists (event_flows campaign). split; [|exact Hf].
    apply in_map. exact Hc. }
  set_solver.
Qed.

End Runtime.

(** * List endpoints *)

(** [params.get(key)]: the last value of the key, [None] without one. *)
Definition qd_find (params : QueryDict) (key : string) : option string :=
  match dict_get key params with
  | Some (v :: vs) => Some (List.last vs v)
  | Some [] => None
  | None => None
  end.

(** The truth value Python gives [params.get(key)]: there is a value and
    it is not the empty string. *)
Definition given (params : QueryDict) (key : string) : bool :=
  match qd_find params key with
  | Some (String _ _) => true
  | Some EmptyString => false
  | None => false
  end.

(** The class attributes of [ListAPIMixin] that an endpoint overrides. *)
Record ListAPIMixin := mkListAPIMixin {
  exclusive_params : list string;
  required_params : list string
}.

(** [check_query] returns nothing or raises [InvalidQueryError]. *)
Inductive checked : Type :=
| Passed
| InvalidQueryError (message : string).

(** [sum([(1 if params.get(p) else 0) for p in names])] *)
Definition count_given (params : QueryDict) (names : list string) : nat :=
  list_sum (map (fun p => if given params p then 1 else 0) names).

(** [ListAPIMixin.check_query] *)
Definition check_query (view : ListAPIMixin) (params : QueryDict) : checked :=
  (* check user hasn't provided values for more than one of any exclusive
     params *)
  if Nat.ltb 1 (count_given params (exclusive_params view))
  then InvalidQueryError
         (String.append "You may only specify one of the "
            (String.append (String.concat ", " (exclusive_params view))
                           " parameters"))
  else
    (* check that any required params are included *)
    match required_params view with
    | [] => Passed
    | _ :: _ =>
        if negb (Nat.eqb (count_given params (required_params view)) 1)
        then InvalidQueryError
               (String.append "You must specify one of the "
                  (String.append (String.concat ", " (required_params view))
                                 " parameters"))
        else Passed
    end.

(** [MessagesEndpoint] and [RunsEndpoint] *)
Definition MessagesEndpoint : ListAPIMixin :=
  mkListAPIMixin ["contact"; "folder"; "label"; "broadcast"]
                 ["contact"; "folder"; "label"; "broadcast"; "id"].

Definition RunsEndpoint : ListAPIMixin :=
  mkListAPIMixin ["contact"; "flow"] [].

(** Membership in a literal list of names. *)
Ltac in_literal := simpl; repeat ((left; reflexivity) || right).

(** At most one of the names has a value. *)
Definition at_most_one (params : QueryDict) (names : list string) : Prop :=
  forall p q, In p names -> In q names ->
              given params p = true -> given params q = true -> p = q.

Lemma count_given_positive (params : QueryDict) (names : list string) :
  1 <= count_given params names
  <-> exists p, In p names /\ given params p = true.
Proof.
  unfold count_given. induction names as [|x names IH]; simpl.
  - split; [lia | intros (p & [] & _)].
  - destruct (given params x) eqn:Hx.
    + split; [|lia]. intros _. exists x. auto.
    + simpl. rewrite IH. split.
      * intros (p & Hin & Hp). eauto.
      * intros (p & [<-|Hin] & Hp); [congruence | eauto].
Qed.

Lemma count_given_at_most_one (params : QueryDict) (names : list string) :
  List.NoDup names ->
  count_given params names <= 1 <-> at_most_one params names.
Proof.
  intros Hnodup. induction Hnodup as [|x names Hx Hnodup IH].
  - split; [intros _ p q [] | intros _; unfold count_given; simpl; lia].
  - assert (Hhead : count_given params (x :: names)
                    = (if given params x then 1 else 0)
                      + count_given params names) by reflexivity.
    rewrite Hhead. clear Hhead.
    pose proof (count_given_positive params names) as Hpos.
    split.
    + intros Hle p q Hp Hq Hgp Hgq.
      assert (Hrest : given params x = true ->
                      forall r, In r names -> given params r = true -> False).
      { intros Hgx r Hr Hgr. rewrite Hgx in Hle.
        assert (1 <= count_given params names) by (apply Hpos; eauto). lia. }
      destruct Hp as [<-|Hp], Hq as [<-|Hq].
      * reflexivity.
      * destruct (Hrest Hgp q Hq Hgq).
      * destruct (Hrest Hgq p Hp Hgp).
      * apply IH; auto. destruct (given params x); lia.
    + intros Hone.
      assert (Htail : count_given params names <= 1).
      { apply IH. intros p q Hp Hq. apply Hone; right; assumption. }
      destruct (given params x) eqn:Hgx; [|lia].
      destruct (Nat.eq_dec (count_given params names) 0) as [->|Hne]; [lia|].
      assert (H1 : 1 <= count_given params names) by lia.
      apply Hpos in H1 as (p & Hp & Hgp).
      assert (Heq : p = x)
        by (apply Hone; [right; exact Hp | left; reflexivity
                         | exact Hgp | exact Hgx]).
      rewrite Heq in Hp. destruct (Hx Hp).
Qed.

(** X11: what [check_query] accepts, for any endpoint whose parameter
    lists name no parameter twice: the query passes exactly when at most
    one exclusive parameter has a non-empty value and, if the endpoint
    requires parameters, exactly one of them has a non-empty value. A
    parameter given with an empty value counts as not given. *)
Theorem X11_check_query_accepts (view : ListAPIMixin) (params : QueryDict) :
  List.NoDup (exclusive_params view) ->
  List.NoDup (required_params view) ->
  check_query view params = Passed
  <-> at_most_one params (exclusive_params view)
      /\ (required_params view = []
          \/ (exists p, In p (required_params view) /\ given params p = true)
             /\ at_most_one params (required_params view)).
Proof.
  intros Hexclusive Hrequired. unfold check_query.
  rewrite <- (count_given_at_most_one params _ Hexclusive).
  rewrite <- (count_given_at_most_one params _ Hrequired).
  rewrite <- count_given_positive.
  destruct (Nat.ltb_spec 1 (count_given params (exclusive_params view)))
    as [Hlt|Hle].
  - split; [discriminate | intros [H _]; lia].
  - destruct (required_params view) as [|r rs] eqn:Hreq.
    + split; auto.
    + destruct (Nat.eqb_spec (count_given params (r :: rs)) 1) as [Heq|Hne];
        simpl negb; cbv iota.
      * split; [|reflexivity]. intros _. split; [exact Hle|]. right. lia.
      * split; [discriminate|]. intros [_ [H|H]]; [discriminate H | lia].
Qed.

(** X12: two different exclusive parameters with a value are always
    refused, with the message that lists the exclusive parameters, whatever
    else the query holds. *)
Theorem X12_exclusive_parameters_exclude (view : ListAPIMixin)
    (params : QueryDict) (p q : string) :
  In p (exclusive_params view) -> In q (exclusive_params view) -> p <> q ->
  given params p = true -> given params q = true ->
  check_query view params
  = InvalidQueryError
      (String.append "You may only specify one of the "
         (String.append (String.concat ", " (exclusive_params view))
                        " parameters")).
Proof.
  intros Hp Hq Hne Hgp Hgq. unfold check_query.
  assert (Htwo : 2 <= count_given params (exclusive_params view)).
  { revert Hp Hq. generalize (exclusive_params view) as names.
    induction names as [|x names IH]; [intros []|].
    assert (Hhead : count_given params (x :: names)
                    = (if given params x then 1 else 0)
                      + count_given params names) by reflexivity.
    rewrite Hhead. clear Hhead.
    pose proof (count_given_positive params names) as Hpos.
    intros [<-|Hp] [<-|Hq].
    - contradiction.
    - rewrite Hgp. assert (1 <= count_given params names)
        by (apply Hpos; eauto). lia.
    - rewrite Hgq. assert (1 <= count_given params names)
        by (apply Hpos; eauto). lia.
    - specialize (IH Hp Hq). lia. }
  destruct (Nat.ltb_spec 1 (count_given params (exclusive_params view)));
    [reflexivity | lia].
Qed.

(** X13: the message list accepts a query exactly when one, and only one,
    of [contact], [folder], [label], [broadcast] and [id] has a value; the
    run list accepts every query but one with both [contact] and [flow]. *)
Theorem X13_messages_and_runs_queries (params : QueryDict) :
  (check_query MessagesEndpoint params = Passed
   <-> exists p, In p ["contact"; "folder"; "label"; "broadcast"; "id"]
                 /\ given params p = true
                 /\ forall q, In q ["contact"; "folder"; "label"; "broadcast";
                                    "id"] ->
                              given params q = true -> q = p)
  /\ (check_query RunsEndpoint params = Passed
      <-> ~ (given params "contact" = true /\ given params "flow" = true)).
Proof.
  split.
  - unfold check_query, count_given. simpl.
    destruct (given params "contact") eqn:E1, (given params "folder") eqn:E2,
      (given params "label") eqn:E3, (given params "broadcast") eqn:E4,
      (given params "id") eqn:E5; simpl;
      (split;
       [ try discriminate; intros _;
         first
           [ exists "contact"; split; [in_literal|]; split; [exact E1|]
           | exists "folder"; split; [in_literal|]; split; [exact E2|]
           | exists "label"; split; [in_literal|]; split; [exact E3|]
           | exists "broadcast"; split; [in_literal|]; split; [exact E4|]
           | exists "id"; split; [in_literal|]; split; [exact E5|] ];
         intros q Hq Hgq; simpl in Hq;
         destruct Hq as [<-|[<-|[<-|[<-|[<-|[]]]]]]; congruence
       | try reflexivity;
         intros (p & Hp & Hgp & Hone); simpl in Hp;
         destruct Hp as [<-|[<-|[<-|[<-|[<-|[]]]]]]; try congruence;
         first
           [ discriminate (Hone "contact" ltac:(in_literal) E1)
           | discriminate (Hone "folder" ltac:(in_literal) E2)
           | discriminate (Hone "label" ltac:(in_literal) E3)
           | discriminate (Hone "broadcast" ltac:(in_literal) E4)
           | discriminate (Hone "id" ltac:(in_literal) E5) ] ]).
  - unfold check_query, count_given. simpl.
    destruct (given params "contact"), (given params "flow"); simpl;
      split; try discriminate; try reflexivity.
    + intros H. destruct H. auto.
    + intros _ [H1 H2]. discriminate.
    + intros _ [H1 H2]. discriminate.
    + intros _ [H1 H2]. discriminate.
Qed.

(** ** Filtering by date and by reference *)

Section Listing.

(** [temba.utils]: parsing of a JSON date ([None] when it raises) and
    [str_to_bool], which is also called on [None]. *)
Variable json_date_to_datetime : string -> option nat.
Variable str_to_bool : option string -> bool.

(** The conversion Django applies to the value of an integer column in a
    filter; [None] when [int()] raises [ValueError]. *)
Variable IntegerField_get_prep_value : string -> option Z.

(** The [is_test] column of a contact. *)
Variable contact_is_test : Contact -> bool.

(** [ListAPIMixin.filter_before_after]. No row has the primary key [-1]:
    [queryset.filter(pk=-1)] is the empty queryset. *)
Definition filter_before_after {Row : Type} (params : QueryDict)
    (queryset : list Row) (field : Row -> nat) : list Row :=
  let queryset :=
    match qd_find params "before" with
    | Some (String _ _ as before) =>
        match json_date_to_datetime before with
        | Some before =>
            List.filter (fun row => Nat.leb (field row) before) queryset
        | None => []
        end
    | _ => queryset
    end in
  match qd_find params "after" with
  | Some (String _ _ as after) =>
      match json_date_to_datetime after with
      | Some after =>
          List.filter (fun row => Nat.leb after (field row)) queryset
      | None => []
      end
  | _ => queryset
  end.

(** A flow run, with the columns the run list filters on. *)
Record FlowRun := mkFlowRun {
  run_id : nat;
  run_org : nat;
  run_flow : nat;
  run_contact : nat;
  run_responded : bool;
  run_modified_on : nat
}.

(** [ListAPIMixin.get_queryset] for [model = FlowRun] *)
Definition get_queryset (org : nat) (FlowRun_objects : list FlowRun)
  : list FlowRun :=
  List.filter (fun run => Nat.eqb (run_org run) org) FlowRun_objects.

(** [RunsEndpoint.filter_queryset]; [None] when the [id] filter raises. *)
Definition filter_queryset (org : nat) (params : QueryDict) (db : DB)
    (queryset : list FlowRun) : option (list FlowRun) :=
  (* filter by flow (optional) *)
  let queryset :=
    match qd_find params "flow" with
    | Some (String _ _ as flow_uuid') =>
        match find (fun f => Nat.eqb (flow_org f) org
                             && String.eqb (flow_uuid f) flow_uuid'
                             && flow_is_active f) (Flow_objects db) with
        | Some flow =>
            List.filter (fun run => Nat.eqb (run_flow run) (flow_id flow))
                        queryset
        | None => []
        end
    | _ => queryset
    end in
  (* filter by id (optional) *)
  let filtered :=
    match qd_find params "id" with
    | Some (String _ _ as run_id') =>
        match IntegerField_get_prep_value run_id' with
        | Some pk =>
            Some (List.filter (fun run => Z.eqb (Z.of_nat (run_id run)) pk)
                              queryset)
        | None => None
        end
    | _ => Some queryset
    end in
  match filtered with
  | None => None
  | Some queryset =>
      (* filter by contact (optional) *)
      let queryset :=
        match qd_find params "contact" with
        | Some (String _ _ as contact_uuid') =>
            match find (fun c => Nat.eqb (contact_org c) org
                                 && negb (contact_is_test c)
                                 && contact_is_active c
                                 && String.eqb (contact_uuid c) contact_uuid')
                       (Contact_objects db) with
            | Some contact =>
                List.filter
                  (fun run => Nat.eqb (run_contact run) (contact_id contact))
                  queryset
            | None => []
            end
        | _ =>
            (* otherwise filter out test contact runs *)
            let test_contact_ids :=
              map contact_id
                  (List.filter (fun c => Nat.eqb (contact_org c) org
                                         && contact_is_test c)
                               (Contact_objects db)) in
            List.filter
              (fun run => negb (existsb (Nat.eqb (run_contact run))
                                        test_contact_ids))
              queryset
        end in
      (* limit to responded runs (optional) *)
      let queryset :=
        if str_to_bool (qd_find params "responded")
        then List.filter run_responded queryset
        else queryset in
      Some (filter_before_after params queryset run_modified_on)
  end.

Lemma filter_before_after_In {Row : Type} (params : QueryDict)
    (queryset : list Row) (field : Row -> nat) (row : Row) :
  In row (filter_before_after params queryset field) -> In row queryset.
Proof.
  unfold filter_before_after. intros H.
  assert (Hbefore : forall l,
             In row match qd_find params "before" with
                    | Some (String _ _ as before) =>
                        match json_date_to_datetime before with
                        | Some before =>
                            List.filter
                              (fun row => Nat.leb (field row) before) l
                        | None => []
                        end
                    | _ => l
                    end -> In row l).
  { intros l. destruct (qd_find params "before") as [[|a s]|]; auto.
    destruct (json_date_to_datetime _); [|intros []].
    intros Hin. apply filter_In in Hin as [Hin _]. exact Hin. }
  apply Hbefore.
  destruct (qd_find params "after") as [[|a s]|]; auto.
  destruct (json_date_to_datetime _); [|destruct H].
  apply filter_In in H as [H _]. exact H.
Qed.

(** X14: with both [before] and [after] given as dates that parse, the
    listing keeps exactly the rows whose timestamp lies between them, both
    ends included; if [after] is later than [before] nothing is listed. *)
Theorem X14_before_and_after_bound_the_listing {Row : Type}
    (params : QueryDict) (queryset : list Row) (field : Row -> nat)
    (before after : string) (b a : nat) :
  qd_find params "before" = Some before -> before <> "" ->
  json_date_to_datetime before = Some b ->
  qd_find params "after" = Some after -> after <> "" ->
  json_date_to_datetime after = Some a ->
  (forall row, In row (filter_before_after params queryset field)
               <-> In row queryset /\ a <= field row <= b)
  /\ (b < a -> filter_before_after params queryset field = []).
Proof.
  intros Hbefore Hb Hparse_b Hafter Ha Hparse_a.
  assert (Heq : filter_before_after params queryset field
                = List.filter (fun row => Nat.leb a (field row))
                    (List.filter (fun row => Nat.leb (field row) b) queryset)).
  { unfold filter_before_after. rewrite Hbefore, Hafter.
    destruct before; [contradiction|]. destruct after; [contradiction|].
    rewrite Hparse_b, Hparse_a. reflexivity. }
  rewrite Heq. split.
  - intros row. rewrite !filter_In, !Nat.leb_le. split.
    + intros [[H1 H2] H3]. auto.
    + intros [H1 [H2 H3]]. auto.
  - intros Hlt.
    destruct (List.filter _ (List.filter _ queryset)) as [|row l] eqn:E;
      [reflexivity|].
    assert (Hin : In row (List.filter (fun row => Nat.leb a (field row))
                    (List.filter (fun row => Nat.leb (field row) b) queryset)))
      by (rewrite E; left; reflexivity).
    rewrite !filter_In, !Nat.leb_le in Hin. lia.
Qed.

(** X15: a [before] or [after] value that does not parse as a date is not
    reported as an error: the listing is empty, whatever the other bound
    is. *)
Theorem X15_unparseable_date_lists_nothing {Row : Type}
    (params : QueryDict) (queryset : list Row) (field : Row -> nat)
    (key value : string) :
  key = "before" \/ key = "after" ->
  qd_find params key = Some value -> value <> "" ->
  json_date_to_datetime value = None ->
  filter_before_after params queryset field = [].
Proof.
  intros Hkey Hfind Hvalue Hparse. unfold filter_before_after.
  destruct value as [|c value]; [contradiction|].
  destruct Hkey as [-> | ->]; rewrite Hfind, Hparse; clear Hfind Hparse.
  - destruct (qd_find params "after") as [[|c' s]|]; try reflexivity.
    destruct (json_date_to_datetime (String c' s)); reflexivity.
  - reflexivity.
Qed.

(** The runs that pass the filter were in the queryset. *)
Lemma filter_queryset_In (org : nat) (params : QueryDict) (db : DB)
    (queryset rows : list FlowRun) (run : FlowRun) :
  filter_queryset org params db queryset = Some rows ->
  In run rows -> In run queryset.
Proof.
  unfold filter_queryset. intros Hrows Hin.
  set (q1 := match qd_find params "flow" with
             | Some (String _ _ as flow_uuid') => _
             | _ => queryset
             end) in Hrows.
  assert (H1 : forall r, In r q1 -> In r queryset).
  { intros r. subst q1. destruct (qd_find params "flow") as [[|c s]|]; auto.
    destruct (find _ (Flow_objects db)); [|intros []].
    intros H. apply filter_In in H as [H _]. exact H. }
  destruct (match qd_find params "id" with
            | Some (String _ _ as run_id') => _
            | _ => Some q1
            end) as [q2|] eqn:E2; [|discriminate].
  assert (H2 : forall r, In r q2 -> In r q1).
  { intros r. destruct (qd_find params "id") as [[|c s]|];
      [injection E2 as <-; auto| |injection E2 as <-; auto].
    destruct (IntegerField_get_prep_value _); [|discriminate].
    injection E2 as <-. intros H. apply filter_In in H as [H _]. exact H. }
  injection Hrows as <-.
  apply filter_before_after_In in Hin.
  apply H1, H2.
  assert (H3 : forall l, In run (if str_to_bool (qd_find params "responded")
                                 then List.filter run_responded l else l) ->
                         In run l).
  { intros l. destruct (str_to_bool _); auto.
    intros H. apply filter_In in H as [H _]. exact H. }
  apply H3 in Hin.
  destruct (qd_find params "contact") as [[|c s]|].
  - apply filter_In in Hin as [Hin _]. exact Hin.
  - destruct (find _ (Contact_objects db)); [|destruct Hin].
    apply filter_In in Hin as [Hin _]. exact Hin.
  - apply filter_In in Hin as [Hin _]. exact Hin.
Qed.

(** X16: the run list never shows a run of a test contact of the
    organization, with or without a [contact] parameter, provided contacts
    have distinct primary keys. *)
Theorem X16_runs_of_test_contacts_are_hidden (org : nat) (params : QueryDict)
    (db : DB) (queryset rows : list FlowRun) (run : FlowRun)
    (contact : Contact) :
  List.NoDup (map contact_id (Contact_objects db)) ->
  filter_queryset org params db queryset = Some rows ->
  In run rows ->
  In contact (Contact_objects db) ->
  contact_id contact = run_contact run ->
  contact_org contact = org ->
  contact_is_test contact = false.
Proof.
  intros Hnodup Hrows Hin Hcontact Hpk Horg.
  unfold filter_queryset in Hrows.
  destruct (match qd_find params "id" with
            | Some (String _ _ as run_id') => _
            | _ => Some _
            end) as [q2|]; [|discriminate].
  injection Hrows as <-.
  apply filter_before_after_In in Hin.
  assert (H3 : forall l, In run (if str_to_bool (qd_find params "responded")
                                 then List.filter run_responded l else l) ->
                         In run l).
  { intros l. destruct (str_to_bool _); auto.
    intros H. apply filter_In in H as [H _]. exact H. }
  apply H3 in Hin. clear H3.
  assert (Hhidden : In run
            (List.filter
               (fun run => negb (existsb (Nat.eqb (run_contact run))
                  (map contact_id
                     (List.filter (fun c => Nat.eqb (contact_org c) org
                                            && contact_is_test c)
                                  (Contact_objects db))))) q2) ->
            contact_is_test contact = false).
  { intros H. apply filter_In in H as [_ H].
    destruct (contact_is_test contact) eqn:Htest; [|reflexivity].
    apply negb_true_iff in H.
    assert (Hex : existsb (Nat.eqb (run_contact run))
                    (map contact_id
                       (List.filter (fun c => Nat.eqb (contact_org c) org
                                              && contact_is_test c)
                                    (Contact_objects db))) = true).
    { apply existsb_exists. exists (contact_id contact).
      split; [|rewrite Hpk; apply Nat.eqb_refl].
      apply in_map, filter_In. split; [exact Hcontact|].
      rewrite Htest, Horg, Nat.eqb_refl. reflexivity. }
    congruence. }
  destruct (qd_find params "contact") as [[|c s]|]; [auto| |auto].
  destruct (find _ (Contact_objects db)) as [found|] eqn:Efound;
    [|destruct Hin].
  apply filter_In in Hin as [_ Hsame]. apply Nat.eqb_eq in Hsame.
  apply find_some in Efound as [Hfound Hp].
  apply andb_true_iff in Hp as [Hp _].
  apply andb_true_iff in Hp as [Hp _].
  apply andb_true_iff in Hp as [_ Hnot_test].
  apply negb_true_iff in Hnot_test.
  assert (Heq : contact = found).
  { clear - Hnodup Hcontact Hfound Hpk Hsame.
    assert (Hid : contact_id contact = contact_id found) by congruence.
    clear Hpk Hsame. revert Hnodup Hcontact Hfound.
    induction (Contact_objects db) as [|c l IH]; [intros _ []|].
    simpl. intros Hnodup [<-|H1] [<-|H2].
    - reflexivity.
    - inversion Hnodup as [|? ? Hnotin _]. subst. destruct Hnotin.
      rewrite Hid. apply in_map. exact H2.
    - inversion Hnodup as [|? ? Hnotin _]. subst. destruct Hnotin.
      rewrite <- Hid. apply in_map. exact H1.
    - inversion Hnodup; subst. auto. }
  rewrite Heq. exact Hnot_test.
Qed.

(** A reference to a flow or a contact that the organization does not
    have leaves no run. *)
Lemma unknown_reference_no_rows (org : nat)
    (params : QueryDict) (db : DB) (queryset rows : list FlowRun)
    (reference : string) :
  reference <> "" ->
  (qd_find params "flow" = Some reference
   /\ (forall f, In f (Flow_objects db) -> flow_uuid f = reference ->
                 flow_org f <> org \/ flow_is_active f = false))
  \/ (qd_find params "contact" = Some reference
      /\ (forall c, In c (Contact_objects db) -> contact_uuid c = reference ->
                    contact_org c <> org \/ contact_is_test c = true
                    \/ contact_is_active c = false)) ->
  filter_queryset org params db queryset = Some rows ->
  rows = [].
Proof.
  intros Hreference Hunknown Hrows.
  destruct reference as [|ch reference]; [contradiction|]. clear Hreference.
  assert (Hnone : forall run, ~ In run rows).
  { intros run Hin. unfold filter_queryset in Hrows.
    destruct Hunknown as [[Hfind Hflows] | [Hfind Hcontacts]].
    - rewrite Hfind in Hrows.
      destruct (find _ (Flow_objects db)) as [flow|] eqn:Eflow.
      + apply find_some in Eflow as [Hflow Hp].
        apply andb_true_iff in Hp as [Hp Hactive].
        apply andb_true_iff in Hp as [Horg Huuid].
        apply Nat.eqb_eq in Horg. apply String.eqb_eq in Huuid.
        destruct (Hflows flow Hflow Huuid); congruence.
      + destruct (match qd_find params "id" with
                  | Some (String _ _ as run_id') => _
                  | _ => Some _
                  end) as [q2|] eqn:E2; [|discriminate].
        assert (Hq2 : q2 = []).
        { destruct (qd_find params "id") as [[|c s]|];
            [congruence| |congruence].
          destruct (IntegerField_get_prep_value _); [|discriminate].
          injection E2 as <-. reflexivity. }
        subst q2. injection Hrows as <-.
        apply filter_before_after_In in Hin.
        destruct (str_to_bool _);
          destruct (qd_find params "contact") as [[|c s]|]; simpl in Hin;
          try (destruct Hin);
          destruct (find _ (Contact_objects db)); destruct Hin.
    - destruct (match qd_find params "id" with
                | Some (String _ _ as run_id') => _
                | _ => Some _
                end) as [q2|]; [|discriminate].
      injection Hrows as <-. rewrite Hfind in Hin.
      destruct (find _ (Contact_objects db)) as [contact|] eqn:Econtact.
      + apply find_some in Econtact as [Hcontact Hp].
        apply andb_true_iff in Hp as [Hp Huuid].
        apply andb_true_iff in Hp as [Hp Hactive].
        apply andb_true_iff in Hp as [Horg Htest].
        apply Nat.eqb_eq in Horg. apply String.eqb_eq in Huuid.
        apply negb_true_iff in Htest.
        destruct (Hcontacts contact Hcontact Huuid) as [H|[H|H]]; congruence.
      + apply filter_before_after_In in Hin.
        destruct (str_to_bool _); destruct Hin. }
  destruct rows as [|run rows]; [reflexivity|].
  destruct (Hnone run). left. reflexivity.
Qed.

(** The filter returns unless the [id] value is not an integer. *)
Lemma filter_queryset_returns (org : nat) (params : QueryDict) (db : DB)
    (queryset : list FlowRun) :
  (forall id, qd_find params "id" = Some id -> id <> "" ->
              IntegerField_get_prep_value id <> None) ->
  exists rows, filter_queryset org params db queryset = Some rows.
Proof.
  intros Hid. unfold filter_queryset.
  destruct (qd_find params "id") as [[|c s]|]; eauto.
  destruct (IntegerField_get_prep_value (String c s)) as [pk|] eqn:Hpk; eauto.
  destruct (Hid (String c s) eq_refl); [discriminate | exact Hpk].
Qed.

(** X17: a [flow] parameter that is the UUID of no active flow of the
    organization, or a [contact] parameter that is the UUID of no active,
    non-test contact of the organization, is not reported as an error: the
    run list is empty, provided the [id] parameter, if given, is an
    integer. A flow or a contact of another organization is such a case. *)
Theorem X17_unknown_flow_or_contact_lists_no_run (org : nat)
    (params : QueryDict) (db : DB) (queryset : list FlowRun)
    (reference : string) :
  reference <> "" ->
  (qd_find params "flow" = Some reference
   /\ (forall f, In f (Flow_objects db) -> flow_uuid f = reference ->
                 flow_org f <> org \/ flow_is_active f = false))
  \/ (qd_find params "contact" = Some reference
      /\ (forall c, In c (Contact_objects db) -> contact_uuid c = reference ->
                    contact_org c <> org \/ contact_is_test c = true
                    \/ contact_is_active c = false)) ->
  (forall id, qd_find params "id" = Some id -> id <> "" ->
              IntegerField_get_prep_value id <> None) ->
  filter_queryset org params db queryset = Some [].
Proof.
  intros Hreference Hunknown Hid.
  destruct (filter_queryset_returns org params db queryset Hid)
    as [rows Hrows].
  rewrite Hrows.
  rewrite (unknown_reference_no_rows org params db queryset rows reference
             Hreference Hunknown Hrows).
  reflexivity.
Qed.

(** X21: every run the run list shows is a run of the requester's
    organization, whatever the query parameters are: the parameters only
    narrow the organization's runs. *)
Theorem X21_listed_runs_belong_to_the_organization (org : nat)
    (params : QueryDict) (db : DB) (FlowRun_objects rows : list FlowRun)
    (run : FlowRun) :
  filter_queryset org params db (get_queryset org FlowRun_objects) = Some rows ->
  In run rows ->
  In run FlowRun_objects /\ run_org run = org.
Proof.
  intros Hrows Hin.
  apply (filter_queryset_In org params db _ rows run Hrows) in Hin.
  unfold get_queryset in Hin. apply filter_In in Hin as [Hin Horg].
  apply Nat.eqb_eq in Horg. auto.
Qed.

End Listing.

(** ** Removing a resthook subscriber *)

Definition HTTP_204_NO_CONTENT : nat := 204.
Definition HTTP_404_NOT_FOUND : nat := 404.

Section Deleting.

(** The conversion Django applies to the value of the [id] filter;
    [None] when [int()] raises [ValueError]. *)
Variable IntegerField_get_prep_value : string -> option Z.

(** [ResthookSubscriber.release] of [temba.api.models]. *)
Variable ResthookSubscriber_release : ResthookSubscriber -> nat -> DB -> DB.

(** [ResthookSubscriberEndpoint.destroy]. A response without data has the
    body [null]; the [ValueError] of the filter is not caught. *)
Definition destroy (ctx : Context) (params : QueryDict) (db : DB)
  : Response * DB :=
  match qd_find params "id" with
  | Some (String _ _ as subscriber_id') =>
      match IntegerField_get_prep_value subscriber_id' with
      | Some pk =>
          match find
                  (fun s =>
                     existsb (fun r => Nat.eqb (resthook_id r)
                                               (subscriber_resthook s)
                                       && Nat.eqb (resthook_org r) (ctx_org ctx))
                             (Resthook_objects db)
                     && Z.eqb (Z.of_nat (subscriber_id s)) pk)
                  (ResthookSubscriber_objects db) with
          | Some subscriber =>
              (mkResponse (BodyData JNull) HTTP_204_NO_CONTENT,
               ResthookSubscriber_release subscriber (ctx_user ctx) db)
          | None => (mkResponse (BodyData JNull) HTTP_404_NOT_FOUND, db)
          end
      | None => (mkResponse BodyException HTTP_500_INTERNAL_SERVER_ERROR, db)
      end
  | _ => (mkResponse (BodyData JNull) HTTP_400_BAD_REQUEST, db)
  end.

(** [DeleteAPIMixin.delete] *)
Definition delete (ctx : Context) (params : QueryDict) (db : DB)
  : Response * DB :=
  destroy ctx params db.

(** X18: a DELETE releases a subscriber only when it answers 204, and then
    the subscriber released has the requested id and hangs on a resthook of
    the requester's organization, and it is released once, in the name of
    the requesting user; with any other answer the store is left as it
    was. A subscriber of another organization is never released. *)
Theorem X18_delete_releases_only_own_subscribers (ctx : Context)
    (params : QueryDict) (db : DB) :
  (status (fst (delete ctx params db)) = HTTP_204_NO_CONTENT
   /\ exists subscriber resthook,
        In subscriber (ResthookSubscriber_objects db)
        /\ In resthook (Resthook_objects db)
        /\ resthook_id resthook = subscriber_resthook subscriber
        /\ resthook_org resthook = ctx_org ctx
        /\ qd_find params "id" <> None
        /\ option_map IntegerField_get_prep_value (qd_find params "id")
           = Some (Some (Z.of_nat (subscriber_id subscriber)))
        /\ snd (delete ctx params db)
           = ResthookSubscriber_release subscriber (ctx_user ctx) db)
  \/ (status (fst (delete ctx params db)) <> HTTP_204_NO_CONTENT
      /\ snd (delete ctx params db) = db).
Proof.
  unfold delete, destroy.
  destruct (qd_find params "id") as [[|c s]|];
    [right; split; [discriminate|reflexivity]| |
     right; split; [discriminate|reflexivity]].
  destruct (IntegerField_get_prep_value (String c s)) as [pk|] eqn:Hpk;
    [|right; split; [discriminate|reflexivity]].
  destruct (find _ (ResthookSubscriber_objects db)) as [subscriber|] eqn:E;
    [|right; split; [discriminate|reflexivity]].
  left. split; [reflexivity|].
  apply find_some in E as [Hin Hp].
  apply andb_true_iff in Hp as [Hjoin Hid].
  apply existsb_exists in Hjoin as (resthook & Hr & Hp).
  apply andb_true_iff in Hp as [Hrid Horg].
  apply Nat.eqb_eq in Hrid, Horg. apply Z.eqb_eq in Hid.
  exists subscriber, resthook. simpl. rewrite Hpk, Hid.
  repeat split; auto.
Qed.

End Deleting.

(** ** Reading *)

(** [ReadSerializer.extract_constants]: the dictionary from the first to
    the third component of each tuple. *)
Definition extract_constants (config : list (string * string * string))
  : list (string * string) :=
  fold_left (fun constants t => dict_set (fst (fst t)) (snd t) constants)
            config [].

Lemma extract_constants_lookup (config : list (string * string * string))
    (constants : list (string * string)) (code : string) :
  dict_get code
    (fold_left (fun constants t => dict_set (fst (fst t)) (snd t) constants)
               config constants)
  = match find (fun t => String.eqb code (fst (fst t))) (rev config) with
    | Some t => Some (snd t)
    | None => dict_get code constants
    end.
Proof.
  revert constants. induction config as [|t config IH]; intros constants.
  - reflexivity.
  - simpl fold_left. rewrite IH. simpl rev. rewrite find_app.
    destruct (find _ (rev config)); [reflexivity|]. simpl.
    rewrite dict_get_set. destruct (String.eqb code (fst (fst t))); reflexivity.
Qed.

(** X19: [extract_constants] maps a code to the label of the last tuple of
    the configuration that has the code, and a code of no tuple to
    nothing. *)
Theorem X19_extract_constants_last_wins
    (config : list (string * string * string)) (code : string) :
  (forall front name label back,
      config = front ++ (code, name, label) :: back ->
      (forall t, In t back -> fst (fst t) <> code) ->
      dict_get code (extract_constants config) = Some label)
  /\ ((forall t, In t config -> fst (fst t) <> code) ->
      dict_get code (extract_constants config) = None).
Proof.
  unfold extract_constants. split.
  - intros front name label back -> Hlast. rewrite extract_constants_lookup.
    rewrite rev_app_distr. simpl rev. rewrite <- app_assoc, find_app.
    destruct (find _ (rev back)) as [t|] eqn:E.
    + apply find_some in E as [Hin Hcode]. apply in_rev in Hin.
      apply String.eqb_eq in Hcode. destruct (Hlast t Hin). auto.
    + simpl. rewrite String.eqb_refl. reflexivity.
  - intros Hnone. rewrite extract_constants_lookup.
    destruct (find _ (rev config)) as [t|] eqn:E; [|reflexivity].
    apply find_some in E as [Hin Hcode]. apply in_rev in Hin.
    apply String.eqb_eq in Hcode. destruct (Hnone t Hin). auto.
Qed.

Section Reading.

(** What [ContactReadSerializer] reads and this development's [Contact]
    rows and [Context] do not carry: columns of the contact, its user
    groups, the organization's [is_anon] flag, the contact fields of the
    serializer context and the two model methods on field values. *)
Variable Org_is_anon : nat -> bool.
Variable contact_language : Contact -> option string.
Variable contact_is_blocked : Contact -> bool.
Variable contact_is_stopped : Contact -> bool.
Variable contact_user_groups : Contact -> list ContactGroup.
Variable contact_created_on : Contact -> nat.
Variable contact_modified_on : Contact -> nat.
Variable ContactField Value : Type.
Variable contact_field_key : ContactField -> string.
Variable context_contact_fields : Context -> list ContactField.
Variable Contact_get_field : Contact -> string -> Value.
Variable Contact_serialize_field_value : ContactField -> Value -> json.

(** The method fields of [ContactReadSerializer]. *)
Definition get_name (obj : Contact) : json :=
  if contact_is_active obj then JStr (contact_name obj) else JNull.

Definition get_language (obj : Contact) : json :=
  if contact_is_active obj
  then match contact_language obj with
       | Some language => JStr language
       | None => JNull
       end
  else JNull.

Definition get_urns (ctx : Context) (obj : Contact) : json :=
  if Org_is_anon (ctx_org ctx) || negb (contact_is_active obj)
  then JList []
  else JList (map JStr (contact_urns obj)).

(** [ContactReadSerializer.get_groups] *)
Definition get_user_groups (obj : Contact) : json :=
  if negb (contact_is_active obj) then JList []
  else JList (map (fun g => JObj [("uuid", JStr (group_uuid g));
                                  ("name", JStr (group_name g))])
                  (contact_user_groups obj)).

Definition get_contact_fields (ctx : Context) (obj : Contact) : json :=
  if negb (contact_is_active obj) then JObj []
  else
    JObj (fold_left
            (fun fields contact_field =>
               let value :=
                 Contact_get_field obj (contact_field_key contact_field) in
               dict_set (contact_field_key contact_field)
                        (Contact_serialize_field_value contact_field value)
                        fields)
            (context_contact_fields ctx) []).

Definition get_blocked (obj : Contact) : json :=
  if contact_is_active obj then JBool (contact_is_blocked obj) else JNull.

Definition get_stopped (obj : Contact) : json :=
  if contact_is_active obj then JBool (contact_is_stopped obj) else JNull.

(** [ContactReadSerializer(obj, context).data], in the order of
    [Meta.fields]. *)
Definition ContactReadSerializer_data (ctx : Context) (obj : Contact) : json :=
  JObj [("uuid", JStr (contact_uuid obj));
        ("name", get_name obj);
        ("language", get_language obj);
        ("urns", get_urns ctx obj);
        ("groups", get_user_groups obj);
        ("fields", get_contact_fields ctx obj);
        ("blocked", get_blocked obj);
        ("stopped", get_stopped obj);
        ("created_on", JNum (Z.of_nat (contact_created_on obj)));
        ("modified_on", JNum (Z.of_nat (contact_modified_on obj)))].

(** X20: a deleted contact is rendered with its UUID and its two
    timestamps only: two deleted contacts that agree on these are rendered
    alike, in any context, whatever their names, languages, URNs, groups,
    field values and flags are. And in an anonymous organization no
    contact, deleted or not, is rendered with a URN. *)
Theorem X20_deleted_and_anonymous_contacts_are_masked (ctx ctx' : Context)
    (obj obj' : Contact) :
  (contact_is_active obj = false -> contact_is_active obj' = false ->
   contact_uuid obj = contact_uuid obj' ->
   contact_created_on obj = contact_created_on obj' ->
   contact_modified_on obj = contact_modified_on obj' ->
   ContactReadSerializer_data ctx obj = ContactReadSerializer_data ctx' obj')
  /\ (Org_is_anon (ctx_org ctx) = true ->
      json_get "urns" (ContactReadSerializer_data ctx obj) = Some (JList [])).
Proof.
  split.
  - intros Hobj Hobj' Huuid Hcreated Hmodified.
    unfold ContactReadSerializer_data, get_name, get_language, get_urns,
      get_user_groups, get_contact_fields, get_blocked, get_stopped.
    rewrite Hobj, Hobj', Huuid, Hcreated, Hmodified, !orb_true_r.
    reflexivity.
  - intros Hanon. unfold ContactReadSerializer_data, get_urns.
    rewrite Hanon. reflexivity.
Qed.

End Reading.

(** ** A small organization

    Concrete library functions and a concrete store, on which the claims
    are run. *)
Module Demo.

(** A UUID is a string of 36 characters. *)
Definition UUIDField_to_internal_value (data : json) : result uuid :=
  match data with
  | JStr s =>
      if Nat.eqb (String.length s) 36 then Ok s
      else Invalid [Fmt "%s is not a valid UUID." (VJson data)]
  | _ => Invalid [Fmt "%s is not a valid UUID." (VJson data)]
  end.

Definition text_field (data : json) : result string :=
  match data with
  | JStr s => Ok s
  | _ => Invalid [Msg "Not a valid string."]
  end.

(** Telephone and Twitter URNs. *)
Definition URN_validate (data : json) : bool :=
  match data with
  | JStr s => String.prefix "tel:+" s || String.prefix "twitter:" s
  | _ => false
  end.

Definition URN_normalize (data : json) : string :=
  match data with JStr s => s | _ => "" end.

Definition generate_uuid (n : nat) : uuid :=
  String.append "00000000-0000-4000-8000-00000000000"
                (String (ascii_of_nat (48 + n mod 10)) "").

Definition add_subscriber (resthook : Resthook) (target_url : string)
    (user : nat) (db : DB) : ResthookSubscriber * DB :=
  let subscriber :=
    mkResthookSubscriber
      (fresh_id (map subscriber_id (ResthookSubscriber_objects db)))
      (resthook_id resthook) target_url true in
  (subscriber,
   mkDB (Flow_objects db) (Contact_objects db) (ContactGroup_objects db)
        (Campaign_objects db) (FlowStart_objects db) (Resthook_objects db)
        (ResthookSubscriber_objects db ++ [subscriber])
        (task_queue db) (history db) (now db) (queue_reachable db)).

Definition subscriber_data (ctx : Context) (obj : ResthookSubscriber) : json :=
  JObj [("id", JNum (Z.of_nat (subscriber_id obj)));
        ("target_url", JStr (subscriber_target_url obj))].

Definition str_to_bool (text : string) : bool :=
  existsb (String.eqb text) ["true"; "y"; "yes"; "1"].

(** [text.split(',')] *)
Fixpoint split_commas (text : string) : list string :=
  match text with
  | EmptyString => [EmptyString]
  | String a rest =>
      if Ascii.eqb a "," then EmptyString :: split_commas rest
      else match split_commas rest with
           | [] => [String a EmptyString]
           | word :: words => String a word :: words
           end
  end.

(** A single value is split at its commas, several values are taken as
    they are. *)
Definition splitting_getlist (params : QueryDict) (name : string)
  : list string :=
  match qd_getlist params name with
  | [v] => split_commas v
  | vals => vals
  end.

Definition uuid_A : uuid := "f5901b62-ba76-4003-9c62-72fdacc1b7b7".
Definition uuid_B : uuid := "09d23a05-47fe-11e4-bfe9-b8f6b119e9ab".
Definition uuid_C : uuid := "f14e4ff0-724d-43fe-a953-1d16aefd1c0b".
Definition uuid_unknown : uuid := "5fa6e9ae-e78e-4e38-9c66-3acf5e32fcd2".
Definition uuid_wanz : uuid := "32d415f8-6d31-4b82-922e-a93416d5aa0a".
Definition uuid_group : uuid := "87929095-7d13-4003-8ee7-4c668b736419".

(** Flows A and B start each other; flow C belongs to another
    organization. *)
Definition flow_A : Flow := mkFlow 1 uuid_A "Thrift Shop" 1 true [2] [1] [5].
Definition flow_B : Flow := mkFlow 2 uuid_B "Water Point Survey" 1 true [1] [] [].
Definition flow_C : Flow := mkFlow 3 uuid_C "Elsewhere" 2 true [] [] [].

Definition wanz : Contact :=
  mkContact 1 uuid_wanz "Wanz" 1 true ["tel:+12065551212"] 7.

Definition group : ContactGroup :=
  mkContactGroup 1 uuid_group "Ryan & Macklemore" 1 true.

Definition db : DB :=
  mkDB [flow_A; flow_B; flow_C] [wanz] [group] [] [] [] [] [] [] 0 true.

Definition ctx : Context := mkContext 1 7.

Definition serializer : Serializer FlowStart :=
  FlowStartWriteSerializer UUIDField_to_internal_value URN_validate
    URN_normalize generate_uuid.

Definition flow_starts : CreateAPIMixin FlowStart :=
  FlowStartsEndpoint UUIDField_to_internal_value URN_validate
    URN_normalize generate_uuid.

Definition resthook_subscribers : CreateAPIMixin ResthookSubscriber :=
  ResthookSubscriberEndpoint text_field text_field add_subscriber
    subscriber_data.

Definition definitions : nat -> QueryDict -> DB -> Response :=
  DefinitionsEndpoint_get str_to_bool splitting_getlist.

End Demo.

(** ** The claims on the small organization *)

Import Demo.

(** A start of flow A for one new URN, asking not to restart participants. *)
Definition start_request : json :=
  JObj [("flow", JStr uuid_A);
        ("urns", JList [JStr "tel:+250788123123"]);
        ("restart_participants", JBool false)].

(** A start of flow A with no audience. *)
Definition flow_only_request : json :=
  JObj [("flow", JStr uuid_A)].

(** A start of flow A for a known and an unknown contact. *)
Definition unknown_contact_request : json :=
  JObj [("flow", JStr uuid_A);
        ("contacts", JList [JStr uuid_wanz; JStr uuid_unknown])].

(** A start of flow A for a valid URN followed by a malformed one. *)
Definition mixed_urns_request : json :=
  JObj [("flow", JStr uuid_A);
        ("urns", JList [JStr "tel:+250788123123"; JStr "bogus"])].

(** C1: the request supplies [restart_participants = false], and the flow
    start that is stored and returned has [restart_participants = true]:
    the serializer declares no such field, so the flag never reaches
    [validated_data] and [save] falls back on its default. *)
Theorem C1_restart_participants_false_is_not_recorded :
  json_get "restart_participants" start_request = Some (JBool false)
  /\ status (fst (post flow_starts ctx start_request db)) = HTTP_201_CREATED
  /\ map start_restart_participants
         (FlowStart_objects (snd (post flow_starts ctx start_request db)))
     = [true]
  /\ (exists data,
        body (fst (post flow_starts ctx start_request db)) = BodyData data
        /\ json_get "restart_participants" data = Some (JBool true)).
Proof.
  split; [reflexivity|]. split; [reflexivity|]. split; [reflexivity|].
  eexists. split; reflexivity.
Qed.

(** C2 on the request naming a known and an unknown contact. *)
Lemma C2_witness :
  exists errs db1,
    post flow_starts ctx unknown_contact_request db
    = (mkResponse (BodyErrors errs) HTTP_400_BAD_REQUEST, db1)
    /\ dict_get "contacts" errs
       = Some [Fmt "No contact found with UUID: %s"
                   (VList [VUUID uuid_wanz; VUUID uuid_unknown])]
    /\ FlowStart_objects db1 = FlowStart_objects db.
Proof.
  destruct (C2_invalid_request_creates_no_start
              Demo.UUIDField_to_internal_value Demo.URN_validate
              Demo.URN_normalize Demo.generate_uuid
              ctx unknown_contact_request db) as (Hinvalid & Hcontacts & _).
  destruct (Hcontacts (JList [JStr uuid_wanz; JStr uuid_unknown])
                      [uuid_wanz; uuid_unknown] eq_refl eq_refl)
    as (errs & db1 & Hrun & Hkey).
  { exists uuid_unknown. split; [simpl; auto | reflexivity]. }
  destruct (Hinvalid errs db1 Hrun) as (Hpost & _ & _ & Hstarts & _).
  exists errs, db1. auto.
Defined.

(** C3 on a request for flow A and an unknown UUID, dependencies off:
    flow A alone is exported, although it depends on flow B. *)
Lemma C3_witness :
  Demo.str_to_bool
    (qd_get [("flow", [uuid_A; uuid_unknown]); ("dependencies", ["false"])]
            "dependencies" "true") = false
  /\ exists export,
       body (definitions 1 [("flow", [uuid_A; uuid_unknown]);
                            ("dependencies", ["false"])] db)
       = BodyExport export
       /\ elements (export_flows export) = [1].
Proof.
  split; [reflexivity|].
  eexists. split.
  - unfold definitions.
    rewrite (proj2 (C3_without_dependencies_only_requested_flows
                      Demo.str_to_bool Demo.splitting_getlist 1
                      [("flow", [uuid_A; uuid_unknown]);
                       ("dependencies", ["false"])] db) eq_refl).
    reflexivity.
  - vm_compute. reflexivity.
Defined.

(** C4 as the claim states it: cross-field validation fails with the
    lower-case message exactly when the three collections are empty. *)
Definition C4_as_stated (ctx : Context) (data : dict) (db : DB) : Prop :=
  fst (FlowStartWriteSerializer_validate ctx data db)
  = Invalid [Msg "must specify at least one group, contact or URN"]
  <-> get_list data "contacts" = [] /\ get_list data "groups" = []
      /\ get_list data "urns" = [].

(** With no audience the three collections are empty, yet the error is not
    the lower-case message: the endpoint answers with the capitalized one. *)
Lemma C4_counterexample :
  ~ C4_as_stated ctx [("flow", VFlow flow_A)] db
  /\ post flow_starts ctx flow_only_request db
     = (mkResponse
          (BodyErrors
             [("non_field_errors",
               [Msg "Must specify at least one group, contact or URN"])])
          HTTP_400_BAD_REQUEST, db).
Proof.
  split; [|reflexivity].
  unfold C4_as_stated. intros [_ H].
  specialize (H (conj eq_refl (conj eq_refl eq_refl))).
  discriminate H.
Qed.

(** C4, as amended, on the request with no audience. *)
Lemma C4_witness :
  WriteSerializer_run_validation serializer ctx flow_only_request db
  = (Errors [("non_field_errors",
              [Msg "Must specify at least one group, contact or URN"])], db).
Proof.
  destruct (C4_audience_required
              Demo.UUIDField_to_internal_value Demo.URN_validate
              Demo.URN_normalize Demo.generate_uuid ctx db) as [_ Hrequest].
  destruct (Hrequest flow_only_request [("flow", VFlow flow_A)] db
                     eq_refl eq_refl) as [Hfails _].
  apply Hfails. repeat split.
Defined.

(** A campaign whose one active flow event starts flow B, and the small
    organization with this campaign. *)
Definition uuid_campaign : uuid := "9ccae91f-b3f8-4c18-ad92-e795a2332c11".
Definition reminders : Campaign :=
  mkCampaign 1 uuid_campaign 1
    [mkCampaignEvent TYPE_FLOW true (Some 2);
     mkCampaignEvent TYPE_MESSAGE true None].
Definition db_reminders : DB :=
  mkDB [flow_A; flow_B; flow_C] [wanz] [group] [reminders] [] [] [] [] [] 0
       true.

(** C5 on requests that name flow A next to a UUID nobody has and next to
    the UUID of a flow of another organization, and on a request that names
    the campaign next to a UUID nobody has. *)
Lemma C5_witness :
  Flow_known 1 db uuid_unknown = false
  /\ Flow_known 1 db uuid_C = false
  /\ definitions 1 [("flow", [uuid_unknown; uuid_A])] db
     = definitions 1 [("flow", [uuid_A])] db
  /\ definitions 1 [("flow", [uuid_C; uuid_A])] db
     = definitions 1 [("flow", [uuid_A])] db
  /\ (exists export,
        definitions 1 [("flow", [uuid_unknown; uuid_A])] db
        = mkResponse (BodyExport export) HTTP_200_OK
        /\ 1 ∈ export_flows export)
  /\ definitions 1 [("flow", [uuid_C; uuid_A]); ("dependencies", ["false"])] db
     = mkResponse (BodyExport (mkExport {[1]} ∅ ∅)) HTTP_200_OK
  /\ (exists export,
        definitions 1 [("campaign", [uuid_unknown; uuid_campaign])]
                    db_reminders
        = mkResponse (BodyExport export) HTTP_200_OK
        /\ export_campaigns export = {[1]}).
Proof.
  destruct (C5_unknown_uuids_are_dropped
              Demo.str_to_bool Demo.splitting_getlist 1 db)
    as (_ & _ & Hflow & _ & Hmixed & _).
  destruct (C5_unknown_uuids_are_dropped
              Demo.str_to_bool Demo.splitting_getlist 1 db_reminders)
    as (_ & _ & _ & _ & _ & Hcampaign & _).
  split; [reflexivity|]. split; [reflexivity|].
  split; [apply (Hflow uuid_A uuid_unknown); reflexivity|].
  split; [apply (Hflow uuid_A uuid_C); reflexivity|].
  split; [|split].
  - destruct (Hmixed [("flow", [uuid_unknown; uuid_A])] flow_A uuid_unknown
                     eq_refl eq_refl eq_refl)
      as (export & Hget & Hin & _).
    exists export. split; [exact Hget | exact Hin].
  - destruct (Hmixed [("flow", [uuid_C; uuid_A]); ("dependencies", ["false"])]
                     flow_A uuid_C eq_refl eq_refl eq_refl)
      as (export & Hget & _ & _ & Honly).
    unfold definitions. rewrite Hget, (Honly (or_introl eq_refl)).
    reflexivity.
  - destruct (Hcampaign [("campaign", [uuid_unknown; uuid_campaign])]
                        reminders uuid_unknown eq_refl eq_refl eq_refl)
      as (export & Hget & Hcampaigns & _).
    exists export. split; [exact Hget | exact Hcampaigns].
Defined.

(** C6 as the claim states it, URN by URN: an invalid URN of the list
    fails validation under [urns], and a valid URN of the list is resolved
    to a contact of the organization that has it once the request is
    handled. *)
Definition C6_as_stated (ctx : Context) (data : json) (items : list json)
    (db : DB) : Prop :=
  json_get "urns" data = Some (JList items) ->
  forall item, In item items ->
    (Demo.URN_validate item = false ->
     exists errs db',
       WriteSerializer_run_validation serializer ctx data db = (Errors errs, db')
       /\ dict_get "urns" errs <> None)
    /\ (Demo.URN_validate item = true ->
        exists contact,
          In contact (Contact_objects (snd (post flow_starts ctx data db)))
          /\ contact_org contact = ctx_org ctx
          /\ In (Demo.URN_normalize item) (contact_urns contact)).

(** The first URN of the list is valid and no contact has it, before or
    after the request: the malformed second URN fails the list before
    [validate_urns] runs. *)
Lemma C6_counterexample :
  ~ C6_as_stated ctx mixed_urns_request
      [JStr "tel:+250788123123"; JStr "bogus"] db.
Proof.
  unfold C6_as_stated. intros H.
  destruct (H eq_refl (JStr "tel:+250788123123") (or_introl eq_refl))
    as [_ Hvalid].
  destruct (Hvalid eq_refl) as (contact & Hin & _ & Hurn).
  vm_compute in Hin. destruct Hin as [<-|[]].
  vm_compute in Hurn. destruct Hurn as [Heq|[]]. discriminate Heq.
Qed.

(** C6, as amended, on the mixed list and on the list of one valid URN. *)
Lemma C6_witness :
  (exists detail errs,
      WriteSerializer_run_validation serializer ctx mixed_urns_request db
      = (Errors errs, db)
      /\ dict_get "urns" errs = Some detail)
  /\ (exists urn_contacts db',
        field_outcome ctx start_request
          (urns_field Demo.URN_validate Demo.URN_normalize Demo.generate_uuid) db
        = Some (Ok (VList (map VContact urn_contacts)), db')
        /\ length urn_contacts = 1).
Proof.
  split.
  - destruct (C6_urns_validated_then_resolved
                Demo.UUIDField_to_internal_value Demo.URN_validate
                Demo.URN_normalize Demo.generate_uuid
                ctx mixed_urns_request db
                [JStr "tel:+250788123123"; JStr "bogus"] eq_refl)
      as [Hinvalid _].
    apply Hinvalid. exists (JStr "bogus"). split; [simpl; auto | reflexivity].
  - destruct (C6_urns_validated_then_resolved
                Demo.UUIDField_to_internal_value Demo.URN_validate
                Demo.URN_normalize Demo.generate_uuid
                ctx start_request db [JStr "tel:+250788123123"] eq_refl)
      as [_ Hvalid].
    destruct Hvalid as (urn_contacts & db' & Hout & Hlen & _).
    { intros item [<-|[]]. exists "tel:+250788123123". auto. }
    exists urn_contacts, db'. auto.
Defined.



(** C8 on the small organization, where flows A and B start each other. *)
Lemma C8_witness :
  exists export,
    definitions 1 [("flow", [uuid_A])] db
    = mkResponse (BodyExport export) HTTP_200_OK
    /\ export_flows export = {[1; 2]}
    /\ elements (export_flows export) ≡ₚ [1; 2].
Proof.
  destruct (C8_cyclic_dependencies_terminate
              Demo.str_to_bool Demo.splitting_getlist db) as (_ & _ & Hcycle).
  destruct (Hcycle 1 [("flow", [uuid_A])] flow_A flow_B
                   eq_refl eq_refl eq_refl eq_refl eq_refl eq_refl eq_refl)
    as (export & Hget & Hflows & _ & Hperm).
  exists export. split; [exact Hget|]. split; [exact Hflows|].
  apply Hperm. discriminate.
Defined.

(** C9 as the claim states it: whenever a new-style parameter is present,
    it determines the requested UUIDs. *)
Definition C9_as_stated (params : QueryDict) : Prop :=
  (qd_contains params "flow" = true ->
   fst (requested_uuids Demo.splitting_getlist params)
   = qd_getlist params "flow")
  /\ (qd_contains params "campaign" = true ->
      snd (requested_uuids Demo.splitting_getlist params)
      = qd_getlist params "campaign").

(** A request with [flow=A] and [flow_uuid=B] asks for B. *)
Lemma C9_counterexample :
  ~ C9_as_stated [("flow", [uuid_A]); ("flow_uuid", [uuid_B])]
  /\ requested_uuids Demo.splitting_getlist
       [("flow", [uuid_A]); ("flow_uuid", [uuid_B])] = ([uuid_B], []).
Proof.
  split; [|reflexivity].
  unfold C9_as_stated. intros [Hflow _].
  specialize (Hflow eq_refl). discriminate Hflow.
Qed.

(** C9, as amended, with and without a deprecated parameter. *)
Lemma C9_witness :
  requested_uuids Demo.splitting_getlist
    [("flow", [uuid_A]); ("flow_uuid", [uuid_B])] = ([uuid_B], [])
  /\ requested_uuids Demo.splitting_getlist [("flow", [uuid_A])]
     = ([uuid_A], []).
Proof.
  split.
  - destruct (C9_deprecated_parameters_come_first
                Demo.str_to_bool Demo.splitting_getlist
                [("flow", [uuid_A]); ("flow_uuid", [uuid_B])])
      as (Hdeprecated & _ & _).
    rewrite (Hdeprecated (or_introl eq_refl)). reflexivity.
  - destruct (C9_deprecated_parameters_come_first
                Demo.str_to_bool Demo.splitting_getlist
                [("flow", [uuid_A])])
      as (_ & Hnew & _).
    rewrite (Hnew eq_refl eq_refl). reflexivity.
Defined.

(** C10 on a body that is a JSON list. *)
Lemma C10_witness :
  is_dict (JList [JStr uuid_A]) = false
  /\ post flow_starts ctx (JList [JStr uuid_A]) db
     = (mkResponse
          (BodyErrors [("non_field_errors",
                        [Msg "Request body should be a single JSON object"])])
          HTTP_400_BAD_REQUEST, db)
  /\ post resthook_subscribers ctx (JList [JStr uuid_A]) db
     = (mkResponse
          (BodyErrors [("non_field_errors",
                        [Msg "Request body should be a single JSON object"])])
          HTTP_400_BAD_REQUEST, db).
Proof.
  split; [reflexivity|].
  destruct (C10_body_must_be_a_json_object
              Demo.UUIDField_to_internal_value Demo.text_field Demo.text_field
              Demo.URN_validate Demo.URN_normalize Demo.generate_uuid
              Demo.add_subscriber Demo.subscriber_data
              (JList [JStr uuid_A]) ctx db eq_refl)
    as (_ & _ & Hstarts & Hsubscribers).
  split; [exact Hstarts | exact Hsubscribers].
Defined.

(** ** The further properties on the small organization *)

(** Resthooks: one of the organization, one of another organization; the
    organization's resthook has one subscriber. *)
Definition new_report : Resthook := mkResthook 1 "new-report" 1 true.
Definition partner_hook : Resthook := mkResthook 2 "partner-hook" 2 true.
Definition zapier : ResthookSubscriber :=
  mkResthookSubscriber 1 1 "https://zapier.com/handle/1515155" true.
Definition partner_subscriber : ResthookSubscriber :=
  mkResthookSubscriber 2 2 "https://example.com/partner" true.

(** A test contact next to Wanz. *)
Definition uuid_tester : uuid := "d33e9ad5-5c35-414c-abd4-e7451c69ff1d".
Definition tester : Contact :=
  mkContact 2 uuid_tester "Test Contact" 1 true ["tel:+12065550000"] 7.
Definition is_test (c : Contact) : bool := Nat.eqb (contact_id c) 2.

Definition office : DB :=
  mkDB [flow_A; flow_B; flow_C] [wanz; tester] [group] [reminders] []
       [new_report; partner_hook] [zapier; partner_subscriber] [] [] 0 true.

(** Runs of flow A: one of Wanz, one of the test contact. *)
Definition run_wanz : FlowRun := mkFlowRun 1 1 1 1 true 15.
Definition run_tester : FlowRun := mkFlowRun 2 1 1 2 false 25.

(** Dates are numbers of seconds, written in decimal digits. *)
Definition digit (c : ascii) : option nat :=
  let n := nat_of_ascii c in
  if Nat.leb 48 n && Nat.leb n 57 then Some (n - 48) else None.

Fixpoint parse_digits (acc : nat) (text : string) : option nat :=
  match text with
  | EmptyString => Some acc
  | String c rest =>
      match digit c with
      | Some d => parse_digits (10 * acc + d) rest
      | None => None
      end
  end.

Definition parse_date (text : string) : option nat :=
  match text with
  | EmptyString => None
  | String _ _ => parse_digits 0 text
  end.

Definition parse_int (text : string) : option Z :=
  option_map Z.of_nat (parse_date text).

Definition truth (text : option string) : bool :=
  match text with
  | Some text => Demo.str_to_bool text
  | None => false
  end.

Definition subscribe (slug url : string) : json :=
  JObj [("resthook", JStr slug); ("target_url", JStr url)].

Lemma X2_witness :
  snd (WriteSerializer_run_validation serializer ctx unknown_contact_request db)
  = db.
Proof.
  apply (X2_validation_without_urns_only_reads
           Demo.UUIDField_to_internal_value Demo.URN_validate
           Demo.URN_normalize Demo.generate_uuid
           ctx unknown_contact_request db).
  reflexivity.
Defined.

Lemma X3_witness :
  (exists contacts,
      fst (validate_contacts ctx [uuid_wanz] db)
      = Ok (VList (map VContact contacts))
      /\ Forall2 (fun u c => contact_uuid c = u
                             /\ contact_org c = ctx_org ctx
                             /\ contact_is_active c = true
                             /\ In c (Contact_objects db))
                 [uuid_wanz] contacts)
  /\ fst (validate_contacts ctx [uuid_wanz; uuid_unknown] db)
     = Invalid [Fmt "No contact found with UUID: %s"
                    (VList (map VUUID [uuid_wanz; uuid_unknown]))].
Proof.
  split.
  - destruct (X3_validate_contacts_all_or_nothing ctx [uuid_wanz] db)
      as (_ & Hall & _).
    apply Hall. intros u [<-|[]]. discriminate.
  - destruct (X3_validate_contacts_all_or_nothing ctx
                [uuid_wanz; uuid_unknown] db) as (_ & _ & Hone).
    apply Hone. exists uuid_unknown. split; [right; left|]; reflexivity.
Defined.

Lemma X4_witness :
  (exists groups,
      fst (validate_groups ctx [uuid_group] db)
      = Ok (VList (map VGroup groups))
      /\ Forall2 (fun u g => group_uuid g = u
                             /\ group_org g = ctx_org ctx
                             /\ group_is_active g = true
                             /\ In g (ContactGroup_objects db))
                 [uuid_group] groups)
  /\ fst (validate_groups ctx [uuid_unknown; uuid_group] db)
     = Invalid [Fmt "No group found with UUID: %s"
                    (VList (map VUUID [uuid_unknown; uuid_group]))].
Proof.
  split.
  - destruct (X4_validate_groups_all_or_nothing ctx [uuid_group] db)
      as (_ & Hall & _).
    apply Hall. intros u [<-|[]]. discriminate.
  - destruct (X4_validate_groups_all_or_nothing ctx
                [uuid_unknown; uuid_group] db) as (_ & _ & Hone).
    apply Hone. exists uuid_unknown. split; [left|]; reflexivity.
Defined.

Lemma X5_witness :
  exists start,
    FlowStart_objects (snd (post flow_starts ctx start_request db))
    = FlowStart_objects db ++ [start]
    /\ start_created_by start = ctx_user ctx
    /\ flow_org (start_flow start) = ctx_org ctx
    /\ flow_is_active (start_flow start) = true
    /\ Forall (fun g => group_org g = ctx_org ctx /\ group_is_active g = true)
              (start_groups start)
    /\ Forall (fun c => contact_org c = ctx_org ctx) (start_contacts start)
    /\ (start_contacts start <> [] \/ start_groups start <> []).
Proof.
  eapply (X5_created_start_stays_in_the_organization
            Demo.UUIDField_to_internal_value Demo.URN_validate
            Demo.URN_normalize Demo.generate_uuid ctx start_request db).
  reflexivity.
Defined.

(** The resthook of the other organization is not found. *)
Lemma X6_witness :
  exists errs,
    post resthook_subscribers ctx
         (subscribe "partner-hook" "https://example.com/hook") office
    = (mkResponse (BodyErrors errs) HTTP_400_BAD_REQUEST, office)
    /\ dict_get "resthook" errs
       = Some [Fmt "No resthook with slug: %s" (VText "partner-hook")].
Proof.
  apply (X6_unknown_resthook_is_refused text_field text_field add_subscriber
           subscriber_data ctx
           (subscribe "partner-hook" "https://example.com/hook")
           (JStr "partner-hook") office "partner-hook").
  - reflexivity.
  - reflexivity.
  - discriminate.
  - intros r [<-|[<-|[]]] Hslug.
    + discriminate Hslug.
    + right. discriminate.
Defined.

Lemma X7_witness :
  post resthook_subscribers ctx
       (subscribe "new-report" "https://zapier.com/handle/1515155") office
  = (mkResponse
       (BodyErrors [("non_field_errors",
                     [Msg "URL is already subscribed to this event."])])
       HTTP_400_BAD_REQUEST, office).
Proof.
  apply (X7_duplicate_subscription_is_refused text_field text_field
           add_subscriber subscriber_data ctx
           (subscribe "new-report" "https://zapier.com/handle/1515155")
           (JStr "new-report") (JStr "https://zapier.com/handle/1515155")
           office "new-report" "https://zapier.com/handle/1515155"
           new_report).
  - reflexivity.
  - reflexivity.
  - reflexivity.
  - reflexivity.
  - reflexivity.
  - exists zapier. repeat split. left. reflexivity.
Defined.

Lemma X8_witness :
  post resthook_subscribers ctx
       (subscribe "new-report" "https://example.com/hook") office
  = (mkResponse
       (BodyData
          (subscriber_data ctx
             (fst (add_subscriber new_report "https://example.com/hook"
                                  (ctx_user ctx) office))))
       HTTP_201_CREATED,
     snd (add_subscriber new_report "https://example.com/hook"
                         (ctx_user ctx) office)).
Proof.
  apply (X8_new_subscription_is_added text_field text_field
           add_subscriber subscriber_data ctx
           (subscribe "new-report" "https://example.com/hook")
           (JStr "new-report") (JStr "https://example.com/hook")
           office "new-report" "https://example.com/hook" new_report).
  - reflexivity.
  - reflexivity.
  - reflexivity.
  - reflexivity.
  - reflexivity.
  - intros s [<-|[<-|[]]] Hresthook Hurl.
    + discriminate Hurl.
    + discriminate Hresthook.
Defined.

Lemma X9_witness :
  definitions 1 [("flow", [uuid_B; uuid_A; uuid_B])] office
  = definitions 1 [("flow", [uuid_A; uuid_B])] office.
Proof.
  apply (X9_export_ignores_order_and_repeats Demo.str_to_bool
           Demo.splitting_getlist 1 office
           [("flow", [uuid_A; uuid_B])] [("flow", [uuid_B; uuid_A; uuid_B])]).
  - reflexivity.
  - intros u. simpl. split.
    + intros [H|[H|[H|[]]]]; auto.
    + intros [H|[H|[]]]; auto.
  - intros u. simpl. split; intros [].
Defined.

Lemma X10_witness :
  exists export,
    definitions 1 [("campaign", [uuid_campaign])] office
    = mkResponse (BodyExport export) HTTP_200_OK
    /\ 2 ∈ export_flows export.
Proof.
  apply (X10_campaign_event_flows_are_exported Demo.str_to_bool
           Demo.splitting_getlist 1 [("campaign", [uuid_campaign])] office
           reminders (mkCampaignEvent TYPE_FLOW true (Some 2)) 2).
  - reflexivity.
  - left. reflexivity.
  - reflexivity.
  - left. reflexivity.
  - left. reflexivity.
  - reflexivity.
  - reflexivity.
  - reflexivity.
Defined.

Lemma names_differ_messages :
  List.NoDup (exclusive_params MessagesEndpoint)
  /\ List.NoDup (required_params MessagesEndpoint).
Proof.
  split; simpl;
    repeat (apply List.NoDup_cons;
            [simpl; intros H;
             repeat (destruct H as [H|H]; [discriminate H|]); exact H|]);
    apply List.NoDup_nil.
Defined.

Lemma X11_witness :
  check_query MessagesEndpoint [("folder", ["inbox"]); ("contact", [""])]
  = Passed
  <-> at_most_one [("folder", ["inbox"]); ("contact", [""])]
                  (exclusive_params MessagesEndpoint)
      /\ (required_params MessagesEndpoint = []
          \/ (exists p, In p (required_params MessagesEndpoint)
                        /\ given [("folder", ["inbox"]); ("contact", [""])] p
                           = true)
             /\ at_most_one [("folder", ["inbox"]); ("contact", [""])]
                            (required_params MessagesEndpoint)).
Proof.
  exact (X11_check_query_accepts MessagesEndpoint
           [("folder", ["inbox"]); ("contact", [""])]
           (proj1 names_differ_messages) (proj2 names_differ_messages)).
Defined.

Lemma X12_witness :
  check_query RunsEndpoint [("contact", [uuid_wanz]); ("flow", [uuid_A])]
  = InvalidQueryError
      "You may only specify one of the contact, flow parameters".
Proof.
  apply (X12_exclusive_parameters_exclude RunsEndpoint
           [("contact", [uuid_wanz]); ("flow", [uuid_A])] "contact" "flow").
  - left. reflexivity.
  - right. left. reflexivity.
  - discriminate.
  - reflexivity.
  - reflexivity.
Defined.

Lemma X13_witness :
  check_query MessagesEndpoint [("label", ["Spam"])] = Passed
  /\ check_query RunsEndpoint [("flow", [uuid_A])] = Passed.
Proof.
  split.
  - apply (proj1 (X13_messages_and_runs_queries [("label", ["Spam"])])).
    exists "label". split; [right; right; left; reflexivity|].
    split; [reflexivity|].
    intros q [<-|[<-|[<-|[<-|[<-|[]]]]]] Hq;
      first [reflexivity | discriminate Hq].
  - apply (proj2 (X13_messages_and_runs_queries [("flow", [uuid_A])])).
    intros [H _]. discriminate H.
Defined.

Lemma X14_witness :
  (forall row,
      In row (filter_before_after parse_date
                [("after", ["10"]); ("before", ["20"])]
                [run_wanz; run_tester] run_modified_on)
      <-> In row [run_wanz; run_tester] /\ 10 <= run_modified_on row <= 20)
  /\ (20 < 10 ->
      filter_before_after parse_date [("after", ["10"]); ("before", ["20"])]
        [run_wanz; run_tester] run_modified_on = []).
Proof.
  apply (X14_before_and_after_bound_the_listing parse_date
           [("after", ["10"]); ("before", ["20"])] [run_wanz; run_tester]
           run_modified_on "20" "10" 20 10).
  - reflexivity.
  - discriminate.
  - reflexivity.
  - reflexivity.
  - discriminate.
  - reflexivity.
Defined.

Lemma X15_witness :
  filter_before_after parse_date
    [("after", ["10"]); ("before", ["yesterday"])]
    [run_wanz; run_tester] run_modified_on = [].
Proof.
  apply (X15_unparseable_date_lists_nothing parse_date
           [("after", ["10"]); ("before", ["yesterday"])]
           [run_wanz; run_tester] run_modified_on "before" "yesterday").
  - left. reflexivity.
  - reflexivity.
  - discriminate.
  - reflexivity.
Defined.

Lemma X16_witness :
  filter_queryset parse_date truth parse_int is_test 1 [("flow", [uuid_A])]
    office [run_wanz; run_tester] = Some [run_wanz]
  /\ is_test wanz = false.
Proof.
  split; [reflexivity|].
  apply (X16_runs_of_test_contacts_are_hidden parse_date truth parse_int
           is_test 1 [("flow", [uuid_A])] office [run_wanz; run_tester]
           [run_wanz] run_wanz wanz).
  - simpl. apply List.NoDup_cons; [intros [H|[]]; discriminate H|].
    apply List.NoDup_cons; [intros []|]. apply List.NoDup_nil.
  - reflexivity.
  - left. reflexivity.
  - left. reflexivity.
  - reflexivity.
  - reflexivity.
Defined.

(** Flow C belongs to another organization. *)
Lemma X17_witness :
  filter_queryset parse_date truth parse_int is_test 1 [("flow", [uuid_C])]
    office [run_wanz; run_tester] = Some [].
Proof.
  apply (X17_unknown_flow_or_contact_lists_no_run parse_date truth parse_int
           is_test 1 [("flow", [uuid_C])] office [run_wanz; run_tester]
           uuid_C).
  - discriminate.
  - left. split; [reflexivity|].
    intros f [<-|[<-|[<-|[]]]] Huuid.
    + discriminate Huuid.
    + discriminate Huuid.
    + left. discriminate.
  - intros id Hid. discriminate Hid.
Defined.

Lemma X19_witness :
  dict_get "N"
    (extract_constants [("T", "text", "Text"); ("N", "decimal", "Number");
                        ("N", "numeric", "Numeric"); ("D", "date", "Date")])
  = Some "Numeric"
  /\ dict_get "S"
       (extract_constants [("T", "text", "Text"); ("N", "decimal", "Number");
                           ("N", "numeric", "Numeric"); ("D", "date", "Date")])
     = None.
Proof.
  split.
  - apply (proj1 (X19_extract_constants_last_wins
                    [("T", "text", "Text"); ("N", "decimal", "Number");
                     ("N", "numeric", "Numeric"); ("D", "date", "Date")] "N")
                 [("T", "text", "Text"); ("N", "decimal", "Number")]
                 "numeric" "Numeric" [("D", "date", "Date")]).
    + reflexivity.
    + intros t [<-|[]]. discriminate.
  - apply (proj2 (X19_extract_constants_last_wins
                    [("T", "text", "Text"); ("N", "decimal", "Number");
                     ("N", "numeric", "Numeric"); ("D", "date", "Date")] "S")).
    intros t [<-|[<-|[<-|[<-|[]]]]]; discriminate.
Defined.

(** Two deleted contacts with the same UUID and timestamps, and the read
    serializer of an organization with one contact field. *)
Definition uuid_gone : uuid := "5079cb96-a1d8-4f47-8c87-d8c7bb6ddab9".
Definition gone : Contact :=
  mkContact 3 uuid_gone "Ben Haggerty" 1 false ["tel:+12065551313"] 7.
Definition forgotten : Contact :=
  mkContact 4 uuid_gone "" 1 false [] 9.

Definition contact_data (anon : bool) : Context -> Contact -> json :=
  ContactReadSerializer_data
    (fun _ => anon)
    (fun c => if Nat.eqb (contact_id c) 3 then Some "eng" else None)
    (fun c => Nat.eqb (contact_id c) 3)
    (fun _ => false)
    (fun c => if Nat.eqb (contact_id c) 3 then [group] else [])
    (fun _ => 100)
    (fun _ => 200)
    string string
    (fun key => key)
    (fun _ => ["nickname"])
    (fun c key => contact_name c)
    (fun _ value => JStr value).

Lemma X20_witness :
  contact_data false ctx gone = contact_data false (mkContext 1 8) forgotten
  /\ json_get "urns" (contact_data true ctx wanz) = Some (JList []).
Proof.
  split.
  - apply (proj1 (X20_deleted_and_anonymous_contacts_are_masked
                    (fun _ => false)
                    (fun c => if Nat.eqb (contact_id c) 3 then Some "eng"
                              else None)
                    (fun c => Nat.eqb (contact_id c) 3)
                    (fun _ => false)
                    (fun c => if Nat.eqb (contact_id c) 3 then [group] else [])
                    (fun _ => 100)
                    (fun _ => 200)
                    string string
                    (fun key => key)
                    (fun _ => ["nickname"])
                    (fun c key => contact_name c)
                    (fun _ value => JStr value)
                    ctx (mkContext 1 8) gone forgotten));
      reflexivity.
  - apply (proj2 (X20_deleted_and_anonymous_contacts_are_masked
                    (fun _ => true)
                    (fun c => if Nat.eqb (contact_id c) 3 then Some "eng"
                              else None)
                    (fun c => Nat.eqb (contact_id c) 3)
                    (fun _ => false)
                    (fun c => if Nat.eqb (contact_id c) 3 then [group] else [])
                    (fun _ => 100)
                    (fun _ => 200)
                    string string
                    (fun key => key)
                    (fun _ => ["nickname"])
                    (fun c key => contact_name c)
                    (fun _ value => JStr value)
                    ctx ctx wanz wanz)).
    reflexivity.
Defined.

(** Run 3 belongs to another organization. *)
Lemma X21_witness :
  filter_queryset parse_date truth parse_int is_test 1 []
    office (get_queryset 1 [run_wanz; run_tester; mkFlowRun 3 2 3 9 true 5])
  = Some [run_wanz]
  /\ In run_wanz [run_wanz; run_tester; mkFlowRun 3 2 3 9 true 5]
  /\ run_org run_wanz = 1.
Proof.
  split; [reflexivity|].
  apply (X21_listed_runs_belong_to_the_organization parse_date truth
           parse_int is_test 1 [] office
           [run_wanz; run_tester; mkFlowRun 3 2 3 9 true 5] [run_wanz]
           run_wanz).
  - reflexivity.
  - left. reflexivity.
Defined.
